(** * Pet-Calendar: the events and getPetNames serverless handlers

    A shallow embedding of [netlify/functions/events.js] (the PUT block:
    series regeneration and single-row update) and of
    [netlify/functions/getPetNames.js], with the properties of the
    specification stated over it.

    Conventions of the embedding.
    - JavaScript numbers that occur here are integers or [NaN]; they are
      [JSNum].  Arithmetic is exact (every value that survives [TimeClip]
      is below 2^53).  Numeric strings with a fraction, an exponent, a radix
      prefix or [Infinity] denote other doubles and are outside the embedding.
    - Strings are [string] (one [ascii] per code unit).
    - A [Date] object is its time value: [Invalid] or milliseconds since the
      epoch, UTC.  The runtime's local zone has a constant offset [LocalTZA]
      (Netlify functions run in UTC, offset 0); zones with daylight saving
      are outside the embedding.
    - The events table is a list of rows in insertion order. *)

From Stdlib Require Import ZArith List String Ascii Bool Lia.
From Stdlib Require Import Sorted Permutation.
From Stdlib Require DecimalString DecimalPos DecimalZ.
Import DecimalString.
Import ListNotations.

#[local] Open Scope string_scope.
#[local] Open Scope list_scope.
#[local] Open Scope Z_scope.

(** ** JavaScript numbers and their string forms *)

Inductive JSNum : Type :=
| NaN
| Int (z : Z).

Definition JSNum_eqb (a b : JSNum) : bool :=
  match a, b with
  | NaN, NaN => true
  | Int x, Int y => Z.eqb x y
  | _, _ => false
  end.

(** [isNaN] on a number. *)
Definition isNaN (n : JSNum) : bool :=
  match n with NaN => true | Int _ => false end.

(** White space that [StringToNumber] strips (the ASCII part of it). *)
Definition is_ws (c : ascii) : bool :=
  let n := nat_of_ascii c in
  (Nat.eqb n 32 || (Nat.leb 9 n && Nat.leb n 13))%bool.

Fixpoint trim_start (s : string) : string :=
  match s with
  | EmptyString => EmptyString
  | String c r => if is_ws c then trim_start r else s
  end.

Fixpoint trim_end (s : string) : string :=
  match s with
  | EmptyString => EmptyString
  | String c r =>
      match trim_end r with
      | EmptyString => if is_ws c then EmptyString else String c EmptyString
      | r' => String c r'
      end
  end.

Definition trim (s : string) : string := trim_end (trim_start s).

(** A non-empty run of decimal digits, read in base ten. *)
Definition digits_value (s : string) : JSNum :=
  match s with
  | EmptyString => NaN
  | _ =>
      match NilEmpty.uint_of_string s with
      | Some d => Int (Z.of_N (N.of_uint d))
      | None => NaN
      end
  end.

(** [Number(s)] for a string argument: white space is stripped, the empty
    string is 0, an optionally signed run of digits is its value, anything
    else is [NaN]. *)
Definition Number (s : string) : JSNum :=
  match trim s with
  | EmptyString => Int 0
  | String "+" r => digits_value r
  | String "-" r =>
      match digits_value r with
      | Int z => Int (- z)
      | NaN => NaN
      end
  | t => digits_value t
  end.

(** [String(n)], also what a template literal and [toString()] give. *)
Definition toString (n : JSNum) : string :=
  match n with
  | NaN => "NaN"
  | Int z => NilEmpty.string_of_int (Z.to_int z)
  end.

(** [s.padStart(2, '0')]. *)
Definition padStart2 (s : string) : string :=
  match s with
  | EmptyString => "00"
  | String c EmptyString => String "0" s
  | _ => s
  end.

(** [s.split(sep)] for a one-character separator. *)
Fixpoint split (sep : ascii) (s : string) : list string :=
  match s with
  | EmptyString => [EmptyString]
  | String c r =>
      if Ascii.eqb c sep then EmptyString :: split sep r
      else match split sep r with
           | h :: t => String c h :: t
           | [] => [String c EmptyString]
           end
  end.

(** Array destructuring after [.map(Number)]: a missing element is
    [undefined], which [isNaN] and the [Date] constructor both treat as
    [NaN]. *)
Definition nth_num (i : nat) (l : list string) : JSNum :=
  match nth_error l i with
  | Some s => Number s
  | None => NaN
  end.

(** ** ECMAScript time values *)

Module TimeValue.

Definition msPerDay : Z := 86400000.
Definition msPerHour : Z := 3600000.
Definition msPerMinute : Z := 60000.
Definition maxTime : Z := 8640000000000000.

Definition Day (t : Z) : Z := t / msPerDay.
Definition TimeWithinDay (t : Z) : Z := t mod msPerDay.

Definition DaysInYear (y : Z) : Z :=
  if negb (y mod 4 =? 0) then 365
  else if negb (y mod 100 =? 0) then 366
  else if negb (y mod 400 =? 0) then 365
  else 366.

Definition DayFromYear (y : Z) : Z :=
  365 * (y - 1970) + (y - 1969) / 4 - (y - 1901) / 100 + (y - 1601) / 400.

(** The largest [y] with [DayFromYear y <= d]: an estimate from the mean
    year length, corrected by at most one. *)
Definition YearFromDay (d : Z) : Z :=
  let y := 1970 + (400 * d) / 146097 in
  if d <? DayFromYear y then y - 1
  else if DayFromYear (y + 1) <=? d then y + 1
  else y.

Definition InLeapYear (y : Z) : Z :=
  if DaysInYear y =? 366 then 1 else 0.

Definition DayWithinYear (d : Z) : Z := d - DayFromYear (YearFromDay d).

(** Days before the first of month [m] (0 = January). *)
Definition DaysBeforeMonth (m leap : Z) : Z :=
  if m =? 0 then 0
  else if m =? 1 then 31
  else if m =? 2 then 59 + leap
  else if m =? 3 then 90 + leap
  else if m =? 4 then 120 + leap
  else if m =? 5 then 151 + leap
  else if m =? 6 then 181 + leap
  else if m =? 7 then 212 + leap
  else if m =? 8 then 243 + leap
  else if m =? 9 then 273 + leap
  else if m =? 10 then 304 + leap
  else 334 + leap.

Definition MonthFromDay (d : Z) : Z :=
  let w := DayWithinYear d in
  let leap := InLeapYear (YearFromDay d) in
  if w <? 31 then 0
  else if w <? 59 + leap then 1
  else if w <? 90 + leap then 2
  else if w <? 120 + leap then 3
  else if w <? 151 + leap then 4
  else if w <? 181 + leap then 5
  else if w <? 212 + leap then 6
  else if w <? 243 + leap then 7
  else if w <? 273 + leap then 8
  else if w <? 304 + leap then 9
  else if w <? 334 + leap then 10
  else 11.

Definition DateFromDay (d : Z) : Z :=
  DayWithinYear d
  - DaysBeforeMonth (MonthFromDay d) (InLeapYear (YearFromDay d)) + 1.

Definition WeekDay (t : Z) : Z := (Day t + 4) mod 7.

Definition YearFromTime (t : Z) : Z := YearFromDay (Day t).
Definition MonthFromTime (t : Z) : Z := MonthFromDay (Day t).
Definition DateFromTime (t : Z) : Z := DateFromDay (Day t).

Definition MakeTime (hour min sec ms : Z) : Z :=
  hour * msPerHour + min * msPerMinute + sec * 1000 + ms.

Definition MakeDay (year month date : Z) : Z :=
  let ym := year + month / 12 in
  let mn := month mod 12 in
  DayFromYear ym + DaysBeforeMonth mn (InLeapYear ym) + date - 1.

Definition MakeDate (day time : Z) : Z := day * msPerDay + time.

Definition TimeClip (t : Z) : option Z :=
  if maxTime <? Z.abs t then None else Some t.

End TimeValue.

Import TimeValue.

(** ** JavaScript values (the parsed JSON body) *)

#[local] Set Warnings "-register-all".

Inductive JSValue : Type :=
| JUndefined
| JNull
| JBool (b : bool)
| JNumber (n : JSNum)
| JString (s : string)
| JArray (items : list JSValue)
| JObject (props : list (string * JSValue)).

(** [ToBoolean]. *)
Definition truthy (v : JSValue) : bool :=
  match v with
  | JUndefined | JNull => false
  | JBool b => b
  | JNumber NaN => false
  | JNumber (Int z) => negb (z =? 0)
  | JString s => negb (String.eqb s "")
  | JArray _ | JObject _ => true
  end.

(** [a || b]. *)
Definition js_or (a b : JSValue) : JSValue := if truthy a then a else b.

(** [ToNumber]; an array goes through its [join(',')] string. *)
Fixpoint ToNumber (v : JSValue) : JSNum :=
  match v with
  | JUndefined => NaN
  | JNull => Int 0
  | JBool b => Int (if b then 1 else 0)
  | JNumber n => n
  | JString s => Number s
  | JObject _ => NaN
  | JArray [] => Int 0
  | JArray [x] =>
      match x with
      | JUndefined | JNull => Int 0
      | JBool _ | JObject _ => NaN
      | JNumber n => n
      | JString s => Number s
      | JArray _ => ToNumber x
      end
  | JArray _ => NaN
  end.

Definition num_add (a b : JSNum) : JSNum :=
  match a, b with
  | Int x, Int y => Int (x + y)
  | _, _ => NaN
  end.

Definition num_mul (a b : JSNum) : JSNum :=
  match a, b with
  | Int x, Int y => Int (x * y)
  | _, _ => NaN
  end.

(** The index strings ["0"], ["1"], ... of an array-like of length [n]. *)
Definition index_keys (n : nat) : list string :=
  map (fun i => toString (Int (Z.of_nat i))) (seq 0 n).

(** [Object.keys(v)] for a value that is neither [null] nor [undefined]
    ([None] stands for the [TypeError] on those).  The keys of a parsed JSON
    object are distinct. *)
Definition Object_keys (v : JSValue) : option (list string) :=
  match v with
  | JUndefined | JNull => None
  | JObject props => Some (map fst props)
  | JArray items => Some (index_keys (List.length items))
  | JString s => Some (index_keys (String.length s))
  | JBool _ | JNumber _ => Some []
  end.

Fixpoint lookup_prop (k : string) (props : list (string * JSValue)) : JSValue :=
  match props with
  | [] => JUndefined
  | (k', v) :: rest => if String.eqb k' k then v else lookup_prop k rest
  end.

(** The array index a property key denotes, when it is one. *)
Definition key_index (k : string) : option nat :=
  match Number k with
  | Int z =>
      if (0 <=? z) && String.eqb (toString (Int z)) k then Some (Z.to_nat z)
      else None
  | NaN => None
  end.

(** [v[k]] for a value that is neither [null] nor [undefined]. *)
Definition get_prop (v : JSValue) (k : string) : JSValue :=
  match v with
  | JObject props => lookup_prop k props
  | JArray items =>
      if String.eqb k "length" then JNumber (Int (Z.of_nat (List.length items)))
      else match key_index k with
           | Some i => nth i items JUndefined
           | None => JUndefined
           end
  | JString s =>
      if String.eqb k "length" then JNumber (Int (Z.of_nat (String.length s)))
      else match key_index k with
           | Some i =>
               match String.get i s with
               | Some c => JString (String c EmptyString)
               | None => JUndefined
               end
           | None => JUndefined
           end
  | _ => JUndefined
  end.

(** ** Date objects *)

Inductive JSDate : Type :=
| Invalid
| Valid (t : Z).

Definition clip (t : Z) : JSDate :=
  match TimeClip t with
  | Some t' => Valid t'
  | None => Invalid
  end.

(** [new Date(value)] for a number. *)
Definition Date_of_number (n : JSNum) : JSDate :=
  match n with
  | NaN => Invalid
  | Int t => clip t
  end.

(** [d.getTime()]. *)
Definition getTime (d : JSDate) : JSNum :=
  match d with
  | Invalid => NaN
  | Valid t => Int t
  end.

(** [a <= b] on two [Date] objects: the comparison of their time values,
    false when either is [NaN]. *)
Definition date_le (a b : JSDate) : bool :=
  match a, b with
  | Valid x, Valid y => x <=? y
  | _, _ => false
  end.

(** [selectedDays.includes(x)]. *)
Definition includes (l : list JSNum) (x : JSNum) : bool :=
  existsb (JSNum_eqb x) l.

Section Runtime.

(** Offset of the runtime's local zone from UTC, in milliseconds. *)
Variable LocalTZA : Z.

Definition LocalTime (t : Z) : Z := t + LocalTZA.
Definition UTC (t : Z) : Z := t - LocalTZA.

(** [new Date(year, monthIndex, day, hours, minutes)]. *)
Definition Date_of_fields (year month day hours minutes : JSNum) : JSDate :=
  match year, month, day, hours, minutes with
  | Int y, Int m, Int dt, Int h, Int mi =>
      let yr := if (0 <=? y) && (y <=? 99) then 1900 + y else y in
      clip (UTC (MakeDate (MakeDay yr m dt) (MakeTime h mi 0 0)))
  | _, _, _, _, _ => Invalid
  end.

Definition getFullYear (d : JSDate) : JSNum :=
  match d with
  | Invalid => NaN
  | Valid t => Int (YearFromTime (LocalTime t))
  end.

Definition getMonth (d : JSDate) : JSNum :=
  match d with
  | Invalid => NaN
  | Valid t => Int (MonthFromTime (LocalTime t))
  end.

Definition getDate (d : JSDate) : JSNum :=
  match d with
  | Invalid => NaN
  | Valid t => Int (DateFromTime (LocalTime t))
  end.

Definition getDay (d : JSDate) : JSNum :=
  match d with
  | Invalid => NaN
  | Valid t => Int (WeekDay (LocalTime t))
  end.

(** [d.setDate(dt)], as the new value of [d]. *)
Definition setDate (d : JSDate) (dt : JSNum) : JSDate :=
  match d, dt with
  | Valid t, Int n =>
      let lt := LocalTime t in
      clip (UTC (MakeDate (MakeDay (YearFromTime lt) (MonthFromTime lt) n)
                          (TimeWithinDay lt)))
  | _, _ => Invalid
  end.

(** *** The helpers of events.js *)

Definition formatDateToYYYYMMDD (date : JSDate) : string :=
  let year := getFullYear date in
  let month := padStart2 (toString (num_add (getMonth date) (Int 1))) in
  let day := padStart2 (toString (getDate date)) in
  (toString year ++ "-" ++ month ++ "-" ++ day)%string.

Definition parseDateTime (dateString timeString : string) : JSDate :=
  let cleanDateString := hd EmptyString (split "T" dateString) in
  let ymd := split "-" cleanDateString in
  let year := nth_num 0 ymd in
  let month := nth_num 1 ymd in
  let day := nth_num 2 ymd in
  let hm := split ":" timeString in
  let hours := nth_num 0 hm in
  let minutes := nth_num 1 hm in
  if isNaN year || isNaN month || isNaN day then Date_of_number NaN
  else Date_of_fields year (num_add month (Int (-1))) day hours minutes.

End Runtime.

(** ** The events table *)

(** A query parameter as the driver sends it, and so a stored cell:
    [undefined] and [null] become [NULL], numbers and strings their text,
    objects their JSON text ([SJson v] is the text [JSON.stringify(v)]),
    arrays an array literal. *)
Inductive SqlValue : Type :=
| SNull
| SBool (b : bool)
| SText (s : string)
| SJson (v : JSValue)
| SArray (items : list JSValue).

Definition prepareValue (v : JSValue) : SqlValue :=
  match v with
  | JUndefined | JNull => SNull
  | JBool b => SBool b
  | JNumber n => SText (toString n)
  | JString s => SText s
  | JArray items => SArray items
  | JObject _ => SJson v
  end.

(** Modelled from the spec: the events table itself is not declared in the
    repository; its columns are the fields of an event instance (section 3
    of the specification) and the column lists of the INSERT and UPDATE
    statements in events.js. *)
Record Row : Type := mkRow {
  uid : SqlValue;
  summary : SqlValue;
  type : SqlValue;
  dtstart : SqlValue;
  dtend : SqlValue;
  description : SqlValue;
  is_recurring : SqlValue;
  recurring_days : SqlValue;
  series_id : SqlValue;
  recur_until : SqlValue;
  series_start_date : SqlValue
}.

(** [column = $n] for a text parameter: [NULL] equals nothing. *)
Definition sql_eq_text (cell : SqlValue) (param : string) : bool :=
  match cell with
  | SText s => String.eqb s param
  | _ => false
  end.

(** [s.padStart(n, '0')]. *)
Definition padStart (n : nat) (s : string) : string :=
  (String.concat "" (repeat "0" (n - String.length s)%nat) ++ s)%string.

Definition pad_num (n : nat) (z : Z) : string := padStart n (toString (Int z)).

(** [d.toISOString()] for the time value of a valid date. *)
Definition ISOString (t : Z) : string :=
  let y := YearFromTime t in
  let sign := if y <? 0 then "-" else "+" in
  let year :=
    if (0 <=? y) && (y <=? 9999) then pad_num 4 y
    else (sign ++ pad_num 6 (Z.abs y))%string in
  let w := TimeWithinDay t in
  (year ++ "-" ++ pad_num 2 (MonthFromTime t + 1) ++ "-" ++ pad_num 2 (DateFromTime t)
    ++ "T" ++ pad_num 2 (w / msPerHour) ++ ":" ++ pad_num 2 ((w / msPerMinute) mod 60)
    ++ ":" ++ pad_num 2 ((w / 1000) mod 60) ++ "." ++ pad_num 3 (w mod 1000) ++ "Z")%string.

(** ** Requests, responses and the state of the store *)

Record Params : Type := mkParams {
  seriesId : option string;
  uid_param : option string
}.

(** [if (params.x)]: present and not the empty string. *)
Definition param_given (p : option string) : option string :=
  match p with
  | Some s => if String.eqb s "" then None else Some s
  | None => None
  end.

Inductive Body : Type :=
| Message (s : string)
| Error (s : string)
| Plain (s : string)
| Names (l : list string).

Record Response : Type := mkResponse {
  statusCode : Z;
  body : Body
}.

(** The store as one session sees it: the table, the table as it was at
    BEGIN while a transaction is open, the number of statements issued and
    the number of identifiers drawn so far. *)
Record World : Type := mkWorld {
  events : list Row;
  snapshot : option (list Row);
  queries : nat;
  uuids : nat
}.

Inductive Exn : Type :=
| TypeError
| RangeError
| StoreError.

Inductive Outcome (A : Type) : Type :=
| Return (a : A) (w : World)
| Throw (e : Exn) (w : World)
| OutOfFuel.

Arguments Return {A} a w.
Arguments Throw {A} e w.
Arguments OutOfFuel {A}.

Definition M (A : Type) : Type := World -> Outcome A.

Definition ret {A} (a : A) : M A := fun w => Return a w.

Definition bind {A B} (m : M A) (k : A -> M B) : M B :=
  fun w =>
    match m w with
    | Return a w' => k a w'
    | Throw e w' => Throw e w'
    | OutOfFuel => OutOfFuel
    end.

Definition throw {A} (e : Exn) : M A := fun w => Throw e w.

(** [try { m } catch (e) { h e }]. *)
Definition try_catch {A} (m : M A) (h : Exn -> M A) : M A :=
  fun w =>
    match m w with
    | Return a w' => Return a w'
    | Throw e w' => h e w'
    | OutOfFuel => OutOfFuel
    end.

Declare Scope m_scope.
Delimit Scope m_scope with M.
Notation "x <- m ;; k" := (bind m (fun x => k))
  (at level 61, m at next level, right associativity) : m_scope.
Notation "m ;; k" := (bind m (fun _ => k))
  (at level 61, right associativity) : m_scope.

#[local] Open Scope m_scope.

(** ** The PUT block of the events handler *)

Section Handler.

Variable LocalTZA : Z.

(** Identifiers [crypto.randomUUID()] returns, by draw. *)
Variable randomUUID : nat -> string.

(** Which statements the store refuses, by statement number: a connection
    failure, a constraint violation or a transaction conflict.  ROLLBACK
    is taken to succeed. *)
Variable faults : nat -> bool.

(** One statement sent to the store; [run] is its effect on the session. *)
Definition query (run : World -> World) : M unit :=
  fun w =>
    let w' := mkWorld (events w) (snapshot w) (S (queries w)) (uuids w) in
    if faults (queries w) then Throw StoreError w' else Return tt (run w').

Definition on_events (f : list Row -> list Row) (w : World) : World :=
  mkWorld (f (events w)) (snapshot w) (queries w) (uuids w).

Definition query_BEGIN : M unit :=
  query (fun w => mkWorld (events w) (Some (events w)) (queries w) (uuids w)).

Definition query_COMMIT : M unit :=
  query (fun w => mkWorld (events w) None (queries w) (uuids w)).

Definition query_ROLLBACK : M unit :=
  fun w =>
    let rows := match snapshot w with Some old => old | None => events w end in
    Return tt (mkWorld rows None (S (queries w)) (uuids w)).

(** [DELETE FROM events WHERE series_id = $1]. *)
Definition query_DELETE_series (sid : string) : M unit :=
  query (on_events (filter (fun r => negb (sql_eq_text (series_id r) sid)))).

(** [INSERT INTO events (...) VALUES (...)]. *)
Definition query_INSERT (r : Row) : M unit :=
  query (on_events (fun rows => rows ++ [r])).

(** [UPDATE events SET ... WHERE uid = $11]: ten columns are assigned,
    [uid] is not. *)
Definition query_UPDATE (values : Row) (target : string) : M unit :=
  query (on_events (map (fun r =>
    if sql_eq_text (uid r) target
    then mkRow (uid r) (summary values) (type values) (dtstart values)
               (dtend values) (description values) (is_recurring values)
               (recurring_days values) (series_id values) (recur_until values)
               (series_start_date values)
    else r))).

Definition crypto_randomUUID : M string :=
  fun w =>
    Return (randomUUID (uuids w))
           (mkWorld (events w) (snapshot w) (queries w) (S (uuids w))).

(** [d.toISOString()]: a [RangeError] on an invalid date. *)
Definition toISOString (d : JSDate) : M string :=
  match d with
  | Valid t => ret (ISOString t)
  | Invalid => throw RangeError
  end.

(** A call [parseDateTime(dateString, timeString)] on values of the body:
    [undefined] for the time takes the default ['00:00']; [.split] on
    anything but a string is a [TypeError]. *)
Definition call_parseDateTime (dateString timeString : JSValue) : M JSDate :=
  match dateString with
  | JString ds =>
      match timeString with
      | JUndefined => ret (parseDateTime LocalTZA ds "00:00")
      | JString ts => ret (parseDateTime LocalTZA ds ts)
      | _ => throw TypeError
      end
  | _ => throw TypeError
  end.

(** Reading a property of the body; [null] and [undefined] have none. *)
Definition nullish (v : JSValue) : bool :=
  match v with
  | JUndefined | JNull => true
  | _ => false
  end.

Definition strict_eq_string (v : JSValue) (s : string) : bool :=
  match v with
  | JString s' => String.eqb s' s
  | _ => false
  end.

Definition all_days : list JSNum :=
  [Int 0; Int 1; Int 2; Int 3; Int 4; Int 5; Int 6].

(** [Object.keys(recurring_days).filter(day => recurring_days[day]).map(Number)];
    [None] stands for the [TypeError] of [Object.keys]. *)
Definition raw_selection (recurring_days : JSValue) : option (list JSNum) :=
  match Object_keys recurring_days with
  | None => None
  | Some keys =>
      Some (map Number (filter (fun day => truthy (get_prop recurring_days day)) keys))
  end.

(** [selectedDays] after the default for an empty selection. *)
Definition selectedDays_of (recurring_days : JSValue) : option (list JSNum) :=
  match raw_selection recurring_days with
  | None => None
  | Some selectedDays =>
      Some (if Nat.eqb (List.length selectedDays) 0 then all_days else selectedDays)
  end.

Section Series.

Variable sid : string.
Variable eventData : JSValue.
Variable selectedDays : list JSNum.
Variable untilDate : JSDate.

Let f_summary := get_prop eventData "summary".
Let f_time := get_prop eventData "time".
Let f_duration := get_prop eventData "duration".
Let f_recurring_days := get_prop eventData "recurring_days".
Let f_recur_until := get_prop eventData "recur_until".
Let f_series_start_date := get_prop eventData "series_start_date".
Let f_type := get_prop eventData "type".
Let f_description := get_prop eventData "description".

(** The body of the [if (selectedDays.includes(...))]. *)
Definition insert_instance (currentDate : JSDate) : M unit :=
  eventStart <- call_parseDateTime
                  (JString (formatDateToYYYYMMDD LocalTZA currentDate)) f_time ;;
  let finalDuration :=
    if strict_eq_string f_type "meet-and-greet" then JNumber (Int 30)
    else f_duration in
  let eventEnd :=
    Date_of_number
      (num_add (getTime eventStart) (num_mul (ToNumber finalDuration) (Int 60000))) in
  uuid <- crypto_randomUUID ;;
  startISO <- toISOString eventStart ;;
  endISO <- toISOString eventEnd ;;
  query_INSERT
    (mkRow (SText ("manual-" ++ uuid)) (prepareValue f_summary)
           (prepareValue f_type) (SText startISO) (SText endISO)
           (prepareValue (js_or f_description JNull))
           (SBool true) (SJson f_recurring_days) (SText sid)
           (prepareValue f_recur_until) (prepareValue f_series_start_date)).

(** [while (currentDate <= untilDate) { ... }], with a bound on the
    number of tests of the condition. *)
Fixpoint expand_loop (fuel : nat) (currentDate : JSDate) : M unit :=
  match fuel with
  | O => fun _ => OutOfFuel
  | S fuel' =>
      if date_le currentDate untilDate then
        (if includes selectedDays (getDay LocalTZA currentDate)
         then insert_instance currentDate
         else ret tt) ;;
        expand_loop fuel'
          (setDate LocalTZA currentDate
                   (num_add (getDate LocalTZA currentDate) (Int 1)))
      else ret tt
  end.

End Series.

(** The transaction of the [if (params.seriesId)] block. *)
Definition series_transaction (fuel : nat) (sid : string) (eventData : JSValue)
  : M Response :=
  query_BEGIN ;;
  query_DELETE_series sid ;;
  if nullish eventData then throw TypeError
  else
    let recurring_days := get_prop eventData "recurring_days" in
    match selectedDays_of recurring_days with
    | None => throw TypeError
    | Some selectedDays =>
        currentDate <- call_parseDateTime
                         (get_prop eventData "series_start_date") JUndefined ;;
        untilDate <- call_parseDateTime
                       (get_prop eventData "recur_until") (JString "23:59") ;;
        expand_loop sid eventData selectedDays untilDate fuel currentDate ;;
        query_COMMIT ;;
        ret (mkResponse 200 (Message "Event series updated successfully"))
    end.

Definition put_series (fuel : nat) (sid : string) (eventData : JSValue)
  : M Response :=
  try_catch (series_transaction fuel sid eventData)
            (fun e => query_ROLLBACK ;; throw e).

(** The [if (params.uid)] block. *)
Definition put_uid (target : string) (eventData : JSValue) : M Response :=
  if nullish eventData then throw TypeError
  else
    let f := get_prop eventData in
    let recurring_days := f "recurring_days" in
    let values :=
      mkRow (SText target)
            (prepareValue (f "summary")) (prepareValue (f "type"))
            (prepareValue (f "dtstart")) (prepareValue (f "dtend"))
            (prepareValue (js_or (f "description") JNull))
            (prepareValue (js_or (f "is_recurring") (JBool false)))
            (if truthy recurring_days then SJson recurring_days else SNull)
            (prepareValue (js_or (f "series_id") JNull))
            (prepareValue (js_or (f "recur_until") JNull))
            (prepareValue (js_or (f "series_start_date") JNull)) in
    query_UPDATE values target ;;
    ret (mkResponse 200 (Message "Event updated successfully")).

Definition internal_server_error : Response :=
  mkResponse 500 (Error "Internal Server Error").

(** The handler on a PUT request whose body parsed to [eventData]: the
    response and the store afterwards, or [None] when [fuel] tests of the
    loop condition were not enough. *)
Definition handler_PUT (fuel : nat) (params : Params) (eventData : JSValue)
                       (w : World) : option (Response * World) :=
  let block :=
    match param_given (seriesId params) with
    | Some sid => put_series fuel sid eventData
    | None =>
        match param_given (uid_param params) with
        | Some target => put_uid target eventData
        | None => ret (mkResponse 405 (Plain "Method Not Allowed"))
        end
    end in
  match block w with
  | Return r w' => Some (r, w')
  | Throw _ w' => Some (internal_server_error, w')
  | OutOfFuel => None
  end.

End Handler.

(** ** The getPetNames handler *)

Definition to_lower (c : ascii) : ascii :=
  let n := nat_of_ascii c in
  if (Nat.leb 65 n && Nat.leb n 90)%bool then ascii_of_nat (n + 32) else c.

Definition ci_eqb (a b : ascii) : bool := Ascii.eqb (to_lower a) (to_lower b).

(** [s ILIKE p]: [%] matches any run of characters, [_] any one character,
    a backslash takes the next pattern character literally, every other
    character matches itself up to case.  (A pattern ending in a lone
    backslash is an error of the store; the pattern built by the handler
    ends in [%].) *)
Fixpoint ilike (p : string) : string -> bool :=
  match p with
  | EmptyString => fun s => match s with EmptyString => true | _ => false end
  | String "%" p' =>
      fix any (s : string) : bool :=
        ilike p' s || match s with
                      | EmptyString => false
                      | String _ s' => any s'
                      end
  | String "_" p' =>
      fun s => match s with
               | EmptyString => false
               | String _ s' => ilike p' s'
               end
  | String "\" EmptyString => fun _ => false
  | String "\" (String c p') =>
      fun s => match s with
               | EmptyString => false
               | String d s' => ci_eqb c d && ilike p' s'
               end
  | String c p' =>
      fun s => match s with
               | EmptyString => false
               | String d s' => ci_eqb c d && ilike p' s'
               end
  end.

Fixpoint dedup (l : list string) : list string :=
  match l with
  | [] => []
  | x :: r => if existsb (String.eqb x) r then dedup r else x :: dedup r
  end.

Section PetNames.

(** The order of the store's collation on text. *)
Variable collate_leb : string -> string -> bool.

Variable faults : nat -> bool.

Fixpoint insert_sorted (x : string) (l : list string) : list string :=
  match l with
  | [] => [x]
  | y :: r => if collate_leb x y then x :: l else y :: insert_sorted x r
  end.

Definition order_by (l : list string) : list string :=
  fold_right insert_sorted [] l.

(** The text cells of the summary column. *)
Definition summaries (rows : list Row) : list string :=
  flat_map (fun r => match summary r with SText s => [s] | _ => [] end) rows.

(** [SELECT DISTINCT summary FROM events WHERE summary ILIKE $1
     ORDER BY summary ASC LIMIT 10]. *)
Definition select_names (pattern : string) (rows : list Row) : list string :=
  firstn 10 (order_by (dedup (filter (ilike pattern) (summaries rows)))).

Definition getPetNames (httpMethod : string) (q : option string) (w : World)
  : Response * World :=
  if negb (String.eqb httpMethod "GET")
  then (mkResponse 405 (Plain "Method Not Allowed"), w)
  else
    match param_given q with
    | None => (mkResponse 200 (Names []), w)
    | Some searchQuery =>
        if Nat.ltb (String.length searchQuery) 2
        then (mkResponse 200 (Names []), w)
        else
          let w' := mkWorld (events w) (snapshot w) (S (queries w)) (uuids w) in
          if faults (queries w)
          then (mkResponse 500 (Error "Failed to fetch pet names"), w')
          else (mkResponse 200
                  (Names (select_names ("%" ++ searchQuery ++ "%") (events w))),
                w')
    end.

End PetNames.

(** ** Definitions used to state the properties *)

(** *** Calendar dates *)

(** The length of month [m] (0 = January) of year [y]. *)
Definition DaysInMonth (y m : Z) : Z :=
  if m =? 1 then 28 + InLeapYear y
  else if (m =? 3) || (m =? 5) || (m =? 8) || (m =? 10) then 30
  else 31.

(** The weekday of day number [n] (0 = Sunday). *)
Definition weekday_of (n : Z) : Z := (n + 4) mod 7.

(** *** Strings *)

Definition is_digit (c : ascii) : bool :=
  let n := nat_of_ascii c in (Nat.leb 48 n && Nat.leb n 57)%bool.

Fixpoint all_chars (P : ascii -> bool) (s : string) : bool :=
  match s with
  | EmptyString => true
  | String c r => P c && all_chars P r
  end.

(** *** Outcomes of the handler's computations *)

(** What holds of the outcome of [m] run from [w]. *)
Definition post {A} (m : M A) (w : World)
           (Q : A -> World -> Prop) (E : Exn -> World -> Prop) : Prop :=
  match m w with
  | Return a w' => Q a w'
  | Throw e w' => E e w'
  | OutOfFuel => True
  end.

(** [m] run from [w] ends, by returning or by throwing. *)
Definition halts {A} (m : M A) (w : World) : Prop := m w <> OutOfFuel.

(** *** The series request *)

(** The hours and minutes [parseDateTime] reads from the [time] field. *)
Definition time_fields (v : JSValue) : option (JSNum * JSNum) :=
  match v with
  | JUndefined => Some (nth_num 0 (split ":" "00:00"), nth_num 1 (split ":" "00:00"))
  | JString ts => Some (nth_num 0 (split ":" ts), nth_num 1 (split ":" ts))
  | _ => None
  end.

(** [finalDuration]: the effective duration of an instance, in minutes. *)
Definition finalDuration_of (eventData : JSValue) : JSValue :=
  if strict_eq_string (get_prop eventData "type") "meet-and-greet"
  then JNumber (Int 30) else get_prop eventData "duration".

(** The row inserted for one instance. *)
Definition instance_row (sid : string) (eventData : JSValue)
           (uuid startISO endISO : string) : Row :=
  mkRow (SText ("manual-" ++ uuid)) (prepareValue (get_prop eventData "summary"))
        (prepareValue (get_prop eventData "type")) (SText startISO) (SText endISO)
        (prepareValue (js_or (get_prop eventData "description") JNull))
        (SBool true) (SJson (get_prop eventData "recurring_days")) (SText sid)
        (prepareValue (get_prop eventData "recur_until"))
        (prepareValue (get_prop eventData "series_start_date")).

(** A row the expansion of [eventData] for series [sid] can insert: its two
    timestamps are the ISO texts of valid time values [t] and [t] plus the
    effective duration. *)
Definition instance_of (sid : string) (eventData : JSValue) (r : Row) : Prop :=
  exists t dur,
    ToNumber (finalDuration_of eventData) = Int dur /\
    Z.abs t <= maxTime /\ Z.abs (t + dur * 60000) <= maxTime /\
    dtstart r = SText (ISOString t) /\
    dtend r = SText (ISOString (t + dur * 60000)) /\
    series_id r = SText sid /\
    is_recurring r = SBool true.

Fixpoint zrange (lo : Z) (len : nat) : list Z :=
  match len with
  | O => []
  | S len' => lo :: zrange (lo + 1) len'
  end.

(** The days of [d0 .. d1] whose weekday is selected, ascending. *)
Definition spec_days (sel : Z -> bool) (d0 d1 : Z) : list Z :=
  filter (fun n => sel (weekday_of n)) (zrange d0 (Z.to_nat (d1 - d0 + 1))).

(** The expander as the specification words it: one [(dtstart, dtend)] pair
    per calendar day of [d0 .. d1] whose weekday is selected, in ascending
    order; [tod] is the time of day and [dur] the duration in minutes. *)
Definition spec_expand (tz : Z) (sel : Z -> bool) (d0 d1 tod dur : Z) : list (Z * Z) :=
  map (fun n => let s := UTC tz (MakeDate n tod) in (s, s + dur * 60000))
      (spec_days sel d0 d1).

(** The rows for a list of pairs, identifiers drawn from draw [u] on. *)
Fixpoint rows_of (randomUUID : nat -> string) (sid : string) (eventData : JSValue)
         (pairs : list (Z * Z)) (u : nat) : list Row :=
  match pairs with
  | [] => []
  | (s, e) :: rest =>
      instance_row sid eventData (randomUUID u) (ISOString s) (ISOString e)
        :: rows_of randomUUID sid eventData rest (S u)
  end.

(** The store after [rows] were inserted, one statement and one identifier each. *)
Definition after_inserts (w : World) (rows : list Row) : World :=
  mkWorld (events w ++ rows) (snapshot w)
          (queries w + List.length rows) (uuids w + List.length rows).

Definition in_series (sid : string) (r : Row) : bool := sql_eq_text (series_id r) sid.

Definition other_series (sid : string) (r : Row) : bool :=
  negb (sql_eq_text (series_id r) sid).

(** The store after a committed series request that inserted [rows]. *)
Definition series_result (sid : string) (w : World) (rows : list Row) : World :=
  mkWorld (filter (other_series sid) (events w) ++ rows) None
          (S (S (S (queries w)) + List.length rows)) (uuids w + List.length rows).

Definition series_updated : Response :=
  mkResponse 200 (Message "Event series updated successfully").

Definition times (r : Row) : SqlValue * SqlValue := (dtstart r, dtend r).

(** The [(dtstart, dtend)] pairs of the rows of series [sid], in table order. *)
Definition series_pairs (sid : string) (rows : list Row) : list (SqlValue * SqlValue) :=
  map times (filter (in_series sid) rows).

(** Tests of the loop condition that the walk from [cur] to [untilDate] needs
    at most, less one. *)
Definition loop_bound (cur untilDate : JSDate) : nat :=
  match cur, untilDate with
  | Valid t, Valid u => Z.to_nat ((u - t) / msPerDay + 1)
  | _, _ => O
  end.

(** Tests of the loop condition that suffice for a series request. *)
Definition series_fuel (tz : Z) (eventData : JSValue) : nat :=
  match get_prop eventData "series_start_date", get_prop eventData "recur_until" with
  | JString ds, JString us =>
      S (loop_bound (parseDateTime tz ds "00:00") (parseDateTime tz us "23:59"))
  | _, _ => 1%nat
  end.

(** *** The getPetNames query *)



(** The characters [LIKE] gives a meaning to. *)
Definition is_wildcard (c : ascii) : bool :=
  Ascii.eqb c "%" || Ascii.eqb c "_" || Ascii.eqb c "\".


(** Weekday [wd] is among [selectedDays]. *)
Definition selected (selectedDays : list JSNum) (wd : Z) : bool :=
  includes selectedDays (Int wd).

(** The start of the instance on local day [n], at [h]:[mi]. *)
Definition instance_start (tz h mi n : Z) : Z :=
  UTC tz (MakeDate n (MakeTime h mi 0 0)).

(** [a] is not after [b] in the collation. *)
Definition collate_le (collate_leb : string -> string -> bool) (a b : string) : Prop :=
  collate_leb a b = true.

(** *** The single-row update *)

(** What [UPDATE ... WHERE uid = target] makes of one row, for the body
    [eventData]. *)
Definition uid_update (target : string) (eventData : JSValue) (r : Row) : Row :=
  if sql_eq_text (uid r) target
  then mkRow (uid r)
             (prepareValue (get_prop eventData "summary"))
             (prepareValue (get_prop eventData "type"))
             (prepareValue (get_prop eventData "dtstart"))
             (prepareValue (get_prop eventData "dtend"))
             (prepareValue (js_or (get_prop eventData "description") JNull))
             (prepareValue (js_or (get_prop eventData "is_recurring") (JBool false)))
             (if truthy (get_prop eventData "recurring_days")
              then SJson (get_prop eventData "recurring_days") else SNull)
             (prepareValue (js_or (get_prop eventData "series_id") JNull))
             (prepareValue (js_or (get_prop eventData "recur_until") JNull))
             (prepareValue (js_or (get_prop eventData "series_start_date") JNull))
  else r.

Definition event_updated : Response :=
  mkResponse 200 (Message "Event updated successfully").

(** *** Worked examples *)

Module Examples.

Definition uuid_source (n : nat) : string := toString (Int (Z.of_nat n)).

Definition no_faults (_ : nat) : bool := false.

(** The store refuses the statement numbered [k]. *)
Definition fault_at (k : nat) (i : nat) : bool := Nat.eqb i k.

Definition day_flags (su mo tu we th fr sa : bool) : JSValue :=
  JObject [("0", JBool su); ("1", JBool mo); ("2", JBool tu); ("3", JBool we);
           ("4", JBool th); ("5", JBool fr); ("6", JBool sa)].

Definition series_body (type time : string) (duration : Z) (days : JSValue)
           (start until : string) : JSValue :=
  JObject [("summary", JString "Rex"); ("time", JString time);
           ("duration", JNumber (Int duration)); ("recurring_days", days);
           ("recur_until", JString until); ("series_start_date", JString start);
           ("type", JString type)].

(** Monday 2024-01-01 to Sunday 2024-01-07, Monday, Wednesday and Friday,
    09:00 for 60 minutes. *)
Definition mon_wed_fri : JSValue :=
  series_body "walk" "09:00" 60 (day_flags false true false true false true false)
              "2024-01-01" "2024-01-07".

(** The same week with no weekday selected, 10:00 for 15 minutes. *)
Definition no_day_selected : JSValue :=
  series_body "walk" "10:00" 15 (day_flags false false false false false false false)
              "2024-01-01" "2024-01-07".


(** [recur_until] before [series_start_date]. *)
Definition until_before_start : JSValue :=
  series_body "walk" "09:00" 60 (day_flags true true true true true true true)
              "2024-01-07" "2024-01-01".



Definition for_series (sid : string) : Params := mkParams (Some sid) None.
Definition for_uid (target : string) : Params := mkParams None (Some target).

Definition stored (uid summary : string) (series : SqlValue) : Row :=
  mkRow (SText uid) (SText summary) (SText "walk")
        (SText "2023-12-01T09:00:00.000Z") (SText "2023-12-01T10:00:00.000Z")
        (SText "bring treats") (SBool true) (SJson (JObject [("5", JBool true)]))
        series (SText "2023-12-31") (SText "2023-12-01").

(** Two rows of series [s1] and one standalone row. *)
Definition store : World :=
  mkWorld [stored "a" "Fluffy" (SText "s1"); stored "b" "Flash" SNull;
           stored "c" "Fluffy" (SText "s1")]
          None 0 0.

Definition empty_store : World := mkWorld [] None 0 0.

(** A body for the single-row update that leaves out [description],
    [is_recurring], [recurring_days], [series_id], [recur_until] and
    [series_start_date]. *)
Definition sparse_update : JSValue :=
  JObject [("summary", JString "Fluffy"); ("type", JString "walk");
           ("dtstart", JString "2024-02-01T09:00:00.000Z");
           ("dtend", JString "2024-02-01T10:00:00.000Z")].

End Examples.


(** ** The rest of the events handler: GET, POST, DELETE and the dispatch *)

(** The event the platform delivers: the method, the query parameters
    (taken to be an object, also for a URL without any) and the body as
    [JSON.parse] reads it ([None] when it throws). *)
Record Request : Type := mkRequest {
  httpMethod : string;
  queryStringParameters : Params;
  event_body : option JSValue
}.

(** What a response carries: one of the bodies of the PUT block, or the
    rows of the table for GET. *)
Inductive Payload : Type :=
| Simple (b : Body)
| Rows (rows : list Row).

Record Reply : Type := mkReply {
  status : Z;
  payload : Payload
}.

Definition reply_of (r : Response) : Reply :=
  mkReply (statusCode r) (Simple (body r)).

(** The values of [for (const ev of events)]: the elements of an array, the
    characters of a string; anything else is not iterable ([None] stands for
    the [TypeError]). *)
Definition iterate (v : JSValue) : option (list JSValue) :=
  match v with
  | JArray items => Some items
  | JString s =>
      Some (map (fun c => JString (String c EmptyString)) (list_ascii_of_string s))
  | _ => None
  end.

(** The row POST inserts for the event [ev]. *)
Definition post_row (ev : JSValue) : Row :=
  mkRow (prepareValue (get_prop ev "uid"))
        (prepareValue (get_prop ev "summary"))
        (prepareValue (get_prop ev "type"))
        (prepareValue (get_prop ev "dtstart"))
        (prepareValue (get_prop ev "dtend"))
        (prepareValue (js_or (get_prop ev "description") JNull))
        (prepareValue (js_or (get_prop ev "is_recurring") (JBool false)))
        (if truthy (get_prop ev "recurring_days")
         then SJson (get_prop ev "recurring_days") else SNull)
        (prepareValue (js_or (get_prop ev "series_id") JNull))
        (prepareValue (js_or (get_prop ev "recur_until") JNull))
        (prepareValue (js_or (get_prop ev "series_start_date") JNull)).

Definition events_added : Response :=
  mkResponse 201 (Message "Events added successfully").

Definition method_not_allowed : Response :=
  mkResponse 405 (Plain "Method Not Allowed").

Definition other_uid (target : string) (r : Row) : bool :=
  negb (sql_eq_text (uid r) target).

Section Events.

Variable LocalTZA : Z.
Variable randomUUID : nat -> string.
Variable faults : nat -> bool.

(** The order of the store on the [dtstart] column. *)
Variable dtstart_leb : SqlValue -> SqlValue -> bool.

Fixpoint insert_by_dtstart (r : Row) (l : list Row) : list Row :=
  match l with
  | [] => [r]
  | x :: t =>
      if dtstart_leb (dtstart r) (dtstart x) then r :: l
      else x :: insert_by_dtstart r t
  end.

(** [SELECT * FROM events ORDER BY dtstart ASC]. *)
Definition select_all (rows : list Row) : list Row :=
  fold_right insert_by_dtstart [] rows.

(** The GET block. *)
Definition get_events : M Reply :=
  fun w =>
    let w' := mkWorld (events w) (snapshot w) (S (queries w)) (uuids w) in
    if faults (queries w) then Throw StoreError w'
    else Return (mkReply 200 (Rows (select_all (events w)))) w'.

(** The body of the [for (const ev of events)] loop, over the values it
    iterates. *)
Fixpoint insert_all (evs : list JSValue) : M unit :=
  match evs with
  | [] => ret tt
  | ev :: rest =>
      (if nullish ev then throw TypeError
       else query_INSERT faults (post_row ev)) ;;
      insert_all rest
  end.

(** The transaction of the POST block. *)
Definition post_transaction (events : JSValue) : M Response :=
  query_BEGIN faults ;;
  match iterate events with
  | None => throw TypeError
  | Some evs =>
      insert_all evs ;;
      query_COMMIT faults ;;
      ret events_added
  end.

Definition post_events (events : JSValue) : M Response :=
  try_catch (post_transaction events)
            (fun e => query_ROLLBACK ;; throw e).

(** [DELETE FROM events WHERE uid = $1]. *)
Definition query_DELETE_uid (target : string) : M unit :=
  query faults (on_events (filter (other_uid target))).

(** The DELETE block: [uid] is tested first. *)
Definition delete_events (params : Params) : M Response :=
  match param_given (uid_param params) with
  | Some target =>
      query_DELETE_uid target ;;
      ret (mkResponse 200 (Message ("Event " ++ target ++ " deleted.")))
  | None =>
      match param_given (seriesId params) with
      | Some sid =>
          query_DELETE_series faults sid ;;
          ret (mkResponse 200 (Message ("Event series " ++ sid ++ " deleted.")))
      | None => ret method_not_allowed
      end
  end.

(** The outer [try { ... } catch (error) { ... }]. *)
Definition at_boundary {A} (m : M A) (reply : A -> Reply) (w : World)
  : option (Reply * World) :=
  match m w with
  | Return a w' => Some (reply a, w')
  | Throw _ w' => Some (reply_of internal_server_error, w')
  | OutOfFuel => None
  end.

(** The handler of events.js. *)
Definition handler (fuel : nat) (event : Request) (w : World)
  : option (Reply * World) :=
  let params := queryStringParameters event in
  if String.eqb (httpMethod event) "GET" then at_boundary get_events (fun r => r) w
  else if String.eqb (httpMethod event) "POST" then
    match event_body event with
    | None => Some (reply_of internal_server_error, w)
    | Some events => at_boundary (post_events events) reply_of w
    end
  else if String.eqb (httpMethod event) "PUT" then
    match event_body event with
    | None => Some (reply_of internal_server_error, w)
    | Some eventData =>
        match handler_PUT LocalTZA randomUUID faults fuel params eventData w with
        | Some (r, w') => Some (reply_of r, w')
        | None => None
        end
    end
  else if String.eqb (httpMethod event) "DELETE" then
    at_boundary (delete_events params) reply_of w
  else Some (reply_of method_not_allowed, w).

End Events.

(** *** Definitions used to state further properties *)

(** The text [formatDateToYYYYMMDD] gives for year [y], month [m] (1 to 12)
    and day [d]. *)
Definition date_string (y m d : Z) : string :=
  (toString (Int y) ++ "-" ++ padStart2 (toString (Int m)) ++ "-"
   ++ padStart2 (toString (Int d)))%string.

(** The year, month and day [parseDateTime] reads from [dateString]. *)
Definition date_fields (dateString : string) : JSNum * JSNum * JSNum :=
  let ymd := split "-" (hd EmptyString (split "T" dateString)) in
  (nth_num 0 ymd, nth_num 1 ymd, nth_num 2 ymd).

(** The hours and minutes [parseDateTime] reads from [timeString]. *)
Definition clock_fields (timeString : string) : JSNum * JSNum :=
  (nth_num 0 (split ":" timeString), nth_num 1 (split ":" timeString)).

(** The year the [Date] constructor takes for a year argument [y]. *)
Definition full_year (y : Z) : Z :=
  if (0 <=? y) && (y <=? 99) then 1900 + y else y.

(** [s] lower-cased throughout. *)
Fixpoint lower (s : string) : string :=
  match s with
  | EmptyString => EmptyString
  | String c r => String (to_lower c) (lower r)
  end.

(** The columns every instance of a series shares. *)
Definition shared_fields (r : Row) : list SqlValue :=
  [summary r; type r; description r; is_recurring r; recurring_days r;
   series_id r; recur_until r; series_start_date r].

Definition dtstart_le (dtstart_leb : SqlValue -> SqlValue -> bool) (a b : Row) : Prop :=
  dtstart_leb (dtstart a) (dtstart b) = true.

Module Samples.

Definition get : Request := mkRequest "GET" (mkParams None None) None.

Definition post (events : JSValue) : Request :=
  mkRequest "POST" (mkParams None None) (Some events).

Definition delete (params : Params) : Request :=
  mkRequest "DELETE" params None.

Definition put (params : Params) (eventData : JSValue) : Request :=
  mkRequest "PUT" params (Some eventData).

Definition new_event (uid summary dtstart : string) : JSValue :=
  JObject [("uid", JString uid); ("summary", JString summary); ("type", JString "walk");
           ("dtstart", JString dtstart); ("dtend", JString dtstart)].

(** Text cells compared as byte strings; other cells last. *)
Definition text_order (a b : SqlValue) : bool :=
  match a, b with
  | SText x, SText y => String.leb x y
  | _, SText _ => false
  | _, _ => true
  end.

(** Two events, the later one first. *)
Definition batch : JSValue :=
  JArray [new_event "u1" "Rex" "2024-03-01T09:00:00.000Z";
          new_event "u2" "Milo" "2024-02-01T09:00:00.000Z"].

(** A table holding the rows of [batch], the later one first. *)
Definition unsorted : World :=
  mkWorld [post_row (new_event "u1" "Rex" "2024-03-01T09:00:00.000Z");
           post_row (new_event "u2" "Milo" "2024-02-01T09:00:00.000Z")]
          None 0 0.

(** The summaries of the example store, once each and in another order. *)
Definition reordered : World :=
  mkWorld [Examples.stored "z" "Flash" SNull; Examples.stored "y" "Fluffy" SNull]
          None 0 0.

End Samples.

(** * Properties *)

Ltac zdiv := Z.div_mod_to_equations; lia.


Lemma DayFromYear_succ y : DayFromYear (y + 1) = DayFromYear y + DaysInYear y.
Proof.
  unfold DayFromYear, DaysInYear.
  destruct (Z.eqb_spec (y mod 4) 0), (Z.eqb_spec (y mod 100) 0), (Z.eqb_spec (y mod 400) 0); cbn [negb]; zdiv.
Qed.

Lemma YearFromDay_spec d :
  DayFromYear (YearFromDay d) <= d < DayFromYear (YearFromDay d + 1).
Proof.
  unfold YearFromDay.
  set (y := 1970 + 400 * d / 146097).
  destruct (Z.ltb_spec d (DayFromYear y)).
  - replace (y - 1 + 1) with y by lia. split; [|lia].
    unfold DayFromYear in *. subst y. zdiv.
  - destruct (Z.leb_spec (DayFromYear (y + 1)) d).
    + split; [lia|]. unfold DayFromYear in *. subst y. zdiv.
    + lia.
Qed.

Lemma DaysInYear_range y : 365 <= DaysInYear y <= 366.
Proof.
  unfold DaysInYear.
  destruct (y mod 4 =? 0), (y mod 100 =? 0), (y mod 400 =? 0); cbn [negb]; lia.
Qed.

Lemma InLeapYear_DaysInYear y : DaysInYear y = 365 + InLeapYear y.
Proof.
  unfold InLeapYear. pose proof (DaysInYear_range y).
  destruct (Z.eqb_spec (DaysInYear y) 366); lia.
Qed.

Lemma DayFromYear_lt y y' : y < y' -> DayFromYear y < DayFromYear y'.
Proof. unfold DayFromYear. intros. zdiv. Qed.

Lemma DayFromYear_le y y' : y <= y' -> DayFromYear y <= DayFromYear y'.
Proof. unfold DayFromYear. intros. zdiv. Qed.

Lemma YearFromDay_unique d y :
  DayFromYear y <= d < DayFromYear (y + 1) -> YearFromDay d = y.
Proof.
  intros Hy. pose proof (YearFromDay_spec d) as Hs.
  destruct (Z.lt_trichotomy (YearFromDay d) y) as [Hlt | [Heq | Hgt]]; [|exact Heq|].
  - assert (DayFromYear (YearFromDay d + 1) <= DayFromYear y)
      by (apply DayFromYear_le; lia). lia.
  - assert (DayFromYear (y + 1) <= DayFromYear (YearFromDay d))
      by (apply DayFromYear_le; lia). lia.
Qed.

Lemma YearFromDay_mono d d' : d <= d' -> YearFromDay d <= YearFromDay d'.
Proof.
  intros Hd. pose proof (YearFromDay_spec d) as Hs. pose proof (YearFromDay_spec d') as Hs'.
  destruct (Z.le_gt_cases (YearFromDay d) (YearFromDay d')) as [|Hgt]; [assumption|].
  assert (DayFromYear (YearFromDay d' + 1) <= DayFromYear (YearFromDay d))
    by (apply DayFromYear_le; lia). lia.
Qed.

Lemma DayWithinYear_range d :
  0 <= DayWithinYear d < 365 + InLeapYear (YearFromDay d).
Proof.
  unfold DayWithinYear. pose proof (YearFromDay_spec d) as Hs.
  rewrite DayFromYear_succ, InLeapYear_DaysInYear in Hs. lia.
Qed.

Lemma InLeapYear_range y : 0 <= InLeapYear y <= 1.
Proof. unfold InLeapYear. destruct (DaysInYear y =? 366); lia. Qed.

Ltac month_cases :=
  repeat match goal with
         | |- context [if ?a <? ?b then _ else _] => destruct (Z.ltb_spec a b)
         end.

Lemma MonthFromDay_range d : 0 <= MonthFromDay d <= 11.
Proof. unfold MonthFromDay. month_cases; lia. Qed.

Lemma DateFromDay_range d : 1 <= DateFromDay d <= 31.
Proof.
  unfold DateFromDay, MonthFromDay.
  pose proof (DayWithinYear_range d). pose proof (InLeapYear_range (YearFromDay d)).
  month_cases; unfold DaysBeforeMonth; cbn [Z.eqb Pos.eqb]; lia.
Qed.

Lemma MakeDay_fields d k :
  MakeDay (YearFromDay d) (MonthFromDay d) (DateFromDay d + k) = d + k.
Proof.
  pose proof (MonthFromDay_range d) as Hm.
  unfold MakeDay.
  rewrite Z.div_small, Z.mod_small, Z.add_0_r by lia.
  unfold DateFromDay, DayWithinYear. lia.
Qed.

Lemma Day_MakeDate n r : 0 <= r < msPerDay -> Day (MakeDate n r) = n.
Proof. unfold Day, MakeDate, msPerDay. intros. zdiv. Qed.

Lemma Day_TimeWithinDay t : MakeDate (Day t) (TimeWithinDay t) = t.
Proof. unfold Day, TimeWithinDay, MakeDate, msPerDay. zdiv. Qed.

Lemma WeekDay_range t : 0 <= WeekDay t <= 6.
Proof. unfold WeekDay. zdiv. Qed.

Lemma civil_of_MakeDay y m dt :
  0 <= m <= 11 -> 1 <= dt <= DaysInMonth y m ->
  YearFromDay (MakeDay y m dt) = y /\
  MonthFromDay (MakeDay y m dt) = m /\
  DateFromDay (MakeDay y m dt) = dt.
Proof.
  intros Hm Hd.
  pose proof (InLeapYear_range y) as Hl.
  assert (Hday : MakeDay y m dt = DayFromYear y + DaysBeforeMonth m (InLeapYear y) + dt - 1).
  { unfold MakeDay. rewrite Z.div_small, Z.mod_small, Z.add_0_r by lia. reflexivity. }
  assert (Hw : 0 <= DaysBeforeMonth m (InLeapYear y) + dt - 1 < 365 + InLeapYear y).
  { unfold DaysInMonth, DaysBeforeMonth in *.
    assert (m = 0 \/ m = 1 \/ m = 2 \/ m = 3 \/ m = 4 \/ m = 5 \/ m = 6 \/ m = 7
            \/ m = 8 \/ m = 9 \/ m = 10 \/ m = 11) as Hc by lia.
    repeat (destruct Hc as [-> | Hc]; [cbn [Z.eqb Pos.eqb orb] in *; lia|]).
    subst m. cbn [Z.eqb Pos.eqb orb] in *; lia. }
  assert (Hy : YearFromDay (MakeDay y m dt) = y).
  { apply YearFromDay_unique. rewrite DayFromYear_succ, InLeapYear_DaysInYear. lia. }
  split; [exact Hy|].
  assert (Hmo : MonthFromDay (MakeDay y m dt) = m).
  { unfold MonthFromDay, DayWithinYear. rewrite Hy, Hday.
    unfold DaysInMonth, DaysBeforeMonth in *.
    assert (m = 0 \/ m = 1 \/ m = 2 \/ m = 3 \/ m = 4 \/ m = 5 \/ m = 6 \/ m = 7
            \/ m = 8 \/ m = 9 \/ m = 10 \/ m = 11) as Hc by lia.
    repeat (destruct Hc as [-> | Hc];
            [cbn [Z.eqb Pos.eqb orb] in *; month_cases; lia|]).
    subst m. cbn [Z.eqb Pos.eqb orb] in *; month_cases; lia. }
  split; [exact Hmo|].
  unfold DateFromDay, DayWithinYear. rewrite Hmo, Hy, Hday. lia.
Qed.
Lemma all_chars_app P a b :
  all_chars P (a ++ b) = all_chars P a && all_chars P b.
Proof. induction a as [|c a IH]; cbn; [reflexivity|]. rewrite IH, andb_assoc. reflexivity. Qed.

Lemma all_chars_weaken (P Q : ascii -> bool) s :
  (forall c, P c = true -> Q c = true) -> all_chars P s = true -> all_chars Q s = true.
Proof.
  intros HPQ. induction s as [|c s IH]; cbn; [reflexivity|].
  intros [Hc Hs]%andb_true_iff. rewrite (HPQ _ Hc), (IH Hs). reflexivity.
Qed.

Lemma string_of_uint_digits d : all_chars is_digit (NilEmpty.string_of_uint d) = true.
Proof. induction d; cbn; auto. Qed.

Lemma is_digit_not_ws c : is_digit c = true -> is_ws c = false.
Proof.
  destruct c as [[|] [|] [|] [|] [|] [|] [|] [|]]; vm_compute; intros; congruence.
Qed.

Lemma trim_end_id s : all_chars (fun c => negb (is_ws c)) s = true -> trim_end s = s.
Proof.
  induction s as [|c s IH]; cbn; [reflexivity|].
  intros [Hc Hs]%andb_true_iff. rewrite (IH Hs).
  apply negb_true_iff in Hc. rewrite Hc. destruct s; reflexivity.
Qed.

Lemma trim_digits s : all_chars is_digit s = true -> trim s = s.
Proof.
  intros Hs. unfold trim.
  assert (trim_start s = s) as ->.
  { destruct s as [|c s]; [reflexivity|]. cbn in *.
    apply andb_true_iff in Hs as [Hc _]. rewrite (is_digit_not_ws _ Hc). reflexivity. }
  apply trim_end_id. eapply all_chars_weaken; [|exact Hs].
  intros c Hc. rewrite (is_digit_not_ws _ Hc). reflexivity.
Qed.

Lemma Number_digits s :
  all_chars is_digit s = true -> s <> EmptyString -> Number s = digits_value s.
Proof.
  intros Hs Hne. unfold Number. rewrite (trim_digits _ Hs).
  destruct s as [|c s]; [congruence|].
  cbn in Hs. apply andb_true_iff in Hs as [Hc _].
  destruct c as [[|] [|] [|] [|] [|] [|] [|] [|]]; vm_compute in Hc; try discriminate; reflexivity.
Qed.

Lemma toString_nonneg z :
  0 <= z ->
  exists u, toString (Int z) = NilEmpty.string_of_uint u /\ u <> Decimal.Nil /\ Z.of_uint u = z.
Proof.
  intros Hz. pose proof (DecimalZ.of_to z) as Hr.
  destruct z as [|p|p]; [| |lia]; cbn in *.
  - exists Decimal.zero. repeat split; discriminate.
  - exists (Pos.to_uint p). repeat split; [|exact Hr].
    apply DecimalPos.Unsigned.to_uint_nonnil.
Qed.

Lemma string_of_uint_nonempty u :
  u <> Decimal.Nil -> NilEmpty.string_of_uint u <> EmptyString.
Proof. destruct u; cbn; congruence. Qed.

Lemma digits_value_of_uint u :
  u <> Decimal.Nil -> digits_value (NilEmpty.string_of_uint u) = Int (Z.of_uint u).
Proof.
  intros Hu. unfold digits_value. rewrite NilEmpty.usu.
  destruct (NilEmpty.string_of_uint u) eqn:E; [|reflexivity].
  exfalso. exact (string_of_uint_nonempty u Hu E).
Qed.

Lemma toString_digits z : 0 <= z -> all_chars is_digit (toString (Int z)) = true.
Proof.
  intros Hz. destruct (toString_nonneg z Hz) as (u & -> & _ & _).
  apply string_of_uint_digits.
Qed.

Lemma toString_nonempty z : toString (Int z) <> EmptyString.
Proof.
  destruct z as [|p|p]; cbn; try discriminate.
  apply string_of_uint_nonempty, DecimalPos.Unsigned.to_uint_nonnil.
Qed.

Lemma Number_toString z : 0 <= z -> Number (toString (Int z)) = Int z.
Proof.
  intros Hz. destruct (toString_nonneg z Hz) as (u & E & Hu & Hv).
  rewrite E, Number_digits, digits_value_of_uint, Hv; auto using string_of_uint_digits, string_of_uint_nonempty.
Qed.

Lemma padStart2_digits z : 0 <= z -> all_chars is_digit (padStart2 (toString (Int z))) = true.
Proof.
  intros Hz. pose proof (toString_digits z Hz) as Hd.
  destruct (toString (Int z)) as [|c [|c' s]]; cbn in *; auto.
Qed.

Lemma Number_padStart2 z : 0 <= z -> Number (padStart2 (toString (Int z))) = Int z.
Proof.
  intros Hz. destruct (toString_nonneg z Hz) as (u & E & Hu & Hv).
  pose proof (Number_toString z Hz) as Hn. rewrite E in *.
  destruct (NilEmpty.string_of_uint u) as [|c [|c' s]] eqn:Es.
  - exfalso. exact (string_of_uint_nonempty u Hu Es).
  - cbn [padStart2].
    assert (Hd : all_chars is_digit (String c "") = true)
      by (rewrite <- Es; apply string_of_uint_digits).
    rewrite Number_digits by (cbn in *; auto; discriminate).
    rewrite <- Es, <- Hv. unfold digits_value. cbn [NilEmpty.uint_of_string].
    rewrite NilEmpty.usu. reflexivity.
  - exact Hn.
Qed.

(** [split] on strings that do not hold the separator. *)
Abbreviation lacks sep := (all_chars (fun c => negb (Ascii.eqb c sep))).

Lemma split_lacks sep s : lacks sep s = true -> split sep s = [s].
Proof.
  induction s as [|c s IH]; cbn; [reflexivity|].
  intros [Hc Hs]%andb_true_iff. apply negb_true_iff in Hc. rewrite Hc, (IH Hs). reflexivity.
Qed.

Lemma split_app sep a b :
  lacks sep a = true -> split sep (a ++ String sep b) = a :: split sep b.
Proof.
  induction a as [|c a IH]; cbn.
  - intros _. rewrite Ascii.eqb_refl. reflexivity.
  - intros [Hc Hs]%andb_true_iff. apply negb_true_iff in Hc. rewrite Hc, (IH Hs). reflexivity.
Qed.

Lemma digits_lack sep s :
  is_digit sep = false -> all_chars is_digit s = true -> lacks sep s = true.
Proof.
  intros Hsep. apply all_chars_weaken. intros c Hc.
  destruct (Ascii.eqb_spec c sep); [congruence|reflexivity].
Qed.

Section DateFacts.

Variable tz : Z.

Lemma setDate_next t :
  setDate tz (Valid t) (num_add (getDate tz (Valid t)) (Int 1)) = clip (t + msPerDay).
Proof.
  cbn [setDate getDate num_add]. unfold YearFromTime, MonthFromTime, DateFromTime.
  rewrite MakeDay_fields. f_equal.
  unfold UTC, LocalTime, MakeDate, Day, TimeWithinDay, msPerDay. zdiv.
Qed.

Lemma format_parts t :
  let lt := LocalTime tz t in
  formatDateToYYYYMMDD tz (Valid t) =
    (toString (Int (YearFromTime lt)) ++ "-"
     ++ padStart2 (toString (Int (MonthFromTime lt + 1))) ++ "-"
     ++ padStart2 (toString (Int (DateFromTime lt))))%string.
Proof. reflexivity. Qed.

Lemma parse_format t ts :
  let lt := LocalTime tz t in
  100 <= YearFromTime lt ->
  parseDateTime tz (formatDateToYYYYMMDD tz (Valid t)) ts =
    Date_of_fields tz (Int (YearFromTime lt)) (Int (MonthFromTime lt)) (Int (DateFromTime lt))
                   (nth_num 0 (split ":" ts)) (nth_num 1 (split ":" ts)).
Proof.
  intros lt Hy. rewrite format_parts. fold lt.
  pose proof (MonthFromDay_range (Day lt)) as Hm.
  pose proof (DateFromDay_range (Day lt)) as Hd.
  fold (MonthFromTime lt) in Hm. fold (DateFromTime lt) in Hd.
  set (sy := toString (Int (YearFromTime lt))).
  set (sm := padStart2 (toString (Int (MonthFromTime lt + 1)))).
  set (sd := padStart2 (toString (Int (DateFromTime lt)))).
  assert (Dy : all_chars is_digit sy = true) by (apply toString_digits; lia).
  assert (Dm : all_chars is_digit sm = true) by (apply padStart2_digits; lia).
  assert (Dd : all_chars is_digit sd = true) by (apply padStart2_digits; lia).
  assert (Ny : Number sy = Int (YearFromTime lt)) by (apply Number_toString; lia).
  assert (Nm : Number sm = Int (MonthFromTime lt + 1)) by (apply Number_padStart2; lia).
  assert (Nd : Number sd = Int (DateFromTime lt)) by (apply Number_padStart2; lia).
  unfold parseDateTime.
  assert (HT : split "T" (sy ++ "-" ++ sm ++ "-" ++ sd) = [(sy ++ "-" ++ sm ++ "-" ++ sd)%string]).
  { apply split_lacks.
    change (sy ++ "-" ++ sm ++ "-" ++ sd)%string
      with (sy ++ String "-" (sm ++ String "-" sd))%string.
    rewrite all_chars_app. cbn [all_chars]. rewrite all_chars_app. cbn [all_chars].
    rewrite !digits_lack by (auto; reflexivity). reflexivity. }
  rewrite HT. cbn [hd].
  assert (HS : split "-" (sy ++ "-" ++ sm ++ "-" ++ sd) = [sy; sm; sd]).
  { change (sy ++ "-" ++ sm ++ "-" ++ sd)%string
      with (sy ++ String "-" (sm ++ String "-" sd))%string.
    rewrite split_app by (apply digits_lack; auto; reflexivity).
    rewrite split_app by (apply digits_lack; auto; reflexivity).
    rewrite split_lacks by (apply digits_lack; auto; reflexivity). reflexivity. }
  rewrite HS.
  change (nth_num 0 [sy; sm; sd]) with (Number sy).
  change (nth_num 1 [sy; sm; sd]) with (Number sm).
  change (nth_num 2 [sy; sm; sd]) with (Number sd).
  rewrite Ny, Nm, Nd. cbn [isNaN orb num_add].
  replace (MonthFromTime lt + 1 + -1) with (MonthFromTime lt) by lia.
  reflexivity.
Qed.

Lemma Date_of_fields_day t h mi :
  let lt := LocalTime tz t in
  100 <= YearFromTime lt ->
  Date_of_fields tz (Int (YearFromTime lt)) (Int (MonthFromTime lt)) (Int (DateFromTime lt))
                 (Int h) (Int mi)
  = clip (UTC tz (MakeDate (Day lt) (MakeTime h mi 0 0))).
Proof.
  intros lt Hy. cbn [Date_of_fields].
  destruct (Z.leb_spec (YearFromTime lt) 99); [lia|]. rewrite andb_false_r.
  unfold YearFromTime, MonthFromTime, DateFromTime.
  pose proof (MakeDay_fields (Day lt) 0) as E. rewrite !Z.add_0_r in E. rewrite E.
  reflexivity.
Qed.

End DateFacts.

Lemma post_ret {A} (a : A) w (Q : A -> World -> Prop) E : Q a w -> post (ret a) w Q E.
Proof. exact (fun H => H). Qed.

Lemma post_throw {A} e w (Q : A -> World -> Prop) (E : Exn -> World -> Prop) :
  E e w -> post (throw e) w Q E.
Proof. exact (fun H => H). Qed.

Lemma post_bind {A B} (m : M A) (k : A -> M B) w Q E :
  post m w (fun a w' => post (k a) w' Q E) E -> post (bind m k) w Q E.
Proof. unfold post, bind. destruct (m w); auto. Qed.

Lemma post_weaken {A} (m : M A) w (Q Q' : A -> World -> Prop) (E E' : Exn -> World -> Prop) :
  post m w Q E ->
  (forall a w', Q a w' -> Q' a w') -> (forall e w', E e w' -> E' e w') ->
  post m w Q' E'.
Proof. unfold post. destruct (m w); auto. Qed.

Section HandlerFacts.

Variable tz : Z.
Variable randomUUID : nat -> string.
Variable faults : nat -> bool.

Lemma post_query run w (Q : unit -> World -> Prop) (E : Exn -> World -> Prop) :
  let w' := mkWorld (events w) (snapshot w) (S (queries w)) (uuids w) in
  E StoreError w' -> Q tt (run w') -> post (query faults run) w Q E.
Proof. intros w' HE HQ. unfold post, query. fold w'. destruct (faults (queries w)); auto. Qed.

Lemma clip_Valid x t : clip x = Valid t -> x = t /\ Z.abs t <= maxTime.
Proof.
  unfold clip, TimeClip. destruct (Z.ltb_spec maxTime (Z.abs x)); [discriminate|].
  intros [= <-]. auto.
Qed.

Lemma Date_of_fields_bound y m d h mi t :
  Date_of_fields tz y m d h mi = Valid t -> Z.abs t <= maxTime.
Proof.
  unfold Date_of_fields. destruct y, m, d, h, mi; try discriminate.
  intros H. apply clip_Valid in H. tauto.
Qed.

Lemma parseDateTime_bound ds ts t :
  parseDateTime tz ds ts = Valid t -> Z.abs t <= maxTime.
Proof.
  unfold parseDateTime.
  destruct (isNaN _ || isNaN _ || isNaN _); [discriminate|].
  apply Date_of_fields_bound.
Qed.

Lemma post_insert_instance sid eventData cur w :
  post (insert_instance tz randomUUID faults sid eventData cur) w
       (fun _ w' => snapshot w' = snapshot w /\
                    exists r, events w' = events w ++ [r] /\ instance_of sid eventData r)
       (fun _ w' => snapshot w' = snapshot w).
Proof.
  unfold insert_instance. fold (finalDuration_of eventData).
  set (fmt := formatDateToYYYYMMDD tz cur).
  assert (Hbody : forall ts,
    post (fun w0 => ret (parseDateTime tz fmt ts) w0) w
      (fun eventStart w1 =>
         snapshot w1 = snapshot w /\ events w1 = events w /\
         (forall t, eventStart = Valid t -> Z.abs t <= maxTime))
      (fun _ w1 => snapshot w1 = snapshot w)).
  { intros ts. cbn. repeat split. intros t. apply parseDateTime_bound. }
  apply post_bind.
  eapply post_weaken with (E := fun _ w1 => snapshot w1 = snapshot w);
    [| |intros ? ? H; exact H].
  - unfold call_parseDateTime.
    destruct (get_prop eventData "time");
      try (apply post_throw; reflexivity); apply Hbody.
  - cbv beta. intros eventStart w1 (Hs1 & He1 & Hb).
    apply post_bind. unfold post at 1, crypto_randomUUID.
    apply post_bind.
    destruct eventStart as [|t]; [exact Hs1|].
    apply post_ret. apply post_bind.
    destruct (ToNumber (finalDuration_of eventData)) as [|dur] eqn:Ed; [exact Hs1|].
    cbn [getTime num_mul num_add Date_of_number].
    destruct (clip (t + dur * 60000)) as [|t'] eqn:Ec; [exact Hs1|].
    apply clip_Valid in Ec as [<- Hb'].
    apply post_ret. apply post_query; cbn; [exact Hs1|].
    split; [exact Hs1|]. rewrite He1. eexists; split; [reflexivity|].
    exists t, dur. cbn. repeat split; auto.
Qed.

Lemma post_expand_loop sid eventData selectedDays untilDate fuel :
  forall cur w,
  post (expand_loop tz randomUUID faults sid eventData selectedDays untilDate fuel cur) w
       (fun _ w' => snapshot w' = snapshot w /\
                    exists rows, events w' = events w ++ rows /\
                                 Forall (instance_of sid eventData) rows)
       (fun _ w' => snapshot w' = snapshot w).
Proof.
  induction fuel as [|fuel IH]; intros cur w; [exact I|].
  cbn [expand_loop].
  destruct (date_le cur untilDate).
  - apply post_bind.
    eapply post_weaken with
      (Q := fun _ w1 => snapshot w1 = snapshot w /\
                        exists rows, events w1 = events w ++ rows /\
                                     Forall (instance_of sid eventData) rows)
      (E := fun _ w1 => snapshot w1 = snapshot w);
      [| |intros ? ? H; exact H].
    + destruct (includes selectedDays (getDay tz cur)).
      * eapply post_weaken; [apply post_insert_instance| |intros ? ? H; exact H].
        cbv beta. intros _ w1 (Hs & r & He & Hr). split; [exact Hs|].
        exists [r]. split; [exact He|]. constructor; [exact Hr|constructor].
      * apply post_ret. split; [reflexivity|]. exists []. rewrite app_nil_r. auto.
    + cbv beta. intros _ w1 (Hs & rows & He & Hr).
      eapply post_weaken; [apply IH| |].
      * cbv beta. intros _ w2 (Hs2 & rows2 & He2 & Hr2). split; [congruence|].
        exists (rows ++ rows2). rewrite He2, He, app_assoc. split; [reflexivity|].
        apply Forall_app; auto.
      * cbv beta. intros _ w2 Hs2. congruence.
  - apply post_ret. split; [reflexivity|]. exists []. rewrite app_nil_r. auto.
Qed.

Lemma post_series_transaction fuel sid eventData w :
  post (series_transaction tz randomUUID faults fuel sid eventData) w
       (fun r w' => r = series_updated /\ snapshot w' = None /\
                    exists rows, events w' = filter (other_series sid) (events w) ++ rows /\
                                 Forall (instance_of sid eventData) rows)
       (fun _ w' => (snapshot w' = snapshot w /\ events w' = events w) \/
                    snapshot w' = Some (events w)).
Proof.
  unfold series_transaction.
  apply post_bind. apply post_query; cbn; [auto|].
  apply post_bind. apply post_query; cbn; [auto|].
  set (w2 := on_events _ _).
  assert (Hs2 : snapshot w2 = Some (events w)) by reflexivity.
  assert (He2 : events w2 = filter (other_series sid) (events w)) by reflexivity.
  clearbody w2.
  destruct (nullish eventData); [apply post_throw; auto|].
  destruct (selectedDays_of _) as [selectedDays|]; [|apply post_throw; auto].
  assert (Hparse : forall a b,
    post (call_parseDateTime tz a b) w2
         (fun _ w3 => w3 = w2) (fun _ w3 => w3 = w2)).
  { intros a b. unfold call_parseDateTime. destruct a; try reflexivity.
    destruct b; reflexivity. }
  apply post_bind.
  eapply post_weaken; [apply Hparse| |intros ? ? ->; auto].
  cbv beta. intros currentDate ? ->.
  apply post_bind.
  eapply post_weaken; [apply Hparse| |intros ? ? ->; auto].
  cbv beta. intros untilDate ? ->.
  apply post_bind.
  eapply post_weaken; [apply post_expand_loop| |intros ? ? H; right; congruence].
  cbv beta. intros _ w3 (Hs3 & rows & He3 & Hr).
  apply post_bind. apply post_query; [right; cbn; congruence|].
  apply post_ret. split; [reflexivity|]. split; [reflexivity|]. cbn.
  exists rows. rewrite He3, He2. auto.
Qed.

Lemma post_put_series fuel sid eventData w :
  snapshot w = None ->
  post (put_series tz randomUUID faults fuel sid eventData) w
       (fun r w' => r = series_updated /\ snapshot w' = None /\
                    exists rows, events w' = filter (other_series sid) (events w) ++ rows /\
                                 Forall (instance_of sid eventData) rows)
       (fun _ w' => snapshot w' = None /\ events w' = events w).
Proof.
  intros Hs. pose proof (post_series_transaction fuel sid eventData w) as H.
  unfold post, put_series, try_catch in *.
  destruct (series_transaction _ _ _ _ _ _ w) as [r w'|e w'|]; [exact H| |exact I].
  cbn. split; [reflexivity|].
  destruct H as [[H He]|H]; rewrite H; [rewrite Hs; exact He|reflexivity].
Qed.

End HandlerFacts.

Lemma halts_bind {A B} (m : M A) (k : A -> M B) w :
  halts m w -> (forall a w', m w = Return a w' -> halts (k a) w') -> halts (bind m k) w.
Proof. unfold halts, bind. destruct (m w); auto; discriminate. Qed.

Section Termination.
Variable tz : Z.
Variable randomUUID : nat -> string.
Variable faults : nat -> bool.

Lemma halts_query run w : halts (query faults run) w.
Proof. unfold halts, query. destruct (faults (queries w)); discriminate. Qed.

Lemma halts_call_parseDateTime a b w : halts (call_parseDateTime tz a b) w.
Proof. unfold halts, call_parseDateTime. destruct a; try discriminate. destruct b; discriminate. Qed.

Lemma halts_insert_instance sid eventData cur w :
  halts (insert_instance tz randomUUID faults sid eventData cur) w.
Proof.
  unfold insert_instance.
  apply halts_bind; [apply halts_call_parseDateTime|]. intros eventStart w1 _.
  apply halts_bind; [discriminate|]. intros uuid w2 _.
  apply halts_bind; [destruct eventStart; discriminate|]. intros s1 w3 _.
  apply halts_bind; [|intros; apply halts_query].
  destruct (Date_of_number _); discriminate.
Qed.

Lemma halts_expand_loop sid eventData selectedDays untilDate fuel :
  forall cur w,
    (loop_bound cur untilDate < fuel)%nat ->
    halts (expand_loop tz randomUUID faults sid eventData selectedDays untilDate fuel cur) w.
Proof.
  induction fuel as [|fuel IH]; intros cur w Hb; [lia|].
  cbn [expand_loop].
  destruct (date_le cur untilDate) eqn:Hle; [|discriminate].
  destruct cur as [|t]; [discriminate|]. destruct untilDate as [|u]; [discriminate|].
  cbn in Hle. apply Z.leb_le in Hle.
  apply halts_bind.
  - destruct (includes _ _); [apply halts_insert_instance|discriminate].
  - intros _ w1 _. apply IH. rewrite setDate_next.
    cbn [loop_bound] in Hb. unfold msPerDay in *.
    assert (0 <= (u - t) / 86400000) by (apply Z.div_pos; lia).
    unfold clip, TimeClip. destruct (maxTime <? _); cbn [loop_bound]; [lia|].
    unfold msPerDay.
    replace ((u - (t + 86400000)) / 86400000) with ((u - t) / 86400000 - 1)
      by (Z.div_mod_to_equations; lia).
    lia.
Qed.

Lemma halts_series_transaction fuel sid eventData w :
  (series_fuel tz eventData <= fuel)%nat ->
  halts (series_transaction tz randomUUID faults fuel sid eventData) w.
Proof.
  intros Hf. unfold series_transaction.
  apply halts_bind; [apply halts_query|]. intros _ w1 _.
  apply halts_bind; [apply halts_query|]. intros _ w2 _.
  destruct (nullish eventData); [discriminate|].
  destruct (selectedDays_of _); [|discriminate].
  apply halts_bind; [apply halts_call_parseDateTime|]. intros cur w3 Hc.
  apply halts_bind; [apply halts_call_parseDateTime|]. intros untilDate w4 Hu.
  apply halts_bind.
  - apply halts_expand_loop. unfold series_fuel in Hf.
    unfold call_parseDateTime, ret, throw in Hc, Hu.
    destruct (get_prop eventData "series_start_date"); try discriminate.
    destruct (get_prop eventData "recur_until"); try discriminate.
    injection Hc as <- _. injection Hu as <- _. lia.
  - intros _ w5 _. apply halts_bind; [apply halts_query|]. discriminate.
Qed.

Lemma handler_PUT_total fuel params eventData w :
  (series_fuel tz eventData <= fuel)%nat ->
  handler_PUT tz randomUUID faults fuel params eventData w <> None.
Proof.
  intros Hf. unfold handler_PUT.
  destruct (param_given (seriesId params)) as [sid|].
  - pose proof (halts_series_transaction fuel sid eventData w Hf) as H.
    unfold halts, put_series, try_catch in *.
    destruct (series_transaction _ _ _ _ _ _ w); try discriminate. congruence.
  - destruct (param_given (uid_param params)); [|discriminate].
    unfold put_uid. destruct (nullish eventData); [discriminate|].
    unfold bind, query_UPDATE, query. destruct (faults (queries w)); discriminate.
Qed.

End Termination.

Lemma after_inserts_nil w : after_inserts w [] = w.
Proof.
  destruct w. unfold after_inserts. cbn. rewrite app_nil_r, !Nat.add_0_r. reflexivity.
Qed.

Lemma after_inserts_cons w r rows :
  after_inserts (after_inserts w [r]) rows = after_inserts w (r :: rows).
Proof.
  unfold after_inserts. cbn. rewrite <- app_assoc. cbn. f_equal; lia.
Qed.

Section Expansion.

Variable tz : Z.
Variable randomUUID : nat -> string.
Variable faults : nat -> bool.
Hypothesis no_faults : forall i, faults i = false.

Variable sid : string.
Variable eventData : JSValue.
Variable selectedDays : list JSNum.

Variables h mi dur : Z.
Hypothesis Htime : time_fields (get_prop eventData "time") = Some (Int h, Int mi).
Hypothesis Hh : 0 <= h <= 23.
Hypothesis Hmi : 0 <= mi <= 59.
Hypothesis Hdur : ToNumber (finalDuration_of eventData) = Int dur.

#[local] Abbreviation tod := (MakeTime h mi 0 0).
#[local] Abbreviation sel := (selected selectedDays).
#[local] Abbreviation start := (instance_start tz h mi).

Lemma tod_range : 0 <= tod < msPerDay.
Proof. unfold MakeTime, msPerHour, msPerMinute, msPerDay. lia. Qed.

Lemma query_ok run w :
  query faults run w =
    Return tt (run (mkWorld (events w) (snapshot w) (S (queries w)) (uuids w))).
Proof. unfold query. rewrite no_faults. reflexivity. Qed.

Lemma Day_midnight n : Day (LocalTime tz (UTC tz (MakeDate n 0))) = n.
Proof.
  unfold LocalTime, UTC. replace (MakeDate n 0 - tz + tz) with (MakeDate n 0) by lia.
  apply Day_MakeDate. unfold msPerDay. lia.
Qed.

Lemma insert_instance_run n w :
  100 <= YearFromDay n ->
  Z.abs (start n) <= maxTime ->
  Z.abs (start n + dur * 60000) <= maxTime ->
  insert_instance tz randomUUID faults sid eventData (Valid (UTC tz (MakeDate n 0))) w =
    Return tt (after_inserts w
      [instance_row sid eventData (randomUUID (uuids w))
                    (ISOString (start n)) (ISOString (start n + dur * 60000))]).
Proof.
  intros Hy Hs He.
  assert (Hparse : call_parseDateTime tz
            (JString (formatDateToYYYYMMDD tz (Valid (UTC tz (MakeDate n 0)))))
            (get_prop eventData "time") w = Return (Valid (start n)) w).
  { unfold call_parseDateTime. unfold time_fields in Htime.
    assert (Hgo : forall ts,
               Some (nth_num 0 (split ":" ts), nth_num 1 (split ":" ts)) = Some (Int h, Int mi) ->
               parseDateTime tz (formatDateToYYYYMMDD tz (Valid (UTC tz (MakeDate n 0)))) ts
               = Valid (start n)).
    { intros ts [= E0 E1].
      rewrite parse_format by (unfold YearFromTime; rewrite Day_midnight; exact Hy).
      rewrite E0, E1.
      rewrite Date_of_fields_day by (unfold YearFromTime; rewrite Day_midnight; exact Hy).
      rewrite Day_midnight. fold (instance_start tz h mi n).
      unfold clip, TimeClip. destruct (Z.ltb_spec maxTime (Z.abs (start n))); [lia|reflexivity]. }
    destruct (get_prop eventData "time"); try discriminate;
      unfold ret; rewrite (Hgo _ Htime); reflexivity. }
  unfold insert_instance, bind. rewrite Hparse.
  fold (finalDuration_of eventData). rewrite Hdur.
  cbn [crypto_randomUUID toISOString ret getTime num_mul num_add Date_of_number].
  unfold clip, TimeClip.
  destruct (Z.ltb_spec maxTime (Z.abs (start n + dur * 60000))); [lia|].
  cbn [ret toISOString]. unfold query_INSERT. rewrite query_ok. unfold after_inserts, on_events. cbn.
  f_equal. f_equal; lia.
Qed.

Variable t1 d1 : Z.
Hypothesis Ht1 : LocalTime tz t1 = MakeDate d1 (MakeTime 23 59 0 0).

Lemma expand_loop_run k :
  forall n w fuel,
    Z.of_nat k = d1 + 1 - n ->
    (k < fuel)%nat ->
    100 <= YearFromDay n ->
    (forall m, n <= m <= d1 ->
               Z.abs (UTC tz (MakeDate m 0)) <= maxTime /\
               Z.abs (start m) <= maxTime /\
               Z.abs (start m + dur * 60000) <= maxTime) ->
    expand_loop tz randomUUID faults sid eventData selectedDays (Valid t1) fuel
                (clip (UTC tz (MakeDate n 0))) w =
      Return tt (after_inserts w
        (rows_of randomUUID sid eventData
           (map (fun m => (start m, start m + dur * 60000))
                (filter (fun m => sel (weekday_of m)) (zrange n k)))
           (uuids w))).
Proof.
  assert (Ht1' : t1 = UTC tz (MakeDate d1 (MakeTime 23 59 0 0))).
  { unfold UTC, LocalTime in *. lia. }
  induction k as [|k IH]; intros n w fuel Hk Hf Hy Hb.
  - destruct fuel as [|fuel]; [lia|]. cbn [expand_loop zrange filter map rows_of].
    rewrite after_inserts_nil.
    assert (date_le (clip (UTC tz (MakeDate n 0))) (Valid t1) = false) as ->; [|reflexivity].
    unfold clip, TimeClip. destruct (maxTime <? _); [reflexivity|]. cbn.
    apply Z.leb_gt. rewrite Ht1'. unfold UTC, MakeDate, MakeTime, msPerDay, msPerHour, msPerMinute. lia.
  - destruct fuel as [|fuel]; [lia|].
    destruct (Hb n ltac:(lia)) as (Hc & Hs & He).
    assert (Hclip : clip (UTC tz (MakeDate n 0)) = Valid (UTC tz (MakeDate n 0))).
    { unfold clip, TimeClip. destruct (Z.ltb_spec maxTime (Z.abs (UTC tz (MakeDate n 0)))); [lia|reflexivity]. }
    rewrite Hclip. cbn [expand_loop].
    assert (date_le (Valid (UTC tz (MakeDate n 0))) (Valid t1) = true) as ->.
    { cbn. apply Z.leb_le. rewrite Ht1'.
      unfold UTC, MakeDate, MakeTime, msPerDay, msPerHour, msPerMinute. lia. }
    assert (Hday : getDay tz (Valid (UTC tz (MakeDate n 0))) = Int (weekday_of n)).
    { cbn [getDay]. unfold WeekDay. rewrite Day_midnight. reflexivity. }
    rewrite Hday, setDate_next.
    assert (Hnext : UTC tz (MakeDate n 0) + msPerDay = UTC tz (MakeDate (n + 1) 0)).
    { unfold UTC, MakeDate. lia. }
    rewrite Hnext.
    assert (Hy' : 100 <= YearFromDay (n + 1)).
    { pose proof (YearFromDay_mono n (n + 1)). lia. }
    cbn [zrange filter]. fold (selected selectedDays (weekday_of n)).
    unfold bind at 1.
    destruct (sel (weekday_of n)).
    + rewrite (insert_instance_run n w Hy Hs He).
      rewrite (IH (n + 1) _ fuel) by first [lia | exact Hy' | intros; apply Hb; lia].
      cbn [map rows_of]. rewrite after_inserts_cons.
      unfold after_inserts at 2. cbn [uuids List.length].
      replace (uuids w + 1)%nat with (S (uuids w)) by lia. reflexivity.
    + cbn [ret].
      rewrite (IH (n + 1) _ fuel) by first [lia | exact Hy' | intros; apply Hb; lia].
      reflexivity.
Qed.

End Expansion.

Section Assembly.

Variable tz : Z.
Variable randomUUID : nat -> string.
Variable faults : nat -> bool.
Hypothesis no_faults : forall i, faults i = false.

Lemma parseDateTime_local ds ts t :
  parseDateTime tz ds ts = Valid t ->
  exists d hh mm,
    nth_num 0 (split ":" ts) = Int hh /\ nth_num 1 (split ":" ts) = Int mm /\
    LocalTime tz t = MakeDate d (MakeTime hh mm 0 0) /\ Z.abs t <= maxTime.
Proof.
  unfold parseDateTime.
  destruct (isNaN _ || isNaN _ || isNaN _); [discriminate|].
  unfold Date_of_fields.
  destruct (nth_num 0 (split "-" _)) as [|y]; [discriminate|].
  destruct (num_add _ _) as [|m]; [discriminate|].
  destruct (nth_num 2 _) as [|d]; [discriminate|].
  destruct (nth_num 0 (split ":" ts)) as [|hh]; [discriminate|].
  destruct (nth_num 1 (split ":" ts)) as [|mm]; [discriminate|].
  intros H. apply clip_Valid in H as [H Hb].
  eexists _, hh, mm. repeat split; auto.
  rewrite <- H. unfold LocalTime, UTC. ring.
Qed.

Lemma LocalTime_Day t d hh mm :
  LocalTime tz t = MakeDate d (MakeTime hh mm 0 0) ->
  0 <= hh <= 23 -> 0 <= mm <= 59 ->
  Day (LocalTime tz t) = d.
Proof.
  intros -> Hh Hm. apply Day_MakeDate.
  unfold MakeTime, msPerHour, msPerMinute, msPerDay. lia.
Qed.

Lemma expand_loop_empty sid eventData selectedDays t0 t1 fuel w :
  t1 < t0 ->
  expand_loop tz randomUUID faults sid eventData selectedDays (Valid t1) (S fuel)
              (Valid t0) w = Return tt w.
Proof.
  intros Hlt. cbn [expand_loop date_le].
  destruct (Z.leb_spec t0 t1); [lia|reflexivity].
Qed.

Lemma handler_PUT_series_run fuel params sid eventData selectedDays ds us rows w :
  param_given (seriesId params) = Some sid ->
  selectedDays_of (get_prop eventData "recurring_days") = Some selectedDays ->
  get_prop eventData "series_start_date" = JString ds ->
  get_prop eventData "recur_until" = JString us ->
  (forall w2,
      expand_loop tz randomUUID faults sid eventData selectedDays
                  (parseDateTime tz us "23:59") fuel (parseDateTime tz ds "00:00") w2
      = Return tt (after_inserts w2 (rows (uuids w2)))) ->
  handler_PUT tz randomUUID faults fuel params eventData w =
    Some (series_updated, series_result sid w (rows (uuids w))).
Proof.
  intros Hp Hsel Hds Hus Hloop.
  assert (Hnn : nullish eventData = false).
  { destruct eventData; try reflexivity; cbn in Hds; discriminate. }
  unfold handler_PUT. rewrite Hp.
  unfold put_series, try_catch, series_transaction, bind, query_BEGIN, query_DELETE_series,
    query_COMMIT.
  rewrite !query_ok by exact no_faults. rewrite Hnn, Hsel, Hds, Hus.
  cbn [call_parseDateTime ret]. rewrite Hloop. rewrite query_ok by exact no_faults.
  unfold series_result, after_inserts, on_events, other_series. cbn.
  reflexivity.
Qed.

End Assembly.

Section Idempotence.

Variable tz : Z.
Variable randomUUID : nat -> string.
Variable faults : nat -> bool.
Variable sid : string.
Variable eventData : JSValue.

Lemma insert_instance_times cur wa wb wa' wb' :
  insert_instance tz randomUUID faults sid eventData cur wa = Return tt wa' ->
  insert_instance tz randomUUID faults sid eventData cur wb = Return tt wb' ->
  exists ra rb, events wa' = events wa ++ [ra] /\ events wb' = events wb ++ [rb] /\
                times ra = times rb.
Proof.
  unfold insert_instance, bind, call_parseDateTime.
  set (fmt := formatDateToYYYYMMDD tz cur).
  destruct (get_prop eventData "time"); cbn [ret throw]; try discriminate.
  all: match goal with
       | |- context [parseDateTime tz ?f ?ts] =>
           destruct (parseDateTime tz f ts) as [|t]; cbn [toISOString throw ret crypto_randomUUID getTime];
             [discriminate|]
       end.
  all: destruct (Date_of_number _) as [|t']; cbn [toISOString throw ret]; [discriminate|].
  all: unfold query_INSERT, query, on_events; cbn.
  all: destruct (faults (queries wa)); [discriminate|];
       destruct (faults (queries wb)); [discriminate|].
  all: intros [= <-] [= <-]; cbn; eexists _, _; repeat split.
Qed.

Lemma expand_loop_times selectedDays untilDate f1 :
  forall f2 cur wa wb wa' wb',
    expand_loop tz randomUUID faults sid eventData selectedDays untilDate f1 cur wa
      = Return tt wa' ->
    expand_loop tz randomUUID faults sid eventData selectedDays untilDate f2 cur wb
      = Return tt wb' ->
    exists ra rb, events wa' = events wa ++ ra /\ events wb' = events wb ++ rb /\
                  map times ra = map times rb.
Proof.
  induction f1 as [|f1 IH]; intros f2 cur wa wb wa' wb'; [discriminate|].
  destruct f2 as [|f2]; [discriminate|].
  cbn [expand_loop].
  destruct (date_le cur untilDate).
  - unfold bind.
    destruct (includes selectedDays (getDay tz cur)).
    + destruct (insert_instance _ _ _ _ _ cur wa) as [[] wa1| |] eqn:Ea; try discriminate.
      destruct (insert_instance _ _ _ _ _ cur wb) as [[] wb1| |] eqn:Eb; try discriminate.
      destruct (insert_instance_times _ _ _ _ _ Ea Eb) as (ra & rb & Ha & Hb & Hab).
      intros Hla Hlb.
      destruct (IH _ _ _ _ _ _ Hla Hlb) as (ra' & rb' & Ha' & Hb' & Hab').
      exists (ra :: ra'), (rb :: rb').
      rewrite Ha', Hb', Ha, Hb, <- !app_assoc. cbn. repeat split; congruence.
    + cbn [ret]. apply IH.
  - intros [= <-] [= <-]. exists [], []. rewrite !app_nil_r. auto.
Qed.

End Idempotence.

Section SeriesFacts.

Variable tz : Z.
Variable randomUUID : nat -> string.
Variable faults : nat -> bool.

Lemma series_transaction_inv fuel sid eventData w r w' :
  series_transaction tz randomUUID faults fuel sid eventData w = Return r w' ->
  exists selectedDays ds us w2 w3,
    selectedDays_of (get_prop eventData "recurring_days") = Some selectedDays /\
    get_prop eventData "series_start_date" = JString ds /\
    get_prop eventData "recur_until" = JString us /\
    events w2 = filter (other_series sid) (events w) /\
    expand_loop tz randomUUID faults sid eventData selectedDays
                (parseDateTime tz us "23:59") fuel (parseDateTime tz ds "00:00") w2
      = Return tt w3 /\
    events w' = events w3.
Proof.
  unfold series_transaction, bind, query_BEGIN, query_DELETE_series, query_COMMIT, query.
  destruct (faults (queries w)); [discriminate|]. cbn [queries events snapshot uuids].
  destruct (faults (S (queries w))); [discriminate|].
  destruct (nullish eventData); [discriminate|].
  destruct (selectedDays_of _) as [selectedDays|]; [|discriminate].
  unfold call_parseDateTime.
  destruct (get_prop eventData "series_start_date") as [| | | |ds| |]; try discriminate.
  cbn [ret].
  destruct (get_prop eventData "recur_until") as [| | | |us| |]; try discriminate.
  cbn [ret].
  match goal with
  | |- context [expand_loop _ _ _ _ _ _ _ _ _ ?w2] =>
      destruct (expand_loop tz randomUUID faults sid eventData selectedDays
                  (parseDateTime tz us "23:59") fuel (parseDateTime tz ds "00:00") w2)
        as [[] w3| |] eqn:El; try discriminate;
      destruct (faults (queries w3)); [discriminate|];
      intros [= <- <-];
      exists selectedDays, ds, us, w2, w3
  end.
  repeat split; auto.
Qed.

Lemma handler_PUT_series_cases fuel params sid eventData w r w' :
  param_given (seriesId params) = Some sid ->
  handler_PUT tz randomUUID faults fuel params eventData w = Some (r, w') ->
  (series_transaction tz randomUUID faults fuel sid eventData w = Return r w') \/
  (r = internal_server_error /\
   exists e w1, series_transaction tz randomUUID faults fuel sid eventData w = Throw e w1).
Proof.
  intros Hp. unfold handler_PUT, put_series, try_catch. rewrite Hp.
  destruct (series_transaction _ _ _ _ _ _ w) as [r0 w0|e w0|]; cbn.
  - intros [= <- <-]. left. reflexivity.
  - intros [= <- <-]. right. split; [reflexivity|]. eauto.
  - discriminate.
Qed.

Lemma handler_PUT_series_post fuel params sid eventData w r w' :
  snapshot w = None ->
  param_given (seriesId params) = Some sid ->
  handler_PUT tz randomUUID faults fuel params eventData w = Some (r, w') ->
  snapshot w' = None /\
  ((r = series_updated /\
    exists rows, events w' = filter (other_series sid) (events w) ++ rows /\
                 Forall (instance_of sid eventData) rows) \/
   (r = internal_server_error /\ events w' = events w)).
Proof.
  intros Hs Hp. pose proof (post_put_series tz randomUUID faults fuel sid eventData w Hs) as H.
  unfold handler_PUT. rewrite Hp. unfold post in H.
  destruct (put_series _ _ _ _ _ _ w) as [r0 w0|e w0|]; [| |discriminate].
  - intros [= <- <-]. destruct H as (-> & Hs' & rows & He & Hr). split; [exact Hs'|].
    left. split; [reflexivity|]. eauto.
  - intros [= <- <-]. destruct H as [Hs' He]. split; [exact Hs'|]. right. auto.
Qed.

Lemma instance_in_series sid eventData r :
  instance_of sid eventData r -> in_series sid r = true.
Proof.
  intros (t & dur & _ & _ & _ & _ & _ & Hsid & _).
  unfold in_series. rewrite Hsid. cbn. apply String.eqb_refl.
Qed.

Lemma filter_other_instances sid eventData rows :
  Forall (instance_of sid eventData) rows -> filter (other_series sid) rows = [].
Proof.
  induction 1 as [|r rows Hr _ IH]; [reflexivity|].
  cbn. unfold other_series at 1. fold (in_series sid r).
  rewrite (instance_in_series _ _ _ Hr). exact IH.
Qed.

Lemma filter_in_instances sid eventData rows :
  Forall (instance_of sid eventData) rows -> filter (in_series sid) rows = rows.
Proof.
  induction 1 as [|r rows Hr _ IH]; [reflexivity|].
  cbn. rewrite (instance_in_series _ _ _ Hr), IH. reflexivity.
Qed.

Lemma filter_in_other sid rows :
  filter (in_series sid) (filter (other_series sid) rows) = [].
Proof.
  induction rows as [|r rows IH]; [reflexivity|].
  cbn. unfold other_series at 1. fold (in_series sid r).
  destruct (in_series sid r) eqn:E; cbn; [exact IH|]. rewrite E. exact IH.
Qed.

Lemma filter_other_idem sid rows :
  filter (other_series sid) (filter (other_series sid) rows) = filter (other_series sid) rows.
Proof.
  induction rows as [|r rows IH]; [reflexivity|].
  cbn. destruct (other_series sid r) eqn:E; cbn; [rewrite E, IH|]; auto.
Qed.

Lemma series_pairs_replaced sid eventData old rows :
  Forall (instance_of sid eventData) rows ->
  series_pairs sid (filter (other_series sid) old ++ rows) = map times rows.
Proof.
  intros Hr. unfold series_pairs. rewrite filter_app, filter_in_other.
  rewrite (filter_in_instances _ _ _ Hr). reflexivity.
Qed.

Theorem replaceSeries_idempotent fuel1 fuel2 params sid eventData w r1 w1 r2 w2 :
  snapshot w = None ->
  param_given (seriesId params) = Some sid ->
  handler_PUT tz randomUUID faults fuel1 params eventData w = Some (r1, w1) ->
  statusCode r1 = 200 ->
  handler_PUT tz randomUUID faults fuel2 params eventData w1 = Some (r2, w2) ->
  series_pairs sid (events w2) = series_pairs sid (events w1).
Proof.
  intros Hs Hp H1 Hok H2.
  destruct (handler_PUT_series_post _ _ _ _ _ _ _ Hs Hp H1) as (Hs1 & [(_ & ra & Ha & Hra)|(-> & _)]);
    [|discriminate].
  destruct (handler_PUT_series_post _ _ _ _ _ _ _ Hs1 Hp H2)
    as (_ & [(Hr2 & rb & Hb & Hrb)|(_ & ->)]); [|reflexivity].
  destruct (handler_PUT_series_cases _ _ _ _ _ _ _ Hp H1) as [T1|(-> & _)]; [|discriminate].
  destruct (handler_PUT_series_cases _ _ _ _ _ _ _ Hp H2) as [T2|(Hr2' & _)];
    [|rewrite Hr2 in Hr2'; discriminate].
  apply series_transaction_inv in T1
    as (sel1 & ds1 & us1 & wa & wa' & S1 & D1 & U1 & Ea & La & Ea').
  apply series_transaction_inv in T2
    as (sel2 & ds2 & us2 & wb & wb' & S2 & D2 & U2 & Eb & Lb & Eb').
  rewrite S1 in S2. injection S2 as <-.
  rewrite D1 in D2. injection D2 as <-.
  rewrite U1 in U2. injection U2 as <-.
  destruct (expand_loop_times _ _ _ _ _ _ _ _ _ _ _ _ _ _ La Lb)
    as (xa & xb & Xa & Xb & Hx).
  assert (xa = ra) as ->.
  { apply (app_inv_head (filter (other_series sid) (events w))). congruence. }
  assert (xb = rb) as ->.
  { apply (app_inv_head (filter (other_series sid) (events w1))). congruence. }
  rewrite Hb, Ha.
  rewrite (series_pairs_replaced _ _ _ _ Hrb), (series_pairs_replaced _ _ _ _ Hra).
  symmetry. exact Hx.
Qed.

End SeriesFacts.






Lemma spec_expand_days tz sel d0 d1 tod dur :
  spec_expand tz sel d0 d1 tod dur =
    map (fun n => let s := UTC tz (MakeDate n tod) in (s, s + dur * 60000)) (spec_days sel d0 d1).
Proof. reflexivity. Qed.



Lemma includes_all_days wd : 0 <= wd <= 6 -> includes all_days (Int wd) = true.
Proof.
  intros H.
  assert (wd = 0 \/ wd = 1 \/ wd = 2 \/ wd = 3 \/ wd = 4 \/ wd = 5 \/ wd = 6) as Hc by lia.
  repeat (destruct Hc as [-> | Hc]; [reflexivity|]). subst wd. reflexivity.
Qed.

Lemma weekday_of_range n : 0 <= weekday_of n <= 6.
Proof. unfold weekday_of. Z.div_mod_to_equations. lia. Qed.

Section SeriesRun.

Variable tz : Z.
Variable randomUUID : nat -> string.
Variable faults : nat -> bool.
Hypothesis no_faults : forall i, faults i = false.

Variable sid : string.
Variable eventData : JSValue.
Variable selectedDays : list JSNum.
Variables ds us : string.
Variables t0 t1 h mi dur : Z.

Hypothesis Hstart : parseDateTime tz ds "00:00" = Valid t0.
Hypothesis Huntil : parseDateTime tz us "23:59" = Valid t1.
Hypothesis Hyear : 100 <= YearFromTime (LocalTime tz t0).
Hypothesis Htime : time_fields (get_prop eventData "time") = Some (Int h, Int mi).
Hypothesis Hh : 0 <= h <= 23.
Hypothesis Hmi : 0 <= mi <= 59.
Hypothesis Hdur : ToNumber (finalDuration_of eventData) = Int dur.
Hypothesis Hend0 : Z.abs (t0 + dur * 60000) <= maxTime.
Hypothesis Hend1 : Z.abs (t1 + dur * 60000) <= maxTime.

#[local] Abbreviation d0 := (Day (LocalTime tz t0)).
#[local] Abbreviation d1 := (Day (LocalTime tz t1)).

Lemma start_local : LocalTime tz t0 = MakeDate d0 0 /\ Z.abs t0 <= maxTime.
Proof.
  destruct (parseDateTime_local tz _ _ _ Hstart) as (d & hh & mm & E0 & E1 & Hl & Hb).
  vm_compute in E0, E1. injection E0 as <-. injection E1 as <-.
  split; [|exact Hb]. change (MakeTime 0 0 0 0) with 0 in Hl.
  rewrite Hl. rewrite Day_MakeDate by (unfold msPerDay; lia). reflexivity.
Qed.

Lemma until_local : LocalTime tz t1 = MakeDate d1 (MakeTime 23 59 0 0) /\ Z.abs t1 <= maxTime.
Proof.
  destruct (parseDateTime_local tz _ _ _ Huntil) as (d & hh & mm & E0 & E1 & Hl & Hb).
  vm_compute in E0, E1. injection E0 as <-. injection E1 as <-.
  split; [|exact Hb].
  rewrite Hl. rewrite Day_MakeDate by (vm_compute; split; congruence). reflexivity.
Qed.

Lemma series_loop_run fuel w :
  (Z.to_nat (d1 - d0 + 1) < fuel)%nat ->
  expand_loop tz randomUUID faults sid eventData selectedDays
              (parseDateTime tz us "23:59") fuel (parseDateTime tz ds "00:00") w =
    Return tt (after_inserts w
      (rows_of randomUUID sid eventData
               (spec_expand tz (selected selectedDays) d0 d1 (MakeTime h mi 0 0) dur)
               (uuids w))).
Proof.
  intros Hf. rewrite Hstart, Huntil.
  destruct start_local as [L0 B0]. destruct until_local as [L1 B1].
  pose proof Hyear as Hy. unfold YearFromTime in Hy.
  set (n0 := Day (LocalTime tz t0)) in *. set (n1 := Day (LocalTime tz t1)) in *.
  clearbody n0 n1.
  assert (E0 : t0 = UTC tz (MakeDate n0 0)) by (unfold UTC, LocalTime in *; lia).
  assert (E1 : t1 = UTC tz (MakeDate n1 (MakeTime 23 59 0 0))) by (unfold UTC, LocalTime in *; lia).
  destruct (Z.lt_ge_cases (n1 + 1) n0) as [Hlt|Hge].
  - assert (t1 < t0).
    { rewrite E0, E1. unfold UTC, MakeDate, MakeTime, msPerDay, msPerHour, msPerMinute. lia. }
    destruct fuel as [|fuel]; [lia|]. rewrite expand_loop_empty by assumption.
    unfold spec_expand, spec_days. replace (Z.to_nat (n1 - n0 + 1)) with O by lia.
    cbn. rewrite after_inserts_nil. reflexivity.
  - assert (Hclip : Valid t0 = clip (UTC tz (MakeDate n0 0))).
    { rewrite <- E0. unfold clip, TimeClip.
      destruct (Z.ltb_spec maxTime (Z.abs t0)); [lia|reflexivity]. }
    rewrite Hclip.
    apply expand_loop_run with (d1 := n1); auto.
    all: try lia.
    intros m Hm. revert B0 B1 Hend0 Hend1. rewrite E0, E1.
    unfold instance_start, UTC, MakeDate, MakeTime, msPerDay, msPerHour, msPerMinute, maxTime.
    lia.
Qed.

End SeriesRun.

(** ** The getPetNames query *)


Lemma ilike_percent_unfold p s :
  ilike (String "%" p) s =
    ilike p s || match s with
                 | EmptyString => false
                 | String _ s' => ilike (String "%" p) s'
                 end.
Proof. destruct s; reflexivity. Qed.


Lemma ilike_literal c p s :
  is_wildcard c = false ->
  ilike (String c p) s =
    match s with
    | EmptyString => false
    | String d s' => ci_eqb c d && ilike p s'
    end.
Proof.
  destruct c as [[|] [|] [|] [|] [|] [|] [|] [|]]; intros H; try discriminate H; reflexivity.
Qed.



Lemma in_dedup x l : In x (dedup l) <-> In x l.
Proof.
  induction l as [|y l IH]; [reflexivity|]. cbn [dedup].
  destruct (existsb (String.eqb y) l) eqn:E.
  - rewrite IH. split; [right; assumption|]. intros [<-|H]; [|exact H].
    apply existsb_exists in E as (z & Hz & Hyz). apply String.eqb_eq in Hyz. subst z. exact Hz.
  - cbn [In]. rewrite IH. reflexivity.
Qed.

Lemma NoDup_dedup l : NoDup (dedup l).
Proof.
  induction l as [|y l IH]; [constructor|]. cbn [dedup].
  destruct (existsb (String.eqb y) l) eqn:E; [exact IH|].
  constructor; [|exact IH]. rewrite in_dedup. intros Hin.
  assert (existsb (String.eqb y) l = true); [|congruence].
  apply existsb_exists. exists y. split; [exact Hin|apply String.eqb_refl].
Qed.


Section Collation.

Variable collate_leb : string -> string -> bool.
Hypothesis collate_total : forall a b, collate_leb a b = true \/ collate_leb b a = true.

#[local] Abbreviation le := (collate_le collate_leb).

Lemma in_insert_sorted x y l : In y (insert_sorted collate_leb x l) <-> y = x \/ In y l.
Proof.
  induction l as [|z l IH]; cbn [insert_sorted In].
  - intuition.
  - destruct (collate_leb x z); cbn [In]; [intuition|]. rewrite IH. intuition.
Qed.

Lemma in_order_by y l : In y (order_by collate_leb l) <-> In y l.
Proof.
  induction l as [|x l IH]; [reflexivity|].
  cbn [order_by fold_right]. fold (order_by collate_leb l).
  rewrite in_insert_sorted, IH. cbn [In]. intuition.
Qed.

Lemma NoDup_insert_sorted x l : ~ In x l -> NoDup l -> NoDup (insert_sorted collate_leb x l).
Proof.
  induction l as [|z l IH]; intros Hx Hl; cbn [insert_sorted].
  - constructor; [exact Hx|constructor].
  - destruct (collate_leb x z); [constructor; assumption|].
    inversion Hl as [|? ? Hz Hl']; subst. constructor.
    + rewrite in_insert_sorted. intros [->|H]; [apply Hx; left; reflexivity|contradiction].
    + apply IH; [intros H; apply Hx; right; exact H|exact Hl'].
Qed.

Lemma NoDup_order_by l : NoDup l -> NoDup (order_by collate_leb l).
Proof.
  induction 1 as [|x l Hx Hl IH]; [constructor|].
  cbn [order_by fold_right]. fold (order_by collate_leb l).
  apply NoDup_insert_sorted; [rewrite in_order_by; exact Hx|exact IH].
Qed.

Lemma Sorted_insert_sorted x l : Sorted le l -> Sorted le (insert_sorted collate_leb x l).
Proof.
  induction 1 as [|z l Hl IH Hz]; cbn [insert_sorted].
  - constructor; constructor.
  - destruct (collate_leb x z) eqn:E.
    + constructor; [constructor; assumption|]. constructor. exact E.
    + constructor; [exact IH|].
      assert (Hzx : le z x) by (destruct (collate_total x z); [congruence|assumption]).
      destruct l as [|y l]; cbn [insert_sorted]; [constructor; exact Hzx|].
      destruct (collate_leb x y); constructor; [exact Hzx|].
      inversion Hz; assumption.
Qed.

Lemma Sorted_order_by l : Sorted le (order_by collate_leb l).
Proof.
  induction l as [|x l IH]; [constructor|].
  cbn [order_by fold_right]. fold (order_by collate_leb l).
  apply Sorted_insert_sorted, IH.
Qed.




End Collation.

(** ** Further facts for the claims *)

Lemma filter_all_true {A} (f : A -> bool) l :
  (forall x, In x l -> f x = true) -> filter f l = l.
Proof.
  induction l as [|a l IH]; intros H; [reflexivity|].
  cbn [filter]. rewrite (H a (or_introl eq_refl)), IH; [reflexivity|].
  intros x Hx. apply H. right. exact Hx.
Qed.


Lemma handler_PUT_series_ok tz randomUUID faults fuel params sid eventData w r w' :
  param_given (seriesId params) = Some sid ->
  handler_PUT tz randomUUID faults fuel params eventData w = Some (r, w') ->
  statusCode r = 200 ->
  r = series_updated /\
  exists rows, events w' = filter (other_series sid) (events w) ++ rows /\
               Forall (instance_of sid eventData) rows.
Proof.
  intros Hp H Hok.
  destruct (handler_PUT_series_cases _ _ _ _ _ _ _ _ _ _ Hp H) as [T|(-> & _)]; [|discriminate].
  pose proof (post_series_transaction tz randomUUID faults fuel sid eventData w) as P.
  unfold post in P. rewrite T in P. destruct P as (-> & _ & rows & He & Hr). eauto.
Qed.

(** ** The single-row update *)

Lemma handler_PUT_uid_cases tz randomUUID faults fuel params target eventData w r w' :
  param_given (seriesId params) = None ->
  param_given (uid_param params) = Some target ->
  handler_PUT tz randomUUID faults fuel params eventData w = Some (r, w') ->
  snapshot w' = snapshot w /\ uuids w' = uuids w /\
  ((r = event_updated /\ events w' = map (uid_update target eventData) (events w)) \/
   (r = internal_server_error /\ events w' = events w)).
Proof.
  intros Hs Hu. unfold handler_PUT. rewrite Hs, Hu. unfold put_uid.
  destruct (nullish eventData).
  - cbn. intros [= <- <-]. auto.
  - unfold bind, query_UPDATE, query. destruct (faults (queries w)); cbn.
    + intros [= <- <-]. cbn. auto.
    + intros [= <- <-]. cbn. split; [reflexivity|]. split; [reflexivity|]. left. auto.
Qed.

Lemma uid_update_uid target eventData r : uid (uid_update target eventData r) = uid r.
Proof. unfold uid_update. destruct (sql_eq_text (uid r) target); reflexivity. Qed.

Lemma uid_update_other target eventData r :
  sql_eq_text (uid r) target = false -> uid_update target eventData r = r.
Proof. unfold uid_update. intros ->. reflexivity. Qed.

Lemma sql_eq_text_true cell s : sql_eq_text cell s = true -> cell = SText s.
Proof.
  destruct cell; cbn; try discriminate. intros H. apply String.eqb_eq in H. congruence.
Qed.

(** ** Dates and times that do not parse *)

Section Malformed.

Variable tz : Z.
Variable randomUUID : nat -> string.
Variable faults : nat -> bool.







End Malformed.

(** * The claims of the specification *)

(** ** C1: the expansion is the selected days of the range, in order *)



(** ** C2: replacing a series is atomic *)



(** ** C3: the effective duration *)



(** ** C4: an empty selection means every day *)

(** C4.  Under the conditions of C1 but with no weekday selected,
    [selectedDays] is replaced by all seven weekdays, and the handler inserts
    what the specification's expander gives for the selection 0..6: one
    instance for every calendar day of [d0 .. d1]. *)
Theorem C4_empty_selection_every_day :
  forall tz randomUUID faults fuel params sid eventData ds us t0 t1 h mi dur w,
    (forall i, faults i = false) ->
    param_given (seriesId params) = Some sid ->
    raw_selection (get_prop eventData "recurring_days") = Some [] ->
    get_prop eventData "series_start_date" = JString ds ->
    get_prop eventData "recur_until" = JString us ->
    parseDateTime tz ds "00:00" = Valid t0 ->
    parseDateTime tz us "23:59" = Valid t1 ->
    100 <= YearFromTime (LocalTime tz t0) ->
    time_fields (get_prop eventData "time") = Some (Int h, Int mi) ->
    0 <= h <= 23 -> 0 <= mi <= 59 ->
    ToNumber (finalDuration_of eventData) = Int dur ->
    Z.abs (t0 + dur * 60000) <= maxTime ->
    Z.abs (t1 + dur * 60000) <= maxTime ->
    let d0 := Day (LocalTime tz t0) in
    let d1 := Day (LocalTime tz t1) in
    let every_day := selected all_days in
    let tod := MakeTime h mi 0 0 in
    let pairs := spec_expand tz every_day d0 d1 tod dur in
    (Z.to_nat (d1 - d0 + 1) < fuel)%nat ->
    selectedDays_of (get_prop eventData "recurring_days") = Some all_days
    /\ handler_PUT tz randomUUID faults fuel params eventData w
         = Some (series_updated,
                 series_result sid w (rows_of randomUUID sid eventData pairs (uuids w)))
    /\ map fst pairs
         = map (fun n => UTC tz (MakeDate n tod)) (zrange d0 (Z.to_nat (d1 - d0 + 1))).
Proof.
  intros tz randomUUID faults fuel params sid eventData ds us t0 t1 h mi dur w
         Hnf Hp Hraw Hds Hus Ht0 Ht1 Hy Htime Hh Hmi Hdur He0 He1 d0 d1 every_day tod pairs Hf.
  assert (Hsel : selectedDays_of (get_prop eventData "recurring_days") = Some all_days).
  { unfold selectedDays_of. rewrite Hraw. reflexivity. }
  split; [exact Hsel|]. split.
  - apply (handler_PUT_series_run tz randomUUID faults Hnf fuel params sid eventData all_days
             ds us (rows_of randomUUID sid eventData pairs) w Hp Hsel Hds Hus).
    intros w2. eapply series_loop_run; eauto.
  - unfold pairs. rewrite spec_expand_days, map_map. cbn [fst].
    unfold spec_days. rewrite filter_all_true; [reflexivity|].
    intros n _. apply includes_all_days, weekday_of_range.
Qed.

(** The week of 2024-01-01 with every day flag false, 10:00 for 15 minutes,
    on the empty store: seven instances, one per day. *)
Lemma C4_empty_selection_every_day_witness :
  option_map (fun rw => (statusCode (fst rw), map times (events (snd rw))))
    (handler_PUT 0 Examples.uuid_source Examples.no_faults 8
                 (Examples.for_series "s1") Examples.no_day_selected Examples.empty_store)
  = Some (200,
          [(SText "2024-01-01T10:00:00.000Z", SText "2024-01-01T10:15:00.000Z");
           (SText "2024-01-02T10:00:00.000Z", SText "2024-01-02T10:15:00.000Z");
           (SText "2024-01-03T10:00:00.000Z", SText "2024-01-03T10:15:00.000Z");
           (SText "2024-01-04T10:00:00.000Z", SText "2024-01-04T10:15:00.000Z");
           (SText "2024-01-05T10:00:00.000Z", SText "2024-01-05T10:15:00.000Z");
           (SText "2024-01-06T10:00:00.000Z", SText "2024-01-06T10:15:00.000Z");
           (SText "2024-01-07T10:00:00.000Z", SText "2024-01-07T10:15:00.000Z")]).
Proof.
  rewrite (proj1 (proj2 (C4_empty_selection_every_day 0 Examples.uuid_source
                    Examples.no_faults 8
                    (Examples.for_series "s1") "s1" Examples.no_day_selected
                    "2024-01-01" "2024-01-07"
                    1704067200000 1704671940000 10 0 15 Examples.empty_store
                    (fun _ => eq_refl) eq_refl eq_refl
                    eq_refl eq_refl eq_refl eq_refl ltac:(vm_compute; discriminate)
                    eq_refl ltac:(lia) ltac:(lia) eq_refl
                    ltac:(vm_compute; discriminate) ltac:(vm_compute; discriminate)
                    ltac:(vm_compute; lia)))).
  vm_compute. reflexivity.
Defined.

(** ** C5: the walk terminates *)

(** C5.  For every body, store and pattern of store faults the handler ends
    once it is given [series_fuel] tests of the loop condition (a number
    computed from the two dates), and when [recur_until] lies before
    [series_start_date] one test is enough: absent store faults the answer
    is 200, the rows of the series are deleted and no instance is inserted. *)
Theorem C5_expansion_terminates :
  forall tz randomUUID faults params eventData w,
    (forall fuel, (series_fuel tz eventData <= fuel)%nat ->
                  handler_PUT tz randomUUID faults fuel params eventData w <> None)
    /\ (forall fuel sid selectedDays ds us t0 t1,
           (forall i, faults i = false) ->
           param_given (seriesId params) = Some sid ->
           selectedDays_of (get_prop eventData "recurring_days") = Some selectedDays ->
           get_prop eventData "series_start_date" = JString ds ->
           get_prop eventData "recur_until" = JString us ->
           parseDateTime tz ds "00:00" = Valid t0 ->
           parseDateTime tz us "23:59" = Valid t1 ->
           t1 < t0 ->
           handler_PUT tz randomUUID faults (S fuel) params eventData w
             = Some (series_updated, series_result sid w [])).
Proof.
  intros tz randomUUID faults params eventData w. split.
  - intros fuel Hf. apply handler_PUT_total. exact Hf.
  - intros fuel sid selectedDays ds us t0 t1 Hnf Hp Hsel Hds Hus Ht0 Ht1 Hlt.
    apply (handler_PUT_series_run tz randomUUID faults Hnf (S fuel) params sid eventData
             selectedDays ds us (fun _ => []) w Hp Hsel Hds Hus).
    intros w2. rewrite Ht0, Ht1, expand_loop_empty by exact Hlt.
    rewrite after_inserts_nil. reflexivity.
Qed.

(** A series that ends on 2024-01-01 and starts on 2024-01-07: one test of
    the loop condition, answer 200, the two rows of the series deleted and
    nothing inserted. *)
Lemma C5_expansion_terminates_witness :
  handler_PUT 0 Examples.uuid_source Examples.no_faults 1
              (Examples.for_series "s1") Examples.until_before_start Examples.store
    = Some (series_updated, series_result "s1" Examples.store [])
  /\ map uid (events (series_result "s1" Examples.store [])) = [SText "b"].
Proof.
  split; [|reflexivity].
  apply (proj2 (C5_expansion_terminates 0 Examples.uuid_source Examples.no_faults
                  (Examples.for_series "s1") Examples.until_before_start Examples.store)
           0%nat "s1" all_days "2024-01-07" "2024-01-01" 1704585600000 1704153540000
           (fun _ => eq_refl) eq_refl eq_refl eq_refl eq_refl eq_refl eq_refl eq_refl).
Defined.

(** ** C7: replacing twice gives the same instances *)

(** C7.  When a series request has been answered 200, sending the same
    request again, whatever comes of it, leaves the series with the same
    [(dtstart, dtend)] pairs, in the same order; the identifiers of the rows
    are drawn afresh. *)
Theorem C7_replace_series_idempotent :
  forall tz randomUUID faults fuel1 fuel2 params sid eventData w r1 w1 r2 w2,
    snapshot w = None ->
    param_given (seriesId params) = Some sid ->
    handler_PUT tz randomUUID faults fuel1 params eventData w = Some (r1, w1) ->
    statusCode r1 = 200 ->
    handler_PUT tz randomUUID faults fuel2 params eventData w1 = Some (r2, w2) ->
    series_pairs sid (events w2) = series_pairs sid (events w1).
Proof.
  intros tz randomUUID faults fuel1 fuel2 params sid eventData w r1 w1 r2 w2.
  apply replaceSeries_idempotent.
Qed.

(** The example request sent twice: both answers are 200, the series has the
    same three pairs after each, and the rows carry other identifiers. *)
Lemma C7_replace_series_idempotent_witness :
  exists r1 w1 r2 w2,
    handler_PUT 0 Examples.uuid_source Examples.no_faults 8
                (Examples.for_series "s1") Examples.mon_wed_fri Examples.store
      = Some (r1, w1)
    /\ handler_PUT 0 Examples.uuid_source Examples.no_faults 8
                   (Examples.for_series "s1") Examples.mon_wed_fri w1
         = Some (r2, w2)
    /\ series_pairs "s1" (events w2) = series_pairs "s1" (events w1)
    /\ map uid (events w2) <> map uid (events w1).
Proof.
  eexists _, _, _, _.
  split; [vm_compute; reflexivity|]. split; [vm_compute; reflexivity|]. split.
  - eapply (C7_replace_series_idempotent 0 Examples.uuid_source Examples.no_faults 8 8
              (Examples.for_series "s1") "s1" Examples.mon_wed_fri Examples.store).
    + reflexivity.
    + reflexivity.
    + vm_compute. reflexivity.
    + reflexivity.
    + vm_compute. reflexivity.
  - vm_compute. discriminate.
Defined.

(** ** C9: the single-row update touches the matching row only *)

(** C9.  A PUT with a [uid] and no [seriesId] keeps the number and the order
    of the rows and the [uid] of each, leaves every row whose [uid] differs
    from the parameter as it was, siblings of the same series included, and
    changes nothing else of the session (no transaction is opened or closed,
    no identifier drawn); when the [uid]s of the table are distinct, at most
    one row changes. *)
Theorem C9_update_single_frame :
  forall tz randomUUID faults fuel params target eventData w r w',
    param_given (seriesId params) = None ->
    param_given (uid_param params) = Some target ->
    handler_PUT tz randomUUID faults fuel params eventData w = Some (r, w') ->
    snapshot w' = snapshot w /\ uuids w' = uuids w /\
    List.length (events w') = List.length (events w) /\
    (forall i row, nth_error (events w) i = Some row ->
       exists row', nth_error (events w') i = Some row' /\ uid row' = uid row /\
                    (sql_eq_text (uid row) target = false -> row' = row)) /\
    (NoDup (map uid (events w)) ->
     forall i j ri rj ri' rj',
       nth_error (events w) i = Some ri -> nth_error (events w') i = Some ri' ->
       nth_error (events w) j = Some rj -> nth_error (events w') j = Some rj' ->
       ri' <> ri -> rj' <> rj -> i = j).
Proof.
  intros tz randomUUID faults fuel params target eventData w r w' Hs Hu H.
  destruct (handler_PUT_uid_cases _ _ _ _ _ _ _ _ _ _ Hs Hu H) as (Hsn & Huu & Hev).
  assert (Hrow : forall i row, nth_error (events w) i = Some row ->
            exists row', nth_error (events w') i = Some row' /\ uid row' = uid row /\
                         (sql_eq_text (uid row) target = false -> row' = row)).
  { intros i row Hi. destruct Hev as [(_ & ->)|(_ & ->)].
    - exists (uid_update target eventData row). rewrite nth_error_map, Hi.
      split; [reflexivity|]. split; [apply uid_update_uid|apply uid_update_other].
    - exists row. auto. }
  split; [exact Hsn|]. split; [exact Huu|]. split; [|split; [exact Hrow|]].
  - destruct Hev as [(_ & ->)|(_ & ->)]; [apply length_map|reflexivity].
  - intros Hnd i j ri rj ri' rj' Hi Hi' Hj Hj' Hci Hcj.
    assert (Hmatch : forall k rk rk', nth_error (events w) k = Some rk ->
              nth_error (events w') k = Some rk' -> rk' <> rk -> uid rk = SText target).
    { intros k rk rk' Hk Hk' Hc. destruct (Hrow k rk Hk) as (x & Hx & _ & Hsame).
      rewrite Hk' in Hx. injection Hx as <-.
      destruct (sql_eq_text (uid rk) target) eqn:E; [apply sql_eq_text_true, E|].
      exfalso. apply Hc, Hsame. reflexivity. }
    pose proof (Hmatch i ri ri' Hi Hi' Hci) as Ui.
    pose proof (Hmatch j rj rj' Hj Hj' Hcj) as Uj.
    apply (proj1 (NoDup_nth_error (map uid (events w))) Hnd).
    + rewrite length_map. apply nth_error_Some. congruence.
    + rewrite !nth_error_map, Hi, Hj. cbn. congruence.
Qed.

(** Updating row [b] of the example store: rows [a] and [c] of series [s1]
    are untouched. *)
Lemma C9_update_single_frame_witness :
  exists w',
    handler_PUT 0 Examples.uuid_source Examples.no_faults 0
                (Examples.for_uid "b") Examples.sparse_update Examples.store
      = Some (event_updated, w')
    /\ nth_error (events w') 0 = nth_error (events Examples.store) 0
    /\ nth_error (events w') 2 = nth_error (events Examples.store) 2
    /\ snapshot w' = None.
Proof.
  let r := eval vm_compute in
             (handler_PUT 0 Examples.uuid_source Examples.no_faults 0
                          (Examples.for_uid "b") Examples.sparse_update Examples.store) in
  match r with Some (_, ?w1) => exists w1 end.
  assert (H : handler_PUT 0 Examples.uuid_source Examples.no_faults 0
                (Examples.for_uid "b") Examples.sparse_update Examples.store
              = Some (event_updated, _)) by (vm_compute; reflexivity).
  split; [exact H|].
  destruct (C9_update_single_frame 0 Examples.uuid_source Examples.no_faults 0
              (Examples.for_uid "b") "b" Examples.sparse_update Examples.store
              event_updated _ eq_refl eq_refl H)
    as (Hsn & _ & _ & Hrow & _).
  split; [|split; [|exact Hsn]].
  - destruct (Hrow 0%nat _ eq_refl) as (row' & Hn & _ & Hsame).
    rewrite Hn, (Hsame eq_refl). reflexivity.
  - destruct (Hrow 2%nat _ eq_refl) as (row' & Hn & _ & Hsame).
    rewrite Hn, (Hsame eq_refl). reflexivity.
Defined.

(** ** C10: the single-row update overwrites every column *)



(** ** C6: dates and times that do not parse *)




(** ** C8: the autocomplete query *)





(** * Further properties of the handlers *)

(** ** The date helpers *)

Section DateHelpers.

Variable tz : Z.

Lemma parseDateTime_fields ds ts :
  parseDateTime tz ds ts =
    let '(year, month, day) := date_fields ds in
    let '(hours, minutes) := clock_fields ts in
    if isNaN year || isNaN month || isNaN day then Invalid
    else Date_of_fields tz year (num_add month (Int (-1))) day hours minutes.
Proof. reflexivity. Qed.

Lemma date_fields_date_string y m d :
  0 <= y -> 0 <= m -> 0 <= d ->
  date_fields (date_string y m d) = (Int y, Int m, Int d).
Proof.
  intros Hy Hm Hd. unfold date_fields, date_string.
  set (sy := toString (Int y)).
  set (sm := padStart2 (toString (Int m))).
  set (sd := padStart2 (toString (Int d))).
  assert (Dy : all_chars is_digit sy = true) by (apply toString_digits; lia).
  assert (Dm : all_chars is_digit sm = true) by (apply padStart2_digits; lia).
  assert (Dd : all_chars is_digit sd = true) by (apply padStart2_digits; lia).
  change (sy ++ "-" ++ sm ++ "-" ++ sd)%string
    with (sy ++ String "-" (sm ++ String "-" sd))%string.
  assert (HT : split "T" (sy ++ String "-" (sm ++ String "-" sd))
               = [(sy ++ String "-" (sm ++ String "-" sd))%string]).
  { apply split_lacks.
    rewrite all_chars_app. cbn [all_chars]. rewrite all_chars_app. cbn [all_chars].
    rewrite !digits_lack by (auto; reflexivity). reflexivity. }
  rewrite HT. cbn [hd].
  rewrite split_app by (apply digits_lack; auto; reflexivity).
  rewrite split_app by (apply digits_lack; auto; reflexivity).
  rewrite split_lacks by (apply digits_lack; auto; reflexivity).
  unfold nth_num. cbn [nth_error]. unfold sy, sm, sd.
  rewrite Number_toString, !Number_padStart2 by lia. reflexivity.
Qed.

(** X1.  Formatting a valid date of a year from 100 on and parsing the text
    back gives the local midnight that starts the same calendar day: the
    time value less the time elapsed since local midnight. *)
Theorem X1_format_then_parse :
  forall t,
    100 <= YearFromTime (LocalTime tz t) ->
    parseDateTime tz (formatDateToYYYYMMDD tz (Valid t)) "00:00"
      = clip (t - TimeWithinDay (LocalTime tz t)).
Proof.
  intros t Hy. rewrite parse_format by exact Hy.
  change (nth_num 0 (split ":" "00:00")) with (Int 0).
  change (nth_num 1 (split ":" "00:00")) with (Int 0).
  rewrite Date_of_fields_day by exact Hy. f_equal.
  unfold UTC, LocalTime, MakeDate, MakeTime, Day, TimeWithinDay, msPerDay. zdiv.
Qed.

(** X2.  Parsing a date whose fields are a real calendar date (month 1 to
    12, day within the month) with a time of day in range, and formatting the
    result, gives the canonical text of that date, zero-padded, in the year
    the [Date] constructor takes: a year field from 0 to 99 is read as 1900
    plus the field. *)
Theorem X2_parse_then_format :
  forall ds ts y m d h mi t,
    date_fields ds = (Int y, Int m, Int d) ->
    clock_fields ts = (Int h, Int mi) ->
    0 <= y ->
    1 <= m <= 12 ->
    1 <= d <= DaysInMonth (full_year y) (m - 1) ->
    0 <= h <= 23 -> 0 <= mi <= 59 ->
    parseDateTime tz ds ts = Valid t ->
    formatDateToYYYYMMDD tz (Valid t) = date_string (full_year y) m d
    /\ YearFromTime (LocalTime tz t) = full_year y.
Proof.
  intros ds ts y m d h mi t Hdf Hcf Hy Hm Hd Hh Hmi Hp.
  rewrite parseDateTime_fields, Hdf, Hcf in Hp. cbn [isNaN orb num_add] in Hp.
  unfold Date_of_fields in Hp. fold (full_year y) in Hp.
  apply clip_Valid in Hp as [Hp _].
  assert (Hl : LocalTime tz t = MakeDate (MakeDay (full_year y) (m - 1) d) (MakeTime h mi 0 0)).
  { rewrite <- Hp. unfold LocalTime, UTC. replace (m + -1) with (m - 1) by lia. lia. }
  assert (Hday : Day (LocalTime tz t) = MakeDay (full_year y) (m - 1) d).
  { rewrite Hl. apply Day_MakeDate.
    unfold MakeTime, msPerHour, msPerMinute, msPerDay. lia. }
  destruct (civil_of_MakeDay (full_year y) (m - 1) d ltac:(lia) Hd) as (Cy & Cm & Cd).
  split.
  - rewrite format_parts. unfold YearFromTime, MonthFromTime, DateFromTime.
    rewrite Hday, Cy, Cm, Cd. replace (m - 1 + 1) with m by lia. reflexivity.
  - unfold YearFromTime. rewrite Hday. exact Cy.
Qed.

(** X3.  Whatever follows the first [T] of the date string is ignored: a
    full ISO timestamp parses as its date part does. *)
Theorem X3_parse_ignores_time_part :
  forall ds rest ts,
    all_chars (fun c => negb (Ascii.eqb c "T")) ds = true ->
    parseDateTime tz (ds ++ String "T" rest) ts = parseDateTime tz ds ts.
Proof.
  intros ds rest ts Hds.
  rewrite !parseDateTime_fields. unfold date_fields.
  rewrite (split_app "T" ds rest Hds), (split_lacks "T" ds Hds). reflexivity.
Qed.

Lemma parseDateTime_inversion ds ts t :
  parseDateTime tz ds ts = Valid t ->
  exists y m d h mi,
    date_fields ds = (Int y, Int m, Int d) /\
    clock_fields ts = (Int h, Int mi) /\
    LocalTime tz t = MakeDate (MakeDay (full_year y) (m - 1) d) (MakeTime h mi 0 0) /\
    Z.abs t <= maxTime.
Proof.
  rewrite parseDateTime_fields.
  destruct (date_fields ds) as [[year month] day].
  destruct (clock_fields ts) as [hours minutes].
  destruct year as [|y]; [discriminate|]. destruct month as [|m]; [discriminate|].
  destruct day as [|d]; [discriminate|]. cbn [isNaN orb num_add Date_of_fields].
  destruct hours as [|h]; [discriminate|]. destruct minutes as [|mi]; [discriminate|].
  fold (full_year y). intros Hp. apply clip_Valid in Hp as [Hp Hb].
  exists y, m, d, h, mi. repeat split; auto.
  rewrite <- Hp. unfold LocalTime, UTC. replace (m + -1) with (m - 1) by lia. lia.
Qed.


(** X5.  A day field beyond the end of the month is not refused but rolls
    over: two date strings that differ only by [k] in the day field, parsed
    with the same time, give time values [k] days apart. *)
Theorem X5_parse_day_rolls_over :
  forall ds ds' ts y m d k t t',
    date_fields ds = (Int y, Int m, Int d) ->
    date_fields ds' = (Int y, Int m, Int (d + k)) ->
    parseDateTime tz ds ts = Valid t ->
    parseDateTime tz ds' ts = Valid t' ->
    t' = t + k * msPerDay.
Proof.
  intros ds ds' ts y m d k t t' Hdf Hdf' Hp Hp'.
  apply parseDateTime_inversion in Hp as (y1 & m1 & d1 & h1 & mi1 & E1 & C1 & L1 & _).
  apply parseDateTime_inversion in Hp' as (y2 & m2 & d2 & h2 & mi2 & E2 & C2 & L2 & _).
  rewrite Hdf in E1. rewrite Hdf' in E2. rewrite C1 in C2.
  injection E1 as <- <- <-. injection E2 as <- <- <-. injection C2 as <- <-.
  unfold LocalTime, MakeDate, MakeDay in *. lia.
Qed.

End DateHelpers.

(** 09:00 UTC on 2024-01-01 formats to a text that parses to the midnight
    before. *)
Lemma X1_format_then_parse_witness :
  parseDateTime 0 (formatDateToYYYYMMDD 0 (Valid 1704099600000)) "00:00"
    = Valid 1704067200000.
Proof.
  rewrite (X1_format_then_parse 0 1704099600000 ltac:(vm_compute; discriminate)).
  vm_compute. reflexivity.
Defined.

(** The text "99-12-31" with the time "09:30" parses to a moment of year
    1999 and formats to "1999-12-31". *)
Lemma X2_parse_then_format_witness :
  parseDateTime 0 "99-12-31" "09:30" = Valid 946632600000
  /\ formatDateToYYYYMMDD 0 (Valid 946632600000) = "1999-12-31"
  /\ YearFromTime (LocalTime 0 946632600000) = 1999.
Proof.
  split; [vm_compute; reflexivity|].
  exact (X2_parse_then_format 0 "99-12-31" "09:30" 99 12 31 9 30 946632600000
           eq_refl eq_refl ltac:(lia) ltac:(lia) ltac:(vm_compute; split; discriminate)
           ltac:(lia) ltac:(lia) ltac:(vm_compute; reflexivity)).
Defined.

Lemma X3_parse_ignores_time_part_witness :
  parseDateTime 0 "2024-01-05T10:00:00Z" "09:00" = parseDateTime 0 "2024-01-05" "09:00".
Proof. exact (X3_parse_ignores_time_part 0 "2024-01-05" "10:00:00Z" "09:00" eq_refl). Defined.


(** January the 32nd is February the 1st. *)
Lemma X5_parse_day_rolls_over_witness :
  parseDateTime 0 "2024-01-32" "00:00" = parseDateTime 0 "2024-02-01" "00:00"
  /\ 1706745600000 = 1706659200000 + 1 * msPerDay.
Proof.
  split; [vm_compute; reflexivity|].
  exact (X5_parse_day_rolls_over 0 "2024-01-31" "2024-01-32" "00:00" 2024 1 31 1
           1706659200000 1706745600000 eq_refl eq_refl
           ltac:(vm_compute; reflexivity) ltac:(vm_compute; reflexivity)).
Defined.

(** ** POST: the batch insert *)

Section EventsFacts.

Variable tz : Z.
Variable randomUUID : nat -> string.
Variable faults : nat -> bool.
Variable dtstart_leb : SqlValue -> SqlValue -> bool.

Lemma post_insert_all evs :
  forall w,
    post (insert_all faults evs) w
         (fun _ w' => snapshot w' = snapshot w /\ uuids w' = uuids w /\
                      events w' = events w ++ map post_row evs /\
                      Forall (fun ev => nullish ev = false) evs)
         (fun _ w' => snapshot w' = snapshot w).
Proof.
  induction evs as [|ev evs IH]; intros w.
  - apply post_ret. rewrite List.app_nil_r. auto.
  - cbn [insert_all]. apply post_bind.
    destruct (nullish ev) eqn:En; [apply post_throw; reflexivity|].
    apply post_query; [reflexivity|].
    eapply post_weaken; [apply IH| |].
    + cbv beta. cbn. intros _ w' (Hs & Hu & He & Hall).
      repeat split; auto. rewrite He, <- List.app_assoc. reflexivity.
    + cbv beta. cbn. auto.
Qed.

Lemma post_post_transaction body w :
  post (post_transaction faults body) w
       (fun r w' => r = events_added /\ snapshot w' = None /\ uuids w' = uuids w /\
                    exists evs, iterate body = Some evs /\
                                Forall (fun ev => nullish ev = false) evs /\
                                events w' = events w ++ map post_row evs)
       (fun _ w' => (snapshot w' = snapshot w /\ events w' = events w) \/
                    snapshot w' = Some (events w)).
Proof.
  unfold post_transaction.
  apply post_bind. apply post_query; cbn; [auto|].
  destruct (iterate body) as [evs|]; [|apply post_throw; auto].
  apply post_bind.
  eapply post_weaken; [apply post_insert_all| |cbv beta; cbn; auto].
  cbv beta. cbn. intros _ w1 (Hs & Hu & He & Hall).
  apply post_bind. apply post_query; [right; cbn; congruence|].
  apply post_ret. cbn. repeat split; auto. exists evs. auto.
Qed.

Lemma post_post_events body w :
  snapshot w = None ->
  post (post_events faults body) w
       (fun r w' => r = events_added /\ snapshot w' = None /\ uuids w' = uuids w /\
                    exists evs, iterate body = Some evs /\
                                Forall (fun ev => nullish ev = false) evs /\
                                events w' = events w ++ map post_row evs)
       (fun _ w' => snapshot w' = None /\ events w' = events w).
Proof.
  intros Hs. pose proof (post_post_transaction body w) as H.
  unfold post, post_events, try_catch in *.
  destruct (post_transaction faults body w) as [r w'|e w'|]; [exact H| |exact I].
  cbn. split; [reflexivity|].
  destruct H as [[H He]|H]; rewrite H; [rewrite Hs; exact He|reflexivity].
Qed.

Lemma halts_insert_all evs : forall w, halts (insert_all faults evs) w.
Proof.
  induction evs as [|ev evs IH]; intros w; [discriminate|].
  cbn [insert_all]. apply halts_bind; [|intros; apply IH].
  destruct (nullish ev); [discriminate|apply halts_query].
Qed.

Lemma halts_post_events body w : halts (post_events faults body) w.
Proof.
  assert (H : halts (post_transaction faults body) w).
  { unfold post_transaction. apply halts_bind; [apply halts_query|]. intros _ w1 _.
    destruct (iterate body); [|discriminate].
    apply halts_bind; [apply halts_insert_all|]. intros _ w2 _.
    apply halts_bind; [apply halts_query|]. discriminate. }
  unfold halts, post_events, try_catch in *.
  destruct (post_transaction faults body w); try discriminate. congruence.
Qed.

(** X6.  A POST that starts outside a transaction ends outside one, in one
    of two ways: it answers 201 and the table is the old rows followed by one
    row per element of the batch, in order, no element being [null]; or it
    answers 500 and the table is what it was.  No fuel is needed. *)
Theorem X6_post_batch_atomic :
  forall fuel params body w,
    snapshot w = None ->
    exists reply w',
      handler tz randomUUID faults dtstart_leb fuel (mkRequest "POST" params body) w
        = Some (reply, w')
      /\ snapshot w' = None
      /\ ((reply = reply_of events_added /\
           exists batch evs,
             body = Some batch /\ iterate batch = Some evs /\
             Forall (fun ev => nullish ev = false) evs /\
             events w' = events w ++ map post_row evs) \/
          (reply = reply_of internal_server_error /\ events w' = events w)).
Proof.
  intros fuel params body w Hs. unfold handler. cbn [httpMethod event_body String.eqb].
  change (String.eqb "POST" "GET") with false. change (String.eqb "POST" "POST") with true.
  cbn match.
  destruct body as [evs_json|]; [|exists (reply_of internal_server_error), w; auto].
  pose proof (post_post_events evs_json w Hs) as H. unfold post in H. unfold at_boundary.
  destruct (post_events faults evs_json w) as [r w'|e w'|] eqn:Ep.
  - destruct H as (-> & Hs' & _ & evs & Hi & Hall & He).
    exists (reply_of events_added), w'. split; [reflexivity|]. split; [exact Hs'|].
    left. split; [reflexivity|]. exists evs_json, evs. auto.
  - destruct H as (Hs' & He). exists (reply_of internal_server_error), w'. auto.
  - exfalso. exact (halts_post_events evs_json w Ep).
Qed.

Lemma insert_all_run evs :
  (forall i, faults i = false) ->
  Forall (fun ev => nullish ev = false) evs ->
  forall w,
    insert_all faults evs w
      = Return tt (mkWorld (events w ++ map post_row evs) (snapshot w)
                           (queries w + List.length evs) (uuids w)).
Proof.
  intros Hnf. induction 1 as [|ev evs Hev _ IH]; intros w.
  - cbn. rewrite List.app_nil_r, Nat.add_0_r. destruct w; reflexivity.
  - cbn [insert_all]. rewrite Hev. unfold bind, query_INSERT.
    rewrite query_ok by exact Hnf. rewrite IH. unfold on_events. cbn.
    rewrite <- List.app_assoc. cbn. do 2 f_equal. lia.
Qed.

(** The store after a POST that inserted the rows of [evs]. *)
Lemma handler_POST_run fuel params batch evs w :
  (forall i, faults i = false) ->
  iterate batch = Some evs ->
  Forall (fun ev => nullish ev = false) evs ->
  handler tz randomUUID faults dtstart_leb fuel (mkRequest "POST" params (Some batch)) w
    = Some (reply_of events_added,
            mkWorld (events w ++ map post_row evs) None
                    (S (S (queries w) + List.length evs)) (uuids w)).
Proof.
  intros Hnf Hi Hall. unfold handler. cbn [httpMethod event_body].
  change (String.eqb "POST" "GET") with false. change (String.eqb "POST" "POST") with true.
  cbn match. unfold at_boundary, post_events, try_catch, post_transaction, bind,
    query_BEGIN, query_COMMIT.
  rewrite query_ok by exact Hnf. rewrite Hi, (insert_all_run evs Hnf Hall).
  rewrite query_ok by exact Hnf. reflexivity.
Qed.

(** X7.  Absent store faults a POST is answered 201 exactly when the body
    parses to an array (or a string) none of whose elements is [null]; no
    field of an event is required or checked. *)
Theorem X7_post_accepts :
  forall fuel params body w,
    (forall i, faults i = false) ->
    snapshot w = None ->
    (exists w', handler tz randomUUID faults dtstart_leb fuel
                        (mkRequest "POST" params body) w
                = Some (reply_of events_added, w'))
    <-> (exists batch evs,
           body = Some batch /\ iterate batch = Some evs /\
           Forall (fun ev => nullish ev = false) evs).
Proof.
  intros fuel params body w Hnf Hs. split.
  - intros (w' & H). unfold handler in H. cbn [httpMethod event_body] in H.
    change (String.eqb "POST" "GET") with false in H.
    change (String.eqb "POST" "POST") with true in H. cbn match in H.
    destruct body as [batch|]; [|discriminate H].
    pose proof (post_post_events batch w Hs) as P. unfold post in P.
    unfold at_boundary in H.
    destruct (post_events faults batch w) as [r w1|e w1|]; [| discriminate H | discriminate H].
    destruct P as (_ & _ & _ & evs & Hi & Hall & _). exists batch, evs. auto.
  - intros (batch & evs & -> & Hi & Hall). eexists.
    apply (handler_POST_run fuel params batch evs w Hnf Hi Hall).
Qed.

(** ** DELETE *)

Lemma handler_DELETE_uid fuel params target body w :
  param_given (uid_param params) = Some target ->
  handler tz randomUUID faults dtstart_leb fuel (mkRequest "DELETE" params body) w
    = Some (if faults (queries w)
            then (reply_of internal_server_error,
                  mkWorld (events w) (snapshot w) (S (queries w)) (uuids w))
            else (reply_of (mkResponse 200 (Message ("Event " ++ target ++ " deleted."))),
                  mkWorld (filter (other_uid target) (events w)) (snapshot w)
                          (S (queries w)) (uuids w))).
Proof.
  intros Hu. unfold handler. cbn [httpMethod queryStringParameters].
  change (String.eqb "DELETE" "GET") with false.
  change (String.eqb "DELETE" "POST") with false.
  change (String.eqb "DELETE" "PUT") with false.
  change (String.eqb "DELETE" "DELETE") with true. cbn match.
  unfold at_boundary, delete_events. rewrite Hu.
  unfold bind, query_DELETE_uid, query. destruct (faults (queries w)); reflexivity.
Qed.

Lemma handler_DELETE_series fuel params sid body w :
  param_given (uid_param params) = None ->
  param_given (seriesId params) = Some sid ->
  handler tz randomUUID faults dtstart_leb fuel (mkRequest "DELETE" params body) w
    = Some (if faults (queries w)
            then (reply_of internal_server_error,
                  mkWorld (events w) (snapshot w) (S (queries w)) (uuids w))
            else (reply_of (mkResponse 200 (Message ("Event series " ++ sid ++ " deleted."))),
                  mkWorld (filter (other_series sid) (events w)) (snapshot w)
                          (S (queries w)) (uuids w))).
Proof.
  intros Hu Hs. unfold handler. cbn [httpMethod queryStringParameters].
  change (String.eqb "DELETE" "GET") with false.
  change (String.eqb "DELETE" "POST") with false.
  change (String.eqb "DELETE" "PUT") with false.
  change (String.eqb "DELETE" "DELETE") with true. cbn match.
  unfold at_boundary, delete_events. rewrite Hu, Hs.
  unfold bind, query_DELETE_series, query. destruct (faults (queries w)); reflexivity.
Qed.

Lemma filter_idem {A} (f : A -> bool) l : filter f (filter f l) = filter f l.
Proof.
  induction l as [|a l IH]; [reflexivity|].
  cbn. destruct (f a) eqn:E; cbn; [rewrite E, IH|]; auto.
Qed.

(** X8.  A DELETE with a [uid] removes the rows with that [uid] and no
    other, whether or not a [seriesId] is given as well: on 200 the table is
    the rows of other [uid], in their order; on 500 it is unchanged; and when
    no row has that [uid] the table is unchanged in either case, the answer
    still being 200 unless the store refuses the statement. *)
Theorem X8_delete_by_uid :
  forall fuel params target body w reply w',
    param_given (uid_param params) = Some target ->
    handler tz randomUUID faults dtstart_leb fuel (mkRequest "DELETE" params body) w
      = Some (reply, w') ->
    snapshot w' = snapshot w /\ uuids w' = uuids w /\
    ((status reply = 200 /\ faults (queries w) = false /\
      events w' = filter (other_uid target) (events w)) \/
     (status reply = 500 /\ faults (queries w) = true /\ events w' = events w)) /\
    (Forall (fun r => uid r <> SText target) (events w) -> events w' = events w).
Proof.
  intros fuel params target body w reply w' Hu H.
  rewrite (handler_DELETE_uid fuel params target body w Hu) in H.
  destruct (faults (queries w)); injection H as <- <-; cbn.
  - repeat split; auto.
  - repeat split; auto. intros Hall. apply filter_all_true.
    intros r Hr. rewrite Forall_forall in Hall. specialize (Hall r Hr).
    unfold other_uid. destruct (sql_eq_text (uid r) target) eqn:E; [|reflexivity].
    apply sql_eq_text_true in E. contradiction.
Qed.

(** X9.  A DELETE with a [seriesId] and no [uid], when answered 200, leaves
    the rows of the other series and the standalone rows, in their order,
    and no row of the series: the very table a series PUT leaves when it
    inserts nothing. *)
Theorem X9_delete_series :
  forall fuel params sid body w reply w',
    param_given (uid_param params) = None ->
    param_given (seriesId params) = Some sid ->
    handler tz randomUUID faults dtstart_leb fuel (mkRequest "DELETE" params body) w
      = Some (reply, w') ->
    status reply = 200 ->
    events w' = filter (other_series sid) (events w)
    /\ events w' = events (series_result sid w [])
    /\ series_pairs sid (events w') = []
    /\ snapshot w' = snapshot w.
Proof.
  intros fuel params sid body w reply w' Hu Hs H Hok.
  rewrite (handler_DELETE_series fuel params sid body w Hu Hs) in H.
  destruct (faults (queries w)); injection H as <- <-; [discriminate Hok|]. cbn.
  split; [reflexivity|]. split; [rewrite List.app_nil_r; reflexivity|].
  split; [|reflexivity]. unfold series_pairs. rewrite filter_in_other. reflexivity.
Qed.

(** X10.  Deleting is idempotent: after a DELETE answered 200, the same
    DELETE sent again, whatever its answer, finds nothing more to remove. *)
Theorem X10_delete_idempotent :
  forall fuel1 fuel2 params body w r1 w1 r2 w2,
    handler tz randomUUID faults dtstart_leb fuel1 (mkRequest "DELETE" params body) w
      = Some (r1, w1) ->
    status r1 = 200 ->
    handler tz randomUUID faults dtstart_leb fuel2 (mkRequest "DELETE" params body) w1
      = Some (r2, w2) ->
    events w2 = events w1.
Proof.
  intros fuel1 fuel2 params body w r1 w1 r2 w2 H1 Hok H2.
  destruct (param_given (uid_param params)) as [target|] eqn:Hu.
  - rewrite (handler_DELETE_uid _ _ target _ _ Hu) in H1.
    rewrite (handler_DELETE_uid _ _ target _ _ Hu) in H2.
    destruct (faults (queries w)); injection H1 as <- <-; [discriminate Hok|].
    destruct (faults _); injection H2 as _ <-; cbn; [reflexivity|apply filter_idem].
  - destruct (param_given (seriesId params)) as [sid|] eqn:Hs.
    + rewrite (handler_DELETE_series _ _ sid _ _ Hu Hs) in H1.
      rewrite (handler_DELETE_series _ _ sid _ _ Hu Hs) in H2.
      destruct (faults (queries w)); injection H1 as <- <-; [discriminate Hok|].
      destruct (faults _); injection H2 as _ <-; cbn; [reflexivity|apply filter_idem].
    + unfold handler in H1. cbn [httpMethod queryStringParameters] in H1.
      change (String.eqb "DELETE" "GET") with false in H1.
      change (String.eqb "DELETE" "POST") with false in H1.
      change (String.eqb "DELETE" "PUT") with false in H1.
      change (String.eqb "DELETE" "DELETE") with true in H1. cbn match in H1.
      unfold at_boundary, delete_events in H1. rewrite Hu, Hs in H1.
      cbn in H1. injection H1 as <- _. discriminate Hok.
Qed.

End EventsFacts.

(** ** How the requests compose, and the dispatch *)

Section Dispatch.

Variable tz : Z.
Variable randomUUID : nat -> string.
Variable faults : nat -> bool.
Variable dtstart_leb : SqlValue -> SqlValue -> bool.

Lemma filter_other_uid_posted target evs :
  Forall (fun ev => get_prop ev "uid" = JString target) evs ->
  filter (other_uid target) (map post_row evs) = [].
Proof.
  induction 1 as [|ev evs Hev _ IH]; [reflexivity|].
  cbn [map filter]. unfold other_uid at 1. cbn [post_row uid]. rewrite Hev. cbn.
  rewrite String.eqb_refl. exact IH.
Qed.

(** X11.  Absent store faults, posting a batch of events that all carry the
    [uid] [target], into a table where no row has it, and then deleting by
    that [uid], gives back the table as it was: 201, then 200. *)
Theorem X11_post_then_delete :
  forall fuel1 fuel2 params1 params2 body2 batch evs target w r1 w1 r2 w2,
    (forall i, faults i = false) ->
    iterate batch = Some evs ->
    Forall (fun ev => get_prop ev "uid" = JString target) evs ->
    Forall (fun r => uid r <> SText target) (events w) ->
    param_given (uid_param params2) = Some target ->
    handler tz randomUUID faults dtstart_leb fuel1 (mkRequest "POST" params1 (Some batch)) w
      = Some (r1, w1) ->
    handler tz randomUUID faults dtstart_leb fuel2 (mkRequest "DELETE" params2 body2) w1
      = Some (r2, w2) ->
    status r1 = 201 /\ status r2 = 200 /\ events w2 = events w.
Proof.
  intros fuel1 fuel2 params1 params2 body2 batch evs target w r1 w1 r2 w2
         Hnf Hi Huid Hfresh Hp H1 H2.
  assert (Hall : Forall (fun ev => nullish ev = false) evs).
  { eapply Forall_impl; [|exact Huid]. intros ev Hev.
    destruct ev; try reflexivity; cbn in Hev; discriminate Hev. }
  rewrite (handler_POST_run tz randomUUID faults dtstart_leb fuel1 params1 batch evs w
             Hnf Hi Hall) in H1.
  injection H1 as <- <-.
  rewrite (handler_DELETE_uid tz randomUUID faults dtstart_leb fuel2 params2 target body2 _ Hp)
    in H2.
  rewrite Hnf in H2. injection H2 as <- <-. cbn.
  split; [reflexivity|]. split; [reflexivity|].
  rewrite filter_app, (filter_other_uid_posted target evs Huid), List.app_nil_r.
  apply filter_all_true. intros r Hr. rewrite Forall_forall in Hfresh.
  specialize (Hfresh r Hr). unfold other_uid.
  destruct (sql_eq_text (uid r) target) eqn:E; [|reflexivity].
  apply sql_eq_text_true in E. contradiction.
Qed.



End Dispatch.

(** ** GET: the listing *)

Section Listing.

Variable tz : Z.
Variable randomUUID : nat -> string.
Variable faults : nat -> bool.
Variable dtstart_leb : SqlValue -> SqlValue -> bool.
Hypothesis dtstart_total : forall a b, dtstart_leb a b = true \/ dtstart_leb b a = true.

Lemma insert_by_dtstart_perm r l :
  Permutation (insert_by_dtstart dtstart_leb r l) (r :: l).
Proof.
  induction l as [|x l IH]; cbn [insert_by_dtstart]; [apply Permutation_refl|].
  destruct (dtstart_leb (dtstart r) (dtstart x)); [apply Permutation_refl|].
  eapply Permutation_trans; [apply perm_skip, IH|apply perm_swap].
Qed.

Lemma select_all_perm rows : Permutation (select_all dtstart_leb rows) rows.
Proof.
  induction rows as [|r rows IH]; [apply perm_nil|].
  cbn [select_all fold_right]. fold (select_all dtstart_leb rows).
  eapply Permutation_trans; [apply insert_by_dtstart_perm|apply perm_skip, IH].
Qed.

Lemma insert_by_dtstart_sorted r l :
  Sorted (dtstart_le dtstart_leb) l ->
  Sorted (dtstart_le dtstart_leb) (insert_by_dtstart dtstart_leb r l).
Proof.
  induction 1 as [|x l Hl IH Hx]; cbn [insert_by_dtstart].
  - constructor; constructor.
  - destruct (dtstart_leb (dtstart r) (dtstart x)) eqn:E.
    + constructor; [constructor; assumption|]. constructor. exact E.
    + constructor; [exact IH|].
      assert (Hxr : dtstart_le dtstart_leb x r).
      { unfold dtstart_le. destruct (dtstart_total (dtstart r) (dtstart x)); congruence. }
      destruct l as [|y l]; cbn [insert_by_dtstart]; [constructor; exact Hxr|].
      destruct (dtstart_leb (dtstart r) (dtstart y)); constructor; [exact Hxr|].
      inversion Hx; assumption.
Qed.

Lemma select_all_sorted rows : Sorted (dtstart_le dtstart_leb) (select_all dtstart_leb rows).
Proof.
  induction rows as [|r rows IH]; [constructor|].
  cbn [select_all fold_right]. fold (select_all dtstart_leb rows).
  apply insert_by_dtstart_sorted, IH.
Qed.

(** X13.  With an order on [dtstart] that compares any two cells, a GET
    answered 200 carries every row of the table exactly once (a permutation
    of the table), each not after the next in that order; the table itself
    is left as it was. *)
Theorem X13_get_lists_all_sorted :
  forall fuel params body w reply w',
    handler tz randomUUID faults dtstart_leb fuel (mkRequest "GET" params body) w
      = Some (reply, w') ->
    status reply = 200 ->
    events w' = events w /\
    exists rows,
      payload reply = Rows rows /\
      Permutation rows (events w) /\
      Sorted (dtstart_le dtstart_leb) rows.
Proof.
  intros fuel params body w reply w' H Hok. unfold handler in H.
  cbn [httpMethod] in H. change (String.eqb "GET" "GET") with true in H. cbn match in H.
  unfold at_boundary, get_events in H.
  destruct (faults (queries w)); injection H as <- <-; [discriminate Hok|]. cbn.
  split; [reflexivity|]. exists (select_all dtstart_leb (events w)).
  split; [reflexivity|]. split; [apply select_all_perm|apply select_all_sorted].
Qed.

End Listing.

(** ** The rows a series request inserts *)

Section SeriesRows.

Variable tz : Z.
Variable randomUUID : nat -> string.
Variable faults : nat -> bool.
Variable sid : string.
Variable eventData : JSValue.

Lemma insert_instance_shape cur w w' :
  insert_instance tz randomUUID faults sid eventData cur w = Return tt w' ->
  exists s e,
    events w' = events w
                ++ [instance_row sid eventData (randomUUID (uuids w)) (ISOString s) (ISOString e)]
    /\ uuids w' = S (uuids w).
Proof.
  unfold insert_instance, bind, call_parseDateTime.
  destruct (get_prop eventData "time"); cbn [ret throw]; try discriminate.
  all: match goal with
       | |- context [parseDateTime tz ?f ?ts] =>
           destruct (parseDateTime tz f ts) as [|t];
             cbn [toISOString throw ret crypto_randomUUID getTime]; [discriminate|]
       end.
  all: destruct (Date_of_number _) as [|t']; cbn [toISOString throw ret]; [discriminate|].
  all: unfold query_INSERT, query, on_events; cbn.
  all: destruct (faults (queries w)); [discriminate|].
  all: intros [= <-]; cbn; exists t, t'; split; reflexivity.
Qed.

Lemma expand_loop_shape selectedDays untilDate fuel :
  forall cur w w',
    expand_loop tz randomUUID faults sid eventData selectedDays untilDate fuel cur w
      = Return tt w' ->
    exists pairs,
      events w' = events w ++ rows_of randomUUID sid eventData pairs (uuids w)
      /\ uuids w' = (uuids w + List.length pairs)%nat.
Proof.
  induction fuel as [|fuel IH]; intros cur w w'; [discriminate|].
  cbn [expand_loop].
  destruct (date_le cur untilDate).
  - unfold bind. destruct (includes selectedDays (getDay tz cur)).
    + destruct (insert_instance _ _ _ _ _ cur w) as [[] w1| |] eqn:E1; try discriminate.
      destruct (insert_instance_shape _ _ _ E1) as (s & e & He1 & Hu1).
      intros Hl. destruct (IH _ _ _ Hl) as (pairs & He & Hu).
      exists ((s, e) :: pairs). cbn [rows_of List.length].
      rewrite He, He1, Hu, Hu1, <- List.app_assoc. cbn. split; [reflexivity|lia].
    + cbn [ret]. apply IH.
  - intros [= <-]. exists []. cbn. rewrite List.app_nil_r, Nat.add_0_r. auto.
Qed.

Lemma series_transaction_shape fuel w r w' :
  series_transaction tz randomUUID faults fuel sid eventData w = Return r w' ->
  exists pairs,
    events w' = filter (other_series sid) (events w)
                ++ rows_of randomUUID sid eventData pairs (uuids w)
    /\ uuids w' = (uuids w + List.length pairs)%nat.
Proof.
  unfold series_transaction, bind, query_BEGIN, query_DELETE_series, query_COMMIT, query.
  destruct (faults (queries w)); [discriminate|]. cbn [queries events snapshot uuids].
  destruct (faults (S (queries w))); [discriminate|].
  destruct (nullish eventData); [discriminate|].
  destruct (selectedDays_of _) as [selectedDays|]; [|discriminate].
  unfold call_parseDateTime.
  destruct (get_prop eventData "series_start_date") as [| | | |ds| |]; try discriminate.
  cbn [ret].
  destruct (get_prop eventData "recur_until") as [| | | |us| |]; try discriminate.
  cbn [ret].
  match goal with
  | |- context [expand_loop _ _ _ _ _ _ _ _ _ ?w2] =>
      destruct (expand_loop tz randomUUID faults sid eventData selectedDays
                  (parseDateTime tz us "23:59") fuel (parseDateTime tz ds "00:00") w2)
        as [[] w3| |] eqn:El; try discriminate;
      destruct (expand_loop_shape _ _ _ _ _ _ El) as (pairs & He & Hu);
      destruct (faults (queries w3)); [discriminate|];
      intros [= _ <-]; exists pairs
  end.
  cbn in *. auto.
Qed.

Lemma in_rows_of pairs : forall u r,
  In r (rows_of randomUUID sid eventData pairs u) ->
  exists k s e, (u <= k < u + List.length pairs)%nat /\
                r = instance_row sid eventData (randomUUID k) (ISOString s) (ISOString e).
Proof.
  induction pairs as [|[s e] pairs IH]; intros u r; cbn [rows_of In List.length];
    [contradiction|].
  intros [<-|Hin].
  - exists u, s, e. split; [lia|reflexivity].
  - destruct (IH _ _ Hin) as (k & s' & e' & Hk & ->). exists k, s', e'. split; [lia|reflexivity].
Qed.

Lemma NoDup_uid_rows_of pairs :
  (forall i j, randomUUID i = randomUUID j -> i = j) ->
  forall u, NoDup (map uid (rows_of randomUUID sid eventData pairs u)).
Proof.
  intros Hinj. induction pairs as [|[s e] pairs IH]; intros u; cbn [rows_of map];
    [constructor|].
  constructor; [|apply IH].
  intros Hin. apply in_map_iff in Hin as (r & Hr & Hin).
  destruct (in_rows_of _ _ _ Hin) as (k & s' & e' & Hk & ->).
  cbn [instance_row uid] in Hr. injection Hr as Hr. apply Hinj in Hr. lia.
Qed.

End SeriesRows.

(** X14.  After a series request answered 200, whatever the table held
    before, all rows of the series agree on [summary], [type],
    [description], [is_recurring], [recurring_days], [series_id],
    [recur_until] and [series_start_date]. *)
Theorem X14_series_rows_agree :
  forall tz randomUUID faults fuel params sid eventData w r w' r1 r2,
    param_given (seriesId params) = Some sid ->
    handler_PUT tz randomUUID faults fuel params eventData w = Some (r, w') ->
    statusCode r = 200 ->
    In r1 (events w') -> in_series sid r1 = true ->
    In r2 (events w') -> in_series sid r2 = true ->
    shared_fields r1 = shared_fields r2.
Proof.
  intros tz randomUUID faults fuel params sid eventData w r w' r1 r2 Hp H Hok H1 S1 H2 S2.
  destruct (handler_PUT_series_cases _ _ _ _ _ _ _ _ _ _ Hp H) as [T|(-> & _)];
    [|discriminate Hok].
  destruct (series_transaction_shape _ _ _ _ _ _ _ _ _ T) as (pairs & He & _).
  assert (Hrow : forall x, In x (events w') -> in_series sid x = true ->
            shared_fields x
            = shared_fields (instance_row sid eventData EmptyString EmptyString EmptyString)).
  { intros x Hx Sx. rewrite He in Hx. apply in_app_or in Hx as [Hx|Hx].
    - apply filter_In in Hx as [_ Hx]. unfold other_series in Hx.
      unfold in_series in Sx. rewrite Sx in Hx. discriminate Hx.
    - destruct (in_rows_of _ _ _ _ _ _ Hx) as (k & s & e & _ & ->). reflexivity. }
  rewrite (Hrow r1 H1 S1), (Hrow r2 H2 S2). reflexivity.
Qed.

(** X15.  When [crypto.randomUUID] never repeats, the rows a series request
    answered 200 inserts have pairwise distinct [uid]s, each the text
    "manual-" followed by an identifier drawn during the request. *)
Theorem X15_series_uids_fresh :
  forall tz randomUUID faults fuel params sid eventData w r w',
    (forall i j, randomUUID i = randomUUID j -> i = j) ->
    param_given (seriesId params) = Some sid ->
    handler_PUT tz randomUUID faults fuel params eventData w = Some (r, w') ->
    statusCode r = 200 ->
    exists rows,
      events w' = filter (other_series sid) (events w) ++ rows
      /\ NoDup (map uid rows)
      /\ List.length rows = (uuids w' - uuids w)%nat
      /\ Forall (fun row => exists k, (uuids w <= k < uuids w')%nat /\
                                      uid row = SText ("manual-" ++ randomUUID k)) rows.
Proof.
  intros tz randomUUID faults fuel params sid eventData w r w' Hinj Hp H Hok.
  destruct (handler_PUT_series_cases _ _ _ _ _ _ _ _ _ _ Hp H) as [T|(-> & _)];
    [|discriminate Hok].
  destruct (series_transaction_shape _ _ _ _ _ _ _ _ _ T) as (pairs & He & Hu).
  exists (rows_of randomUUID sid eventData pairs (uuids w)).
  split; [exact He|]. split; [apply NoDup_uid_rows_of, Hinj|]. split.
  - rewrite Hu. clear. generalize (uuids w). induction pairs as [|[s e] pairs IH]; intros u.
    + cbn. lia.
    + cbn [rows_of List.length]. rewrite IH. lia.
  - apply Forall_forall. intros row Hrow.
    destruct (in_rows_of _ _ _ _ _ _ Hrow) as (k & s & e & Hk & ->).
    exists k. split; [lia|reflexivity].
Qed.

(** ** The single-row update, again *)

Lemma uid_update_idem target eventData r :
  uid_update target eventData (uid_update target eventData r) = uid_update target eventData r.
Proof.
  unfold uid_update. destruct (sql_eq_text (uid r) target) eqn:E; cbn [uid]; rewrite E;
    reflexivity.
Qed.

(** X16.  The single-row update is idempotent: after one answered 200, the
    same request sent again, whatever its answer, leaves the table as the
    first left it. *)
Theorem X16_update_single_idempotent :
  forall tz randomUUID faults fuel1 fuel2 params target eventData w r1 w1 r2 w2,
    param_given (seriesId params) = None ->
    param_given (uid_param params) = Some target ->
    handler_PUT tz randomUUID faults fuel1 params eventData w = Some (r1, w1) ->
    statusCode r1 = 200 ->
    handler_PUT tz randomUUID faults fuel2 params eventData w1 = Some (r2, w2) ->
    events w2 = events w1.
Proof.
  intros tz randomUUID faults fuel1 fuel2 params target eventData w r1 w1 r2 w2
         Hs Hu H1 Hok H2.
  destruct (handler_PUT_uid_cases _ _ _ _ _ _ _ _ _ _ Hs Hu H1)
    as (_ & _ & [(_ & E1)|(-> & _)]); [|discriminate Hok].
  destruct (handler_PUT_uid_cases _ _ _ _ _ _ _ _ _ _ Hs Hu H2)
    as (_ & _ & [(_ & E2)|(_ & E2)]); [|exact E2].
  rewrite E2, E1, map_map. apply map_ext. intros r. apply uid_update_idem.
Qed.

(** X17.  Updating a [uid] that no row has is not an error: the table is
    unchanged, and the answer is 200 whenever the body is an object and the
    store accepts the statement. *)
Theorem X17_update_single_no_match :
  forall tz randomUUID faults fuel params target eventData w r w',
    param_given (seriesId params) = None ->
    param_given (uid_param params) = Some target ->
    Forall (fun row => uid row <> SText target) (events w) ->
    handler_PUT tz randomUUID faults fuel params eventData w = Some (r, w') ->
    events w' = events w
    /\ (nullish eventData = false -> faults (queries w) = false -> r = event_updated).
Proof.
  intros tz randomUUID faults fuel params target eventData w r w' Hs Hu Hall H. split.
  - destruct (handler_PUT_uid_cases _ _ _ _ _ _ _ _ _ _ Hs Hu H)
      as (_ & _ & [(_ & E)|(_ & E)]); [|exact E].
    rewrite E. rewrite <- (map_id (events w)) at 2. apply map_ext_in.
    intros row Hrow. apply uid_update_other.
    rewrite Forall_forall in Hall. specialize (Hall row Hrow).
    destruct (sql_eq_text (uid row) target) eqn:Eq; [|reflexivity].
    apply sql_eq_text_true in Eq. contradiction.
  - intros Hn Hf. unfold handler_PUT in H. rewrite Hs, Hu in H. unfold put_uid in H.
    rewrite Hn in H. unfold bind, query_UPDATE, query in H. rewrite Hf in H.
    cbn in H. injection H as <- _. reflexivity.
Qed.

(** ** The getPetNames handler, again *)

(** X18.  The autocomplete endpoint never changes the table or the state of
    a transaction, answers only 200, 405 or 500, answers 405 to every method
    but GET, and sends a statement to the store only for a GET whose query
    has two characters or more. *)
Theorem X18_getPetNames_read_only :
  forall collate_leb faults method q w,
    let rw := getPetNames collate_leb faults method q w in
    events (snd rw) = events w /\ snapshot (snd rw) = snapshot w
    /\ uuids (snd rw) = uuids w
    /\ (statusCode (fst rw) = 200 \/ statusCode (fst rw) = 405 \/ statusCode (fst rw) = 500)
    /\ (method <> "GET" -> rw = (mkResponse 405 (Plain "Method Not Allowed"), w))
    /\ (queries (snd rw) <> queries w ->
        method = "GET" /\ exists s, q = Some s /\ (2 <= String.length s)%nat).
Proof.
  intros collate_leb faults method q w rw. subst rw. unfold getPetNames.
  assert (Hsame : forall r : Response,
            (statusCode r = 200 \/ statusCode r = 405 \/ statusCode r = 500) ->
            (method <> "GET" -> r = mkResponse 405 (Plain "Method Not Allowed")) ->
            events (snd (r, w)) = events w /\ snapshot (snd (r, w)) = snapshot w
            /\ uuids (snd (r, w)) = uuids w
            /\ (statusCode (fst (r, w)) = 200 \/ statusCode (fst (r, w)) = 405
                \/ statusCode (fst (r, w)) = 500)
            /\ (method <> "GET" -> (r, w) = (mkResponse 405 (Plain "Method Not Allowed"), w))
            /\ (queries (snd (r, w)) <> queries w ->
                method = "GET" /\ exists s, q = Some s /\ (2 <= String.length s)%nat)).
  { intros r Hst Hm. cbn. repeat split; auto.
    - intros Hne. rewrite (Hm Hne). reflexivity.
    - exfalso. auto.
    - exfalso. auto. }
  destruct (String.eqb_spec method "GET") as [->|Hm]; cbn [negb];
    [|apply Hsame; auto].
  destruct q as [s|]; cbn [param_given]; [|apply Hsame; [auto|congruence]].
  destruct (String.eqb s ""); [apply Hsame; [auto|congruence]|].
  destruct (Nat.ltb_spec (String.length s) 2) as [Hlt|Hge];
    [apply Hsame; [auto|congruence]|].
  destruct (faults (queries w)); cbn; repeat split; auto; try congruence; eauto.
Qed.

Lemma to_lower_idem c : to_lower (to_lower c) = to_lower c.
Proof. destruct c as [[|] [|] [|] [|] [|] [|] [|] [|]]; vm_compute; reflexivity. Qed.

Lemma is_wildcard_to_lower c : is_wildcard (to_lower c) = is_wildcard c.
Proof. destruct c as [[|] [|] [|] [|] [|] [|] [|] [|]]; vm_compute; reflexivity. Qed.

Lemma to_lower_wildcard c : is_wildcard c = true -> to_lower c = c.
Proof. destruct c as [[|] [|] [|] [|] [|] [|] [|] [|]]; vm_compute; congruence. Qed.

Lemma ci_eqb_to_lower c d : ci_eqb (to_lower c) d = ci_eqb c d.
Proof. unfold ci_eqb. rewrite to_lower_idem. reflexivity. Qed.

Lemma is_wildcard_cases c :
  is_wildcard c = true -> c = "%"%char \/ c = "_"%char \/ c = "\"%char.
Proof.
  unfold is_wildcard. intros H.
  apply orb_true_iff in H as [H|H]; [apply orb_true_iff in H as [H|H]|];
    apply Ascii.eqb_eq in H; auto.
Qed.

Lemma ilike_lower p :
  (forall s, ilike (lower p) s = ilike p s)
  /\ (forall c s, ilike (lower (String c p)) s = ilike (String c p) s).
Proof.
  induction p as [|c0 p [IH0 IH1]].
  - split; [reflexivity|]. intros c s. cbn [lower].
    destruct (is_wildcard c) eqn:W.
    + rewrite (to_lower_wildcard c W). reflexivity.
    + rewrite !ilike_literal by (rewrite ?is_wildcard_to_lower; exact W).
      destruct s as [|d s]; [reflexivity|]. rewrite ci_eqb_to_lower. reflexivity.
  - split; [intros s; apply IH1|]. intros c s. cbn [lower].
    destruct (is_wildcard c) eqn:W.
    + rewrite (to_lower_wildcard c W).
      destruct (is_wildcard_cases c W) as [->|[->| ->]].
      * change (String (to_lower c0) (lower p)) with (lower (String c0 p)).
        induction s as [|d s IHs];
          rewrite (ilike_percent_unfold (lower (String c0 p))),
                  (ilike_percent_unfold (String c0 p)), IH1; [reflexivity|].
        rewrite IHs. reflexivity.
      * change (String (to_lower c0) (lower p)) with (lower (String c0 p)).
        destruct s as [|d s]; [reflexivity|]. cbn [ilike]. apply IH1.
      * destruct s as [|d s]; [reflexivity|]. cbn [ilike].
        rewrite ci_eqb_to_lower, IH0. reflexivity.
    + change (String (to_lower c0) (lower p)) with (lower (String c0 p)).
      rewrite !ilike_literal by (rewrite ?is_wildcard_to_lower; exact W).
      destruct s as [|d s]; [reflexivity|]. rewrite ci_eqb_to_lower, IH1. reflexivity.
Qed.

Lemma lower_app a b : lower (a ++ b) = (lower a ++ lower b)%string.
Proof. induction a as [|c a IH]; cbn; [reflexivity|]. rewrite IH. reflexivity. Qed.

Lemma lower_length s : String.length (lower s) = String.length s.
Proof. induction s as [|c s IH]; cbn; [reflexivity|]. rewrite IH. reflexivity. Qed.

(** X19.  The suggestions do not depend on the case of the query: a query
    and the same query in lower case get the same response and leave the
    same state. *)
Theorem X19_getPetNames_case_of_query :
  forall collate_leb faults method q w,
    getPetNames collate_leb faults method (option_map lower q) w
      = getPetNames collate_leb faults method q w.
Proof.
  intros collate_leb faults method q w. unfold getPetNames.
  destruct (negb (String.eqb method "GET")); [reflexivity|].
  destruct q as [s|]; [|reflexivity]. cbn [option_map param_given].
  assert (He : String.eqb (lower s) "" = String.eqb s "") by (destruct s; reflexivity).
  rewrite He. destruct (String.eqb s ""); [reflexivity|].
  rewrite lower_length. destruct (String.length s <? 2)%nat; [reflexivity|].
  destruct (faults (queries w)); [reflexivity|].
  unfold select_names.
  assert (Hp : forall n, ilike ("%" ++ lower s ++ "%") n = ilike ("%" ++ s ++ "%") n).
  { intros n. change ("%" ++ lower s ++ "%")%string with (lower "%" ++ lower s ++ lower "%")%string.
    rewrite <- !lower_app. apply (proj1 (ilike_lower _)). }
  rewrite (filter_ext _ _ Hp). reflexivity.
Qed.

(** ** The suggestions as a function of the set of names *)

Section Suggestions.

Variable collate_leb : string -> string -> bool.
Hypothesis collate_total : forall a b, collate_leb a b = true \/ collate_leb b a = true.
Hypothesis collate_antisym : forall a b, collate_leb a b = true -> collate_leb b a = true -> a = b.
Hypothesis collate_trans :
  forall a b c, collate_leb a b = true -> collate_leb b c = true -> collate_leb a c = true.

Lemma Sorted_head_least x l :
  Sorted (collate_le collate_leb) (x :: l) -> forall y, In y l -> collate_leb x y = true.
Proof.
  intros Hs. apply Sorted_StronglySorted in Hs.
  - inversion Hs as [|? ? _ Hall]; subst. intros y Hy.
    rewrite Forall_forall in Hall. exact (Hall y Hy).
  - intros a b c. unfold collate_le. apply collate_trans.
Qed.

Lemma sorted_NoDup_unique l1 :
  forall l2,
    Sorted (collate_le collate_leb) l1 -> Sorted (collate_le collate_leb) l2 ->
    NoDup l1 -> NoDup l2 ->
    (forall s, In s l1 <-> In s l2) ->
    l1 = l2.
Proof.
  induction l1 as [|a l1 IH]; intros [|b l2] S1 S2 N1 N2 Hin.
  - reflexivity.
  - exfalso. apply (proj2 (Hin b)). left. reflexivity.
  - exfalso. apply (proj1 (Hin a)). left. reflexivity.
  - assert (Hab : a = b).
    { destruct (proj1 (Hin a) (or_introl eq_refl)) as [E|Ha]; [auto|].
      destruct (proj2 (Hin b) (or_introl eq_refl)) as [E|Hb]; [auto|].
      apply collate_antisym.
      - exact (Sorted_head_least _ _ S1 b Hb).
      - exact (Sorted_head_least _ _ S2 a Ha). }
    subst b. f_equal.
    inversion S1; inversion S2; inversion N1; inversion N2; subst.
    apply IH; auto. intros s. split; intros Hs.
    + destruct (proj1 (Hin s) (or_intror Hs)) as [E|H']; [subst s; contradiction|exact H'].
    + destruct (proj2 (Hin s) (or_intror Hs)) as [E|H']; [subst s; contradiction|exact H'].
Qed.

Lemma select_names_set pattern rows1 rows2 :
  (forall s, In s (summaries rows1) <-> In s (summaries rows2)) ->
  select_names collate_leb pattern rows1 = select_names collate_leb pattern rows2.
Proof.
  intros Hin. unfold select_names. f_equal.
  apply sorted_NoDup_unique.
  - apply Sorted_order_by, collate_total.
  - apply Sorted_order_by, collate_total.
  - apply NoDup_order_by, NoDup_dedup.
  - apply NoDup_order_by, NoDup_dedup.
  - intros s. rewrite !in_order_by, !in_dedup, !filter_In, Hin. reflexivity.
Qed.

(** X20.  With a collation that is a total order, the suggestions depend
    only on which names the summary column holds: two tables holding the
    same set of summary texts, in whatever order, however many times each
    and whatever the other columns, get the same response to every
    request (the stores refusing, or not, alike). *)
Theorem X20_getPetNames_set_of_names :
  forall faults method q w1 w2,
    (forall s, In s (summaries (events w1)) <-> In s (summaries (events w2))) ->
    queries w1 = queries w2 ->
    fst (getPetNames collate_leb faults method q w1)
      = fst (getPetNames collate_leb faults method q w2).
Proof.
  intros faults method q w1 w2 Hin Hq. unfold getPetNames.
  destruct (negb (String.eqb method "GET")); [reflexivity|].
  destruct (param_given q) as [s|]; [|reflexivity].
  destruct (String.length s <? 2)%nat; [reflexivity|].
  rewrite Hq. destruct (faults (queries w2)); [reflexivity|]. cbn [fst].
  rewrite (select_names_set _ _ _ Hin). reflexivity.
Qed.

End Suggestions.

(** ** A series, created and deleted *)

(** X21.  A DELETE by [seriesId] undoes what a series PUT created: after a
    PUT for the series answered 200 and a DELETE for the same series
    answered 200, the table is the rows the other series and the standalone
    events had before the PUT, in their order, and no instance is left. *)
Theorem X21_put_series_then_delete :
  forall tz randomUUID faults dtstart_leb fuel1 fuel2 sid params1 params2
         eventData body2 w r1 w1 r2 w2,
    param_given (seriesId params1) = Some sid ->
    param_given (uid_param params2) = None ->
    param_given (seriesId params2) = Some sid ->
    handler tz randomUUID faults dtstart_leb fuel1 (mkRequest "PUT" params1 (Some eventData)) w
      = Some (r1, w1) ->
    status r1 = 200 ->
    handler tz randomUUID faults dtstart_leb fuel2 (mkRequest "DELETE" params2 body2) w1
      = Some (r2, w2) ->
    status r2 = 200 ->
    events w2 = filter (other_series sid) (events w)
    /\ series_pairs sid (events w2) = [].
Proof.
  intros tz randomUUID faults dtstart_leb fuel1 fuel2 sid params1 params2
         eventData body2 w r1 w1 r2 w2 Hp1 Hu2 Hp2 H1 Hok1 H2 Hok2.
  unfold handler in H1. cbn [httpMethod queryStringParameters event_body] in H1.
  change (String.eqb "PUT" "GET") with false in H1.
  change (String.eqb "PUT" "POST") with false in H1.
  change (String.eqb "PUT" "PUT") with true in H1. cbn match in H1.
  destruct (handler_PUT tz randomUUID faults fuel1 params1 eventData w) as [[r w']|] eqn:E;
    [|discriminate H1].
  injection H1 as <- <-. cbn [status reply_of] in Hok1.
  destruct (handler_PUT_series_ok _ _ _ _ _ _ _ _ _ _ Hp1 E Hok1) as (_ & rows & He & Hrows).
  rewrite (handler_DELETE_series tz randomUUID faults dtstart_leb fuel2 params2 sid body2 _
             Hu2 Hp2) in H2.
  destruct (faults (queries w')); injection H2 as <- <-; [discriminate Hok2|].
  cbn [events]. rewrite He, filter_app, filter_other_idem,
    (filter_other_instances _ _ _ Hrows), List.app_nil_r.
  split; [reflexivity|]. unfold series_pairs. rewrite filter_in_other. reflexivity.
Qed.

(** ** Worked examples *)

Lemma ascii_compare_refl a : Ascii.compare a a = Eq.
Proof. unfold Ascii.compare. apply N.compare_refl. Qed.

Lemma ascii_compare_lt_trans a b c :
  Ascii.compare a b = Lt -> Ascii.compare b c = Lt -> Ascii.compare a c = Lt.
Proof.
  unfold Ascii.compare. rewrite !N.compare_lt_iff. apply N.lt_trans.
Qed.

Lemma string_compare_trans a :
  forall b c, String.compare a b <> Gt -> String.compare b c <> Gt -> String.compare a c <> Gt.
Proof.
  induction a as [|x a IH]; intros [|y b] [|z c]; cbn [String.compare]; try congruence.
  destruct (Ascii.compare x y) eqn:E1; [| |congruence];
    (destruct (Ascii.compare y z) eqn:E2; [| |congruence]).
  - apply Ascii.compare_eq_iff in E1, E2. subst. rewrite ascii_compare_refl. apply IH.
  - apply Ascii.compare_eq_iff in E1. subst. rewrite E2. congruence.
  - apply Ascii.compare_eq_iff in E2. subst. rewrite E1. congruence.
  - rewrite (ascii_compare_lt_trans _ _ _ E1 E2). congruence.
Qed.

Lemma string_leb_trans a b c :
  String.leb a b = true -> String.leb b c = true -> String.leb a c = true.
Proof.
  unfold String.leb. intros H1 H2.
  pose proof (string_compare_trans a b c) as T.
  destruct (String.compare a b); try discriminate H1;
    destruct (String.compare b c); try discriminate H2;
    destruct (String.compare a c); try reflexivity;
    exfalso; apply T; congruence.
Qed.

Lemma text_order_total a b :
  Samples.text_order a b = true \/ Samples.text_order b a = true.
Proof.
  destruct a, b; cbn; auto. apply String.leb_total.
Qed.

Lemma uuid_source_inj i j : Examples.uuid_source i = Examples.uuid_source j -> i = j.
Proof.
  unfold Examples.uuid_source. intros H. apply (f_equal Number) in H.
  rewrite !Number_toString in H by lia. injection H as H. lia.
Qed.

(** The third statement of a POST of two events is refused: 500, and the
    table is what it was. *)
Lemma X6_post_batch_atomic_witness :
  exists w',
    handler 0 Examples.uuid_source (Examples.fault_at 2) Samples.text_order 0
            (Samples.post Samples.batch) Examples.store
      = Some (reply_of internal_server_error, w')
    /\ events w' = events Examples.store /\ snapshot w' = None.
Proof.
  destruct (X6_post_batch_atomic 0 Examples.uuid_source (Examples.fault_at 2)
              Samples.text_order 0 (mkParams None None) (Some Samples.batch)
              Examples.store eq_refl)
    as (reply & w' & H & Hs & [(Hr & _)|(Hr & He)]).
  - exfalso.
    assert (H' : handler 0 Examples.uuid_source (Examples.fault_at 2) Samples.text_order 0
                   (mkRequest "POST" (mkParams None None) (Some Samples.batch)) Examples.store
                 = Some (reply_of internal_server_error,
                         mkWorld (events Examples.store) None 4 0))
      by (vm_compute; reflexivity).
    rewrite H' in H. injection H as H _. rewrite <- H in Hr. discriminate Hr.
  - exists w'. subst reply. auto.
Defined.

(** A batch of two events, none of them [null], is accepted. *)
Lemma X7_post_accepts_witness :
  exists w',
    handler 0 Examples.uuid_source Examples.no_faults Samples.text_order 0
            (mkRequest "POST" (mkParams None None) (Some Samples.batch)) Examples.store
      = Some (reply_of events_added, w').
Proof.
  apply (proj2 (X7_post_accepts 0 Examples.uuid_source Examples.no_faults Samples.text_order 0
                  (mkParams None None) (Some Samples.batch) Examples.store
                  (fun _ => eq_refl) eq_refl)).
  eexists. eexists. split; [reflexivity|]. split; [reflexivity|].
  repeat constructor.
Defined.

(** Deleting row [b] of the example store, a [seriesId] being given too:
    the rows of series [s1] stay. *)
Lemma X8_delete_by_uid_witness :
  exists reply w',
    handler 0 Examples.uuid_source Examples.no_faults Samples.text_order 0
            (Samples.delete (mkParams (Some "s1") (Some "b"))) Examples.store
      = Some (reply, w')
    /\ status reply = 200
    /\ events w' = [Examples.stored "a" "Fluffy" (SText "s1");
                    Examples.stored "c" "Fluffy" (SText "s1")].
Proof.
  let r := eval vm_compute in
             (handler 0 Examples.uuid_source Examples.no_faults Samples.text_order 0
                      (Samples.delete (mkParams (Some "s1") (Some "b"))) Examples.store) in
  match r with Some (?r1, ?w1) => exists r1, w1 end.
  match goal with |- ?A /\ _ => assert (H : A) by (vm_compute; reflexivity) end.
  split; [exact H|]. split; [reflexivity|].
  destruct (X8_delete_by_uid 0 Examples.uuid_source Examples.no_faults Samples.text_order 0
              (mkParams (Some "s1") (Some "b")) "b" None Examples.store _ _ eq_refl H)
    as (_ & _ & [(_ & _ & He)|(_ & Hf & _)] & _); [|discriminate Hf].
  rewrite He. reflexivity.
Defined.

(** Deleting series [s1] of the example store leaves the standalone row. *)
Lemma X9_delete_series_witness :
  exists reply w',
    handler 0 Examples.uuid_source Examples.no_faults Samples.text_order 0
            (Samples.delete (Examples.for_series "s1")) Examples.store
      = Some (reply, w')
    /\ status reply = 200
    /\ events w' = [Examples.stored "b" "Flash" SNull].
Proof.
  let r := eval vm_compute in
             (handler 0 Examples.uuid_source Examples.no_faults Samples.text_order 0
                      (Samples.delete (Examples.for_series "s1")) Examples.store) in
  match r with Some (?r1, ?w1) => exists r1, w1 end.
  match goal with |- ?A /\ _ => assert (H : A) by (vm_compute; reflexivity) end.
  split; [exact H|]. split; [reflexivity|].
  destruct (X9_delete_series 0 Examples.uuid_source Examples.no_faults Samples.text_order 0
              (Examples.for_series "s1") "s1" None Examples.store _ _ eq_refl eq_refl H eq_refl)
    as (He & _).
  rewrite He. reflexivity.
Defined.

(** The same DELETE twice. *)
Lemma X10_delete_idempotent_witness :
  exists r1 w1 r2 w2,
    handler 0 Examples.uuid_source Examples.no_faults Samples.text_order 0
            (Samples.delete (Examples.for_series "s1")) Examples.store
      = Some (r1, w1)
    /\ status r1 = 200
    /\ handler 0 Examples.uuid_source Examples.no_faults Samples.text_order 0
               (Samples.delete (Examples.for_series "s1")) w1
       = Some (r2, w2)
    /\ events w2 = events w1.
Proof.
  let r := eval vm_compute in
             (handler 0 Examples.uuid_source Examples.no_faults Samples.text_order 0
                      (Samples.delete (Examples.for_series "s1")) Examples.store) in
  match r with
  | Some (?r1, ?w1) =>
      exists r1, w1;
      let r' := eval vm_compute in
                  (handler 0 Examples.uuid_source Examples.no_faults Samples.text_order 0
                           (Samples.delete (Examples.for_series "s1")) w1) in
      match r' with Some (?r2, ?w2) => exists r2, w2 end
  end.
  match goal with
  | |- ?A /\ _ /\ ?B /\ _ =>
      assert (H1 : A) by (vm_compute; reflexivity);
      assert (H2 : B) by (vm_compute; reflexivity)
  end.
  split; [exact H1|]. split; [reflexivity|]. split; [exact H2|].
  exact (X10_delete_idempotent 0 Examples.uuid_source Examples.no_faults Samples.text_order
           0 0 (Examples.for_series "s1") None Examples.store _ _ _ _ H1 eq_refl H2).
Defined.

(** An event posted to the example store and deleted again. *)
Lemma X11_post_then_delete_witness :
  exists r1 w1 r2 w2,
    handler 0 Examples.uuid_source Examples.no_faults Samples.text_order 0
            (Samples.post (JArray [Samples.new_event "x" "Rex" "2024-03-01T09:00:00.000Z"]))
            Examples.store
      = Some (r1, w1)
    /\ handler 0 Examples.uuid_source Examples.no_faults Samples.text_order 0
               (Samples.delete (Examples.for_uid "x")) w1
       = Some (r2, w2)
    /\ status r1 = 201 /\ status r2 = 200 /\ events w2 = events Examples.store.
Proof.
  let r := eval vm_compute in
             (handler 0 Examples.uuid_source Examples.no_faults Samples.text_order 0
                (Samples.post (JArray [Samples.new_event "x" "Rex" "2024-03-01T09:00:00.000Z"]))
                Examples.store) in
  match r with
  | Some (?r1, ?w1) =>
      exists r1, w1;
      let r' := eval vm_compute in
                  (handler 0 Examples.uuid_source Examples.no_faults Samples.text_order 0
                           (Samples.delete (Examples.for_uid "x")) w1) in
      match r' with Some (?r2, ?w2) => exists r2, w2 end
  end.
  match goal with
  | |- ?A /\ ?B /\ _ =>
      assert (H1 : A) by (vm_compute; reflexivity);
      assert (H2 : B) by (vm_compute; reflexivity)
  end.
  split; [exact H1|]. split; [exact H2|].
  refine (X11_post_then_delete 0 Examples.uuid_source Examples.no_faults Samples.text_order
            0 0 (mkParams None None) (Examples.for_uid "x") None
            (JArray [Samples.new_event "x" "Rex" "2024-03-01T09:00:00.000Z"])
            [Samples.new_event "x" "Rex" "2024-03-01T09:00:00.000Z"] "x" Examples.store
            _ _ _ _ (fun _ => eq_refl) eq_refl _ _ eq_refl H1 H2).
  - repeat constructor.
  - repeat constructor; discriminate.
Defined.


(** The listing of a table that holds the later event first. *)
Lemma X13_get_lists_all_sorted_witness :
  exists reply w',
    handler 0 Examples.uuid_source Examples.no_faults Samples.text_order 0
            Samples.get Samples.unsorted
      = Some (reply, w')
    /\ exists rows,
         payload reply = Rows rows
         /\ Permutation rows (events Samples.unsorted)
         /\ Sorted (dtstart_le Samples.text_order) rows.
Proof.
  let r := eval vm_compute in
             (handler 0 Examples.uuid_source Examples.no_faults Samples.text_order 0
                      Samples.get Samples.unsorted) in
  match r with Some (?r1, ?w1) => exists r1, w1 end.
  match goal with |- ?A /\ _ => assert (H : A) by (vm_compute; reflexivity) end.
  split; [exact H|].
  exact (proj2 (X13_get_lists_all_sorted 0 Examples.uuid_source Examples.no_faults
                  Samples.text_order text_order_total 0 (mkParams None None) None
                  Samples.unsorted _ _ H eq_refl)).
Defined.

(** The rows of series [s1] after Monday, Wednesday and Friday of the
    example week replace it. *)
Lemma X14_series_rows_agree_witness :
  exists w',
    handler_PUT 0 Examples.uuid_source Examples.no_faults 20
                (Examples.for_series "s1") Examples.mon_wed_fri Examples.store
      = Some (series_updated, w')
    /\ forall r1 r2,
         In r1 (events w') -> in_series "s1" r1 = true ->
         In r2 (events w') -> in_series "s1" r2 = true ->
         shared_fields r1 = shared_fields r2.
Proof.
  let r := eval vm_compute in
             (handler_PUT 0 Examples.uuid_source Examples.no_faults 20
                          (Examples.for_series "s1") Examples.mon_wed_fri Examples.store) in
  match r with Some (_, ?w1) => exists w1 end.
  match goal with |- ?A /\ _ => assert (H : A) by (vm_compute; reflexivity) end.
  split; [exact H|].
  intros r1 r2.
  exact (X14_series_rows_agree 0 Examples.uuid_source Examples.no_faults 20
           (Examples.for_series "s1") "s1" Examples.mon_wed_fri Examples.store
           _ _ r1 r2 eq_refl H eq_refl).
Defined.

(** The same request: three rows, three identifiers. *)
Lemma X15_series_uids_fresh_witness :
  exists w' rows,
    handler_PUT 0 Examples.uuid_source Examples.no_faults 20
                (Examples.for_series "s1") Examples.mon_wed_fri Examples.store
      = Some (series_updated, w')
    /\ events w' = filter (other_series "s1") (events Examples.store) ++ rows
    /\ NoDup (map uid rows)
    /\ List.length rows = 3%nat.
Proof.
  let r := eval vm_compute in
             (handler_PUT 0 Examples.uuid_source Examples.no_faults 20
                          (Examples.for_series "s1") Examples.mon_wed_fri Examples.store) in
  match r with Some (_, ?w1) => exists w1 end.
  match goal with
  | |- exists rows, ?A /\ _ => assert (H : A) by (vm_compute; reflexivity)
  end.
  destruct (X15_series_uids_fresh 0 Examples.uuid_source Examples.no_faults 20
              (Examples.for_series "s1") "s1" Examples.mon_wed_fri Examples.store
              _ _ uuid_source_inj eq_refl H eq_refl)
    as (rows & He & Hn & Hl & _).
  exists rows. split; [exact H|]. split; [exact He|]. split; [exact Hn|exact Hl].
Defined.

(** Row [b] of the example store updated twice. *)
Lemma X16_update_single_idempotent_witness :
  exists w1 w2,
    handler_PUT 0 Examples.uuid_source Examples.no_faults 0
                (Examples.for_uid "b") Examples.sparse_update Examples.store
      = Some (event_updated, w1)
    /\ handler_PUT 0 Examples.uuid_source Examples.no_faults 0
                   (Examples.for_uid "b") Examples.sparse_update w1
       = Some (event_updated, w2)
    /\ events w2 = events w1.
Proof.
  let r := eval vm_compute in
             (handler_PUT 0 Examples.uuid_source Examples.no_faults 0
                          (Examples.for_uid "b") Examples.sparse_update Examples.store) in
  match r with
  | Some (_, ?w1) =>
      exists w1;
      let r' := eval vm_compute in
                  (handler_PUT 0 Examples.uuid_source Examples.no_faults 0
                               (Examples.for_uid "b") Examples.sparse_update w1) in
      match r' with Some (_, ?w2) => exists w2 end
  end.
  match goal with
  | |- ?A /\ ?B /\ _ =>
      assert (H1 : A) by (vm_compute; reflexivity);
      assert (H2 : B) by (vm_compute; reflexivity)
  end.
  split; [exact H1|]. split; [exact H2|].
  exact (X16_update_single_idempotent 0 Examples.uuid_source Examples.no_faults 0 0
           (Examples.for_uid "b") "b" Examples.sparse_update Examples.store
           _ _ _ _ eq_refl eq_refl H1 eq_refl H2).
Defined.

(** No row of the example store has the [uid] [zzz]. *)
Lemma X17_update_single_no_match_witness :
  exists w',
    handler_PUT 0 Examples.uuid_source Examples.no_faults 0
                (Examples.for_uid "zzz") Examples.sparse_update Examples.store
      = Some (event_updated, w')
    /\ events w' = events Examples.store.
Proof.
  let r := eval vm_compute in
             (handler_PUT 0 Examples.uuid_source Examples.no_faults 0
                          (Examples.for_uid "zzz") Examples.sparse_update Examples.store) in
  match r with Some (_, ?w1) => exists w1 end.
  match goal with |- ?A /\ _ => assert (H : A) by (vm_compute; reflexivity) end.
  split; [exact H|].
  refine (proj1 (X17_update_single_no_match 0 Examples.uuid_source Examples.no_faults 0
                   (Examples.for_uid "zzz") "zzz" Examples.sparse_update Examples.store
                   _ _ eq_refl eq_refl _ H)).
  repeat constructor; discriminate.
Defined.

(** A POST to the autocomplete endpoint. *)
Lemma X18_getPetNames_read_only_witness :
  getPetNames String.leb Examples.no_faults "POST" (Some "fl") Examples.store
    = (mkResponse 405 (Plain "Method Not Allowed"), Examples.store).
Proof.
  apply (X18_getPetNames_read_only String.leb Examples.no_faults "POST" (Some "fl")
           Examples.store).
  discriminate.
Defined.

(** The example store and a table with the same two names, once each. *)
Lemma X20_getPetNames_set_of_names_witness :
  fst (getPetNames String.leb Examples.no_faults "GET" (Some "fl") Examples.store)
    = fst (getPetNames String.leb Examples.no_faults "GET" (Some "fl") Samples.reordered)
  /\ fst (getPetNames String.leb Examples.no_faults "GET" (Some "fl") Examples.store)
     = mkResponse 200 (Names ["Flash"%string; "Fluffy"%string]).
Proof.
  split; [|vm_compute; reflexivity].
  apply (X20_getPetNames_set_of_names String.leb String.leb_total String.leb_antisym
           string_leb_trans Examples.no_faults "GET" (Some "fl")
           Examples.store Samples.reordered).
  - intros s. cbn. tauto.
  - reflexivity.
Defined.

(** Series [s1] of the example store replaced, then deleted. *)
Lemma X21_put_series_then_delete_witness :
  exists r1 w1 r2 w2,
    handler 0 Examples.uuid_source Examples.no_faults Samples.text_order 20
            (Samples.put (Examples.for_series "s1") Examples.mon_wed_fri) Examples.store
      = Some (r1, w1)
    /\ handler 0 Examples.uuid_source Examples.no_faults Samples.text_order 0
               (Samples.delete (Examples.for_series "s1")) w1
       = Some (r2, w2)
    /\ List.length (events w1) = 4%nat
    /\ events w2 = [Examples.stored "b" "Flash" SNull].
Proof.
  let r := eval vm_compute in
             (handler 0 Examples.uuid_source Examples.no_faults Samples.text_order 20
                (Samples.put (Examples.for_series "s1") Examples.mon_wed_fri) Examples.store) in
  match r with
  | Some (?r1, ?w1) =>
      exists r1, w1;
      let r' := eval vm_compute in
                  (handler 0 Examples.uuid_source Examples.no_faults Samples.text_order 0
                           (Samples.delete (Examples.for_series "s1")) w1) in
      match r' with Some (?r2, ?w2) => exists r2, w2 end
  end.
  match goal with
  | |- ?A /\ ?B /\ _ =>
      assert (H1 : A) by (vm_compute; reflexivity);
      assert (H2 : B) by (vm_compute; reflexivity)
  end.
  split; [exact H1|]. split; [exact H2|]. split; [reflexivity|].
  destruct (X21_put_series_then_delete 0 Examples.uuid_source Examples.no_faults
              Samples.text_order 20 0 "s1" (Examples.for_series "s1")
              (Examples.for_series "s1") Examples.mon_wed_fri None Examples.store
              _ _ _ _ eq_refl eq_refl eq_refl H1 eq_refl H2 eq_refl) as (He & _).
  rewrite He. reflexivity.
Defined.
